(** * PrintVault material data: scraper pipeline

    A shallow embedding of the decision logic of [scraper.py] and
    [strategies/shopify.py]: the blacklist validation engine, the keyword
    classifiers, the enrichment step, the Shopify endpoint derivation and the
    merge of freshly scraped records with the persisted catalog.

    Modelling conventions.
    - A Python [str] is a [string]; the model is exact on ASCII text
      ([lower] folds [A-Z] only, the word class of [\b] is [[A-Za-z0-9_]]).
      The one non-ASCII blacklist pattern is kept as its UTF-8 bytes.
    - A JSON/Python value is a [value]; a [dict] is an association list in
      insertion order, read with [dict_get] and written with [dict_set].
    - A raised exception is the [None] of the option monad.
    - Objects mutated in place by the merge loop live in a [heap]
      (a list indexed by address), so aliasing between [new_data] and
      [existing] is explicit. *)

From Stdlib Require Import Ascii String.
From stdpp Require Import base option list strings.

Set Warnings "-register-all".
Open Scope string_scope.

(** ** Python strings *)

Module PyStr.

Definition is_upper (c : ascii) : bool :=
  let n := nat_of_ascii c in (65 <=? n)%nat && (n <=? 90)%nat.

Definition lower_char (c : ascii) : ascii :=
  if is_upper c then ascii_of_nat (nat_of_ascii c + 32) else c.

(** [s.lower()] *)
Fixpoint lower (s : string) : string :=
  match s with
  | EmptyString => EmptyString
  | String c r => String (lower_char c) (lower r)
  end.

(** [s.startswith(p)] *)
Fixpoint startswith (p s : string) : bool :=
  match p, s with
  | EmptyString, _ => true
  | String a p', String b s' => Ascii.eqb a b && startswith p' s'
  | String _ _, EmptyString => false
  end.

(** [p in s] *)
Fixpoint contains (p s : string) : bool :=
  startswith p s ||
  match s with
  | EmptyString => false
  | String _ s' => contains p s'
  end.

(** [sep.join(l)] *)
Fixpoint join (sep : string) (l : list string) : string :=
  match l with
  | [] => ""
  | [x] => x
  | x :: r => x ++ sep ++ join sep r
  end.

(** [s.rstrip(c)]: a character is dropped when it is [c] and nothing
    survives to its right. *)
Fixpoint rstrip_char (c : ascii) (s : string) : string :=
  match s with
  | EmptyString => EmptyString
  | String a r =>
      let r' := rstrip_char c r in
      if Ascii.eqb a c && String.eqb r' "" then EmptyString else String a r'
  end.

(** Iterating a [str] yields its one-character strings. *)
Fixpoint chars (s : string) : list string :=
  match s with
  | EmptyString => []
  | String c r => String c EmptyString :: chars r
  end.

(** [s[:n]] *)
Definition take (n : nat) (s : string) : string := String.substring 0 n s.

(** The part of [s] before the first occurrence of [sep], and whether
    [sep] occurs at all; [s.split(sep)[0]] is the first component. *)
Fixpoint before_first (sep s : string) : string * bool :=
  if startswith sep s then ("", true)
  else match s with
       | EmptyString => ("", false)
       | String c r => let '(a, b) := before_first sep r in (String c a, b)
       end.

Definition split_head (sep s : string) : string := (before_first sep s).1.

(** [s.split(c)] for a one-character separator. *)
Fixpoint split_char (c : ascii) (s : string) : list string :=
  match s with
  | EmptyString => [""]
  | String a r =>
      if Ascii.eqb a c then "" :: split_char c r
      else match split_char c r with
           | x :: l => String a x :: l
           | [] => [String a ""]
           end
  end.

Definition is_space (c : ascii) : bool :=
  let n := nat_of_ascii c in
  ((9 <=? n)%nat && (n <=? 13)%nat) ||
  ((28 <=? n)%nat && (n <=? 32)%nat).

Fixpoint lstrip (s : string) : string :=
  match s with
  | EmptyString => EmptyString
  | String a r => if is_space a then lstrip r else s
  end.

(** [s.strip()] *)
Definition strip (s : string) : string :=
  String.rev (lstrip (String.rev (lstrip s))).

End PyStr.

(** ** The fragment of [re] used by the blacklists

    Patterns are kept as the source writes them (raw strings) and compiled by
    [Re.compile]; the fragment covers literals, [.], [\s], [\b] and the
    postfix [*] on a one-character atom, which is all the tables use. *)

Module Re.

Inductive cls : Type :=
  | CChar (c : ascii)   (* a literal character *)
  | CAny                (* [.]: anything but a newline *)
  | CSpace.             (* [\s] *)

Inductive item : Type :=
  | IOne (k : cls)
  | IStar (k : cls)
  | IBound.             (* [\b] *)

Inductive token : Type :=
  | TCls (k : cls)
  | TBound
  | TStar.

(** A backslash followed by any character other than [b] and [s] stands
    for that character. *)
Fixpoint tokens (s : string) : list token :=
  match s with
  | EmptyString => []
  | String c r =>
      if Ascii.eqb c "\" then
        match r with
        | String d r' =>
            if Ascii.eqb d "b" then TBound :: tokens r'
            else if Ascii.eqb d "s" then TCls CSpace :: tokens r'
            else TCls (CChar d) :: tokens r'
        | EmptyString => []
        end
      else if Ascii.eqb c "." then TCls CAny :: tokens r
      else if Ascii.eqb c "*" then TStar :: tokens r
      else TCls (CChar c) :: tokens r
  end.

Fixpoint items (ts : list token) : list item :=
  match ts with
  | [] => []
  | TCls k :: TStar :: r => IStar k :: items r
  | TCls k :: r => IOne k :: items r
  | TBound :: r => IBound :: items r
  | TStar :: r => items r
  end.

Definition compile (pat : string) : list item := items (tokens pat).

Definition is_word (c : ascii) : bool :=
  let n := nat_of_ascii c in
  ((48 <=? n)%nat && (n <=? 57)%nat) ||
  ((65 <=? n)%nat && (n <=? 90)%nat) ||
  ((97 <=? n)%nat && (n <=? 122)%nat) ||
  (n =? 95)%nat.

Definition cls_ok (k : cls) (c : ascii) : bool :=
  match k with
  | CChar a => Ascii.eqb a c
  | CAny => negb (Ascii.eqb c "010")
  | CSpace => PyStr.is_space c
  end.

Definition word_opt (o : option ascii) : bool :=
  match o with Some c => is_word c | None => false end.

Definition head_char (s : string) : option ascii :=
  match s with EmptyString => None | String c _ => Some c end.

(** [\b]: exactly one of the two neighbours is a word character. *)
Definition at_boundary (prev : option ascii) (s : string) : bool :=
  xorb (word_opt prev) (word_opt (head_char s)).

(** Does the pattern match at the current position?  [prev] is the
    character just before it, needed by [\b]. *)
Fixpoint match_here (re : list item) (prev : option ascii) (s : string) : bool :=
  match re with
  | [] => true
  | IBound :: re' => at_boundary prev s && match_here re' prev s
  | IOne k :: re' =>
      match s with
      | String c s' => cls_ok k c && match_here re' (Some c) s'
      | EmptyString => false
      end
  | IStar k :: re' =>
      (fix star (prev : option ascii) (s : string) : bool :=
         match_here re' prev s ||
         match s with
         | String c s' => cls_ok k c && star (Some c) s'
         | EmptyString => false
         end) prev s
  end.

Fixpoint search_from (re : list item) (prev : option ascii) (s : string) : bool :=
  match_here re prev s ||
  match s with
  | String c s' => search_from re (Some c) s'
  | EmptyString => false
  end.

(** [re.search(pat, text)] as a truth value. *)
Definition search (pat text : string) : bool :=
  search_from (compile pat) None text.

End Re.

(** ** JSON / Python values and dictionaries *)

Inductive value : Type :=
  | VNone
  | VBool (b : bool)
  | VNum (z : Z)
  | VStr (s : string)
  | VList (l : list value)
  | VDict (d : list (string * value)).

Definition dict : Type := list (string * value).

(** [key in d] *)
Fixpoint dict_has (d : dict) (k : string) : bool :=
  match d with
  | [] => false
  | (k', _) :: r => String.eqb k' k || dict_has r k
  end.

(** [d.get(k)] as an option: [None] when the key is absent. *)
Fixpoint dict_find (d : dict) (k : string) : option value :=
  match d with
  | [] => None
  | (k', v) :: r => if String.eqb k' k then Some v else dict_find r k
  end.

(** [d.get(k, dflt)] *)
Definition dict_get (d : dict) (k : string) (dflt : value) : value :=
  default dflt (dict_find d k).

(** [d[k] = v]: overwrite in place, or append a new key. *)
Fixpoint dict_set (d : dict) (k : string) (v : value) : dict :=
  match d with
  | [] => [(k, v)]
  | (k', v') :: r =>
      if String.eqb k' k then (k', v) :: r else (k', v') :: dict_set r k v
  end.

(** [d.update(u)]: the keys of [u] are written in their order. *)
Definition dict_update (d u : dict) : dict :=
  fold_left (fun acc kv => dict_set acc kv.1 kv.2) u d.

(** Python truthiness of a JSON value. *)
Definition truthy (v : value) : bool :=
  match v with
  | VNone => false
  | VBool b => b
  | VNum z => negb (Z.eqb z 0)
  | VStr s => negb (String.eqb s "")
  | VList l => match l with [] => false | _ => true end
  | VDict d => match d with [] => false | _ => true end
  end.

(** [a or b] *)
Definition py_or (a b : value) : value := if truthy a then a else b.

(** [v.lower()]: only a [str] has the method. *)
Definition str_lower (v : value) : option string :=
  match v with
  | VStr s => Some (PyStr.lower s)
  | _ => None
  end.

(** [for t in v]: lists, strings and dicts are iterable. *)
Definition iterate (v : value) : option (list value) :=
  match v with
  | VList l => Some l
  | VStr s => Some (VStr <$> PyStr.chars s)
  | VDict d => Some ((fun kv => VStr kv.1) <$> d)
  | _ => None
  end.

(** ** Validation engine ([scraper.py], [validate_product]) *)

Definition FILAMENT_BLACKLIST : list string :=
  [ "\bfilament\b"; "\bpla\b"; "\bpetg\b"; "\bpet-cf\b"; "\btpu\b";
    "\bpeba\b"; "\bpa-cf\b"; "\bnylon\b"; "\basa\b"; "\bspidermaker\b";
    "フィラメント" ].

Definition HARDWARE_BLACKLIST : list string :=
  [ "\bhalot\b"; "\bmage\b"; "\bcombo\b"; "\bplate\b";
    "\btoolkit\b"; "\blcd\b"; "\bscreen\b"; "\bfep\b"; "\bnfep\b"; "\bfilm\b";
    "\bcuring station\b"; "\bwashing station\b"; "\bwash.*cure\b"; "\bcure.*wash\b";
    "\bheater\b"; "\bretrofit\b"; "\bdryer\b"; "\bkobra\b"; "\bneptune\b";
    "\bnozzle\b"; "\bhotend\b"; "\bextruder\b"; "\bplatform\b"; "\bmagnetic\b";
    "\bairpure\b"; "\btube\b"; "\bhub\b"; "\bkit\b"; "\bpart\b"; "\badhesive\b";
    "\bsheet\b"; "\bglass\b"; "\bboard\b"; "\bcontroller\b"; "\bcable\b";
    "\bmodule\b"; "\bsensor\b"; "\bfan\b"; "\bmotor\b"; "\bcamera\b"; "\bled\b";
    "\bcfs\b"; "\bspacepi\b"; "\bstorage\b"; "\bbox\b"; "\bsystem\b";
    "\bscrew\b"; "\bwiper\b"; "\bcutter\b"; "\bassembly\b"; "\bpcba\b";
    "\bantenna\b"; "\bpower\s*supply\b"; "\bwire\b"; "\btools\b"; "\bshaft\b";
    "\bnut\b"; "filter"; "switch"; "coupler"; "holder"; "ace\s*pro"; "belt";
    "touchscreen"; "screen"; "relay"; "spring"; "lock"; "\bhose\b"; "reusable\s*spool";
    "coating" ].

Definition NON_PRODUCT_BLACKLIST : list string :=
  [ "guide"; "review"; "recensione"; "guarantee"; "support"; "shipping"; "service";
    "years of"; "black friday"; "deal"; "campfire"; "202."; "bundle"; "pack";
    "set"; "gift"; "protection"; "deposit"; "claim"; "link"; "coupon"; "discount";
    "sale"; "clearance"; "refurbished"; "renewed"; "usado"; "reacondicionado";
    "membership"; "subscription"; "prize"; "reward"; "seel"; "insurance";
    "soleyin"; "3d\s*pen" ].

Definition RESIN_BLACKLIST : list string :=
  [ "resin"; "wash"; "cure"; "dlp"; "sla"; "photon"; "mono"; "halot";
    "creality\s*3d\s*printer"; "anycubic\s*3d\s*printer"; "elegoo\s*3d\s*printer" ].

(** [for pat in pats: if re.search(pat, text): ...] reaches its body. *)
Definition any_match (pats : list string) (text : string) : bool :=
  existsb (fun pat => Re.search pat text) pats.

(** The rejecting branches that log first evaluate [product['name']],
    which raises [KeyError] on a record without that key. *)
Definition reject_logged (product : dict) : option bool :=
  if dict_has product "name" then Some false else None.

Definition validate_product (product : dict) (category : string) : option bool :=
  name_lower ← str_lower (dict_get product "name" (VStr ""));
  tag_values ← iterate (dict_get product "tags" (VList []));
  tags ← mapM str_lower tag_values;
  let all_text := name_lower ++ " " ++ PyStr.join " " tags in
  if String.eqb category "resin" then
    if any_match FILAMENT_BLACKLIST all_text then reject_logged product
    else if any_match HARDWARE_BLACKLIST all_text then reject_logged product
    else if any_match NON_PRODUCT_BLACKLIST all_text then reject_logged product
    else if Re.search "\babs\b" name_lower && negb (PyStr.contains "like" name_lower)
    then Some false
    else Some true
  else if String.eqb category "filament" then
    if any_match RESIN_BLACKLIST name_lower then reject_logged product
    else if any_match HARDWARE_BLACKLIST name_lower then reject_logged product
    else if any_match NON_PRODUCT_BLACKLIST all_text then reject_logged product
    else Some true
  else Some true.

(** ** Shopify strategy and classifiers ([strategies/shopify.py]) *)

Definition PRODUCTS_SUFFIX : string := "/products.json?limit=250".

Fixpoint take_host (s : string) : string :=
  match s with
  | EmptyString => EmptyString
  | String c r => if Ascii.eqb c "/" then EmptyString else String c (take_host r)
  end.

(** [re.match(r'(https?://[^/]+)', s)] and its [group(1)]: the scheme
    followed by the longest non-empty run of characters other than [/]. *)
Definition match_base_domain (s : string) : option string :=
  let with_scheme (scheme : string) : option string :=
    let host := take_host (String.substring (String.length scheme)
                                            (String.length s) s) in
    if String.eqb host "" then None else Some (scheme ++ host) in
  if PyStr.startswith "https://" s then with_scheme "https://"
  else if PyStr.startswith "http://" s then with_scheme "http://"
  else None.

Definition get_shopify_json_url (base_url : string) : string :=
  let base_url := PyStr.rstrip_char "/" base_url in
  if PyStr.contains "/collections/" base_url then base_url ++ PRODUCTS_SUFFIX
  else match match_base_domain base_url with
       | Some domain => domain ++ PRODUCTS_SUFFIX
       | None => base_url ++ PRODUCTS_SUFFIX
       end.

(** The candidate endpoints of [scrape_shopify], in the order tried. *)
Definition shopify_endpoints (base_url : string) : list string :=
  let base_clean := PyStr.rstrip_char "/" base_url in
  [base_clean ++ PRODUCTS_SUFFIX] ++
  (if PyStr.contains "/collections/" base_clean then
     [base_clean ++ PRODUCTS_SUFFIX] ++
     match match_base_domain base_clean with
     | Some domain => [domain ++ PRODUCTS_SUFFIX]
     | None => []
     end
   else []).

(** The ordered keyword table of [detect_product_type]: each row lists the
    substrings of one [if] and the label it returns. *)
Definition TYPE_KEYWORDS : list (list string * string) :=
  [ (["pla+"; "pla plus"], "PLA+");
    (["petg"], "PETG");
    (["abs"], "ABS");
    (["asa"], "ASA");
    (["tpu"; "tpe"; "flex"], "TPU");
    (["nylon"; "pa12"; "pa6"], "Nylon");
    (["silk"], "Silk PLA");
    (["matte"], "Matte PLA");
    (["wood"], "Wood");
    (["carbon"; "cf"], "Carbon Fiber");
    (["pla"], "PLA");
    (["water wash"], "Water Washable");
    (["abs-like"; "abs like"], "ABS-Like");
    (["tough"], "Tough");
    (["flexible"; "elastic"], "Flexible");
    (["dental"], "Dental");
    (["castable"], "Castable");
    (["clear"; "transparent"], "Transparent");
    (["resin"], "Standard") ].

Definition row_hits (text : string) (row : list string * string) : bool :=
  existsb (fun kw => PyStr.contains kw text) row.1.

Fixpoint first_label (rows : list (list string * string)) (text dflt : string) : string :=
  match rows with
  | [] => dflt
  | row :: r => if row_hits text row then row.2 else first_label r text dflt
  end.

Definition detect_product_type (title product_type : string) : string :=
  let title_lower := PyStr.lower (title ++ " " ++ product_type) in
  first_label TYPE_KEYWORDS title_lower "Standard".

Definition COLORS : list (string * (string * string)) :=
  [ ("black", ("#000000", "Black"));
    ("white", ("#ffffff", "White"));
    ("grey", ("#808080", "Grey"));
    ("gray", ("#808080", "Grey"));
    ("red", ("#ef4444", "Red"));
    ("blue", ("#3b82f6", "Blue"));
    ("green", ("#22c55e", "Green"));
    ("yellow", ("#eab308", "Yellow"));
    ("orange", ("#f97316", "Orange"));
    ("purple", ("#a855f7", "Purple"));
    ("pink", ("#ec4899", "Pink"));
    ("clear", ("#e5e7eb", "Clear"));
    ("transparent", ("#e5e7eb", "Transparent"));
    ("silver", ("#c0c0c0", "Silver"));
    ("gold", ("#ffd700", "Gold"));
    ("beige", ("#d4a574", "Beige"));
    ("navy", ("#3f4756", "Navy"));
    ("teal", ("#14b8a6", "Teal"));
    ("cyan", ("#06b6d4", "Cyan")) ].

Fixpoint first_color (table : list (string * (string * string))) (text : string)
  : string * string :=
  match table with
  | [] => ("#808080", "Grey")
  | (keyword, c) :: r =>
      if PyStr.contains keyword text then c else first_color r text
  end.

Definition detect_color (title variant_title : string) : string * string :=
  first_color COLORS (PyStr.lower (title ++ " " ++ variant_title)).

(** ** The generic scraper's classifier ([scrapers/generic.py])

    [GenericScraper.detect_type_from_name] keeps one keyword table per
    catalog; [product_type] is the scraper's [self.product_type]. *)

Module Generic.

Definition RESIN_TYPE_KEYWORDS : list (string * string) :=
  [ ("tough", "Tough");
    ("abs-like", "ABS-Like");
    ("abs like", "ABS-Like");
    ("flexible", "Flexible");
    ("elastic", "Elastic");
    ("water wash", "Water Washable");
    ("plant", "Plant Based");
    ("castable", "Castable");
    ("dental", "Dental");
    ("high temp", "High Temp");
    ("ceramic", "Ceramic");
    ("clear", "Transparent");
    ("transparent", "Transparent");
    ("glow", "Glow in Dark") ].

Definition FILAMENT_TYPE_KEYWORDS : list (string * string) :=
  [ ("pla+", "PLA+");
    ("pla plus", "PLA+");
    ("petg", "PETG");
    ("abs", "ABS");
    ("asa", "ASA");
    ("tpu", "TPU");
    ("tpe", "TPE");
    ("nylon", "Nylon");
    ("pc", "PC");
    ("carbon", "Carbon Fiber");
    ("silk", "Silk");
    ("matte", "Matte");
    ("wood", "Wood");
    ("metal", "Metal Fill");
    ("glow", "Glow") ].

Fixpoint first_type (table : list (string * string)) (name_lower dflt : string) : string :=
  match table with
  | [] => dflt
  | (keyword, type_name) :: r =>
      if PyStr.contains keyword name_lower then type_name
      else first_type r name_lower dflt
  end.

Definition detect_type_from_name (product_type name : string) : string :=
  let name_lower := PyStr.lower name in
  if String.eqb product_type "resin"
  then first_type RESIN_TYPE_KEYWORDS name_lower "Standard"
  else first_type FILAMENT_TYPE_KEYWORDS name_lower "PLA".

End Generic.

(** A [str] operand, or [TypeError]. *)
Definition as_str (v : value) : option string :=
  match v with VStr s => Some s | _ => None end.

(** A [dict] receiver of [.get], or [AttributeError]. *)
Definition as_dict (v : value) : option dict :=
  match v with VDict d => Some d | _ => None end.

(** [float(x)] has three outcomes. *)
Inductive float_result : Type :=
  | FloatOk (v : value)
  | FloatValueError
  | FloatTypeError.

Section Strategies.

(** Two Python built-ins are taken as given: [float], and the text an
    f-string substitutes for a value that is not a [str]. *)
Variable py_float : value -> float_result.
Variable py_format : value -> string.

Definition format_value (v : value) : string :=
  match v with VStr s => s | _ => py_format v end.

(** [images[0].get("src") if images else None] *)
Definition first_image (images : value) : option value :=
  if truthy images then
    match images with
    | VList (img :: _) => d ← as_dict img; Some (dict_get d "src" VNone)
    | _ => None
    end
  else Some VNone.

(** The price of the first variant; a [ValueError] of [float] is swallowed,
    anything else propagates. *)
Definition first_price (variants : value) : option value :=
  if truthy variants then
    match variants with
    | VList (v :: _) =>
        d ← as_dict v;
        let price_str := dict_get d "price" VNone in
        if truthy price_str then
          match py_float price_str with
          | FloatOk x => Some x
          | FloatValueError => Some VNone
          | FloatTypeError => None
          end
        else Some VNone
    | _ => None
    end
  else Some VNone.

(** [tags[:5] if tags else [material_type]], after splitting a [str]. *)
Definition shopify_tags (tags : value) (material_type : string) : option value :=
  let tags :=
    match tags with
    | VStr s => VList ((fun t => VStr (PyStr.strip t)) <$> PyStr.split_char "," s)
    | _ => tags
    end in
  if truthy tags then
    match tags with
    | VList l => Some (VList (take 5 l))
    | _ => None
    end
  else Some (VList [VStr material_type]).

(** [p.get("body_html", "")[:200] if p.get("body_html") else None] *)
Definition shopify_description (body : value) : option value :=
  if truthy body then
    match body with
    | VStr s => Some (VStr (PyStr.take 200 s))
    | VList l => Some (VList (take 200 l))
    | _ => None
    end
  else Some VNone.

(** The body of the [for p in products] loop: the record appended to
    [results]. *)
Definition shopify_record (brand base_clean : string) (p : dict) : option dict :=
  let title := dict_get p "title" (VStr "") in
  let product_type := dict_get p "product_type" (VStr "") in
  image_url ← first_image (dict_get p "images" (VList []));
  price ← first_price (dict_get p "variants" (VList []));
  title_s ← as_str title;
  product_type_s ← as_str product_type;
  let material_type := detect_product_type title_s product_type_s in
  let '(color_hex, color_name) := detect_color title_s "" in
  tags ← shopify_tags (dict_get p "tags" (VList [])) material_type;
  description ← shopify_description (dict_get p "body_html" VNone);
  Some [ ("brand", VStr brand);
         ("name", title);
         ("type", VStr material_type);
         ("image", image_url);
         ("color", VStr color_hex);
         ("color_name", VStr color_name);
         ("price", price);
         ("tags", tags);
         ("description", description);
         ("url", VStr (PyStr.split_head "/collections" base_clean ++ "/products/"
                       ++ format_value (dict_get p "handle" VNone)));
         ("fuente_datos", VStr "shopify_api") ].

(** What one endpoint yields from a decoded response: [None] when the
    [try] block raises. An empty product list is skipped like a failure. *)
Definition shopify_batch (brand base_clean : string) (data : dict) : option (list dict) :=
  let products := dict_get data "products" (VList []) in
  if truthy products then
    ps ← iterate products;
    mapM (fun p => d ← as_dict p; shopify_record brand base_clean d) ps
  else Some [].

(** [fetch url] is the decoded body of a 200 response, [None] for any
    other status or failure. The first non-empty batch is returned. *)
Fixpoint try_endpoints (fetch : string -> option dict) (brand base_clean : string)
    (endpoints : list string) : list dict :=
  match endpoints with
  | [] => []
  | json_url :: rest =>
      match fetch json_url ≫= shopify_batch brand base_clean with
      | Some (r :: results) => r :: results
      | _ => try_endpoints fetch brand base_clean rest
      end
  end.

Definition scrape_shopify (fetch : string -> option dict)
    (base_url brand product_category : string) : list dict :=
  try_endpoints fetch brand (PyStr.rstrip_char "/" base_url) (shopify_endpoints base_url).

(** ** WooCommerce strategy ([strategies/woocommerce.py])

    The parsed page is seen through its selectors: [select] lists the cards
    a CSS selector matches, and a card's [select_one] gives the first
    element below it that matches, if any. *)

Record element : Type := {
  el_strings : list string;          (* the text nodes, in document order *)
  el_attrs : list (string * string)  (* the attributes *)
}.

Definition card : Type := string -> option element.
Definition soup : Type := string -> list card.

(** [el.get_text()] *)
Definition get_text (e : element) : string :=
  PyStr.join "" (el_strings e).

(** [el.get_text(strip=True)]: every text node is stripped and the empty
    ones are dropped before joining. *)
Definition get_text_strip (e : element) : string :=
  PyStr.join ""
    (List.filter (fun t => negb (String.eqb t "")) (PyStr.strip <$> el_strings e)).

(** [el.get(name)] *)
Definition attr (e : element) (name : string) : value :=
  match List.find (fun kv => String.eqb kv.1 name) (el_attrs e) with
  | Some kv => VStr kv.2
  | None => VNone
  end.

(** The cascade [x = sel1(...); if not x: x = sel2(...); ...] *)
Fixpoint first_selected (c : card) (selectors : list string) : option element :=
  match selectors with
  | [] => None
  | sel :: r => match c sel with Some e => Some e | None => first_selected c r end
  end.

Definition is_price_char (c : ascii) : bool :=
  let n := nat_of_ascii c in
  ((48 <=? n)%nat && (n <=? 57)%nat) || Ascii.eqb c "." || Ascii.eqb c ",".

Fixpoint price_run (s : string) : string :=
  match s with
  | EmptyString => EmptyString
  | String c r => if is_price_char c then String c (price_run r) else EmptyString
  end.

(** [re.search(r'[\d.,]+', text)] and its [group()]. *)
Fixpoint search_price (s : string) : option string :=
  match s with
  | EmptyString => None
  | String c r => if is_price_char c then Some (price_run s) else search_price r
  end.

Fixpoint replace_char (a b : ascii) (s : string) : string :=
  match s with
  | EmptyString => EmptyString
  | String c r => String (if Ascii.eqb c a then b else c) (replace_char a b r)
  end.

Definition woocommerce_price (price_el : option element) : value :=
  match price_el with
  | Some e =>
      match search_price (get_text e) with
      | Some m =>
          match py_float (VStr (replace_char "," "." m)) with
          | FloatOk x => x
          | _ => VNone
          end
      | None => VNone
      end
  | None => VNone
  end.

(** The body of the [for item in items] loop; [None] is [continue]. *)
Definition woocommerce_record (brand title_selector price_selector img_selector : string)
    (item : card) : option dict :=
  title_el ← first_selected item [title_selector; "h2"; ".product-title"];
  let name := get_text_strip title_el in
  let image_url :=
    match item img_selector with
    | Some img_el =>
        py_or (attr img_el "src") (py_or (attr img_el "data-src") (attr img_el "data-lazy-src"))
    | None => VNone
    end in
  let price := woocommerce_price (item price_selector) in
  let product_url :=
    match first_selected item ["a.woocommerce-LoopProduct-link"; "a"] with
    | Some link_el => attr link_el "href"
    | None => VNone
    end in
  Some [ ("brand", VStr brand);
         ("name", VStr name);
         ("image", image_url);
         ("price", price);
         ("url", product_url);
         ("fuente_datos", VStr "woocommerce_scrape") ].

Fixpoint first_nonempty {A : Type} (candidates : list (list A)) : list A :=
  match candidates with
  | [] => []
  | l :: r => match l with [] => first_nonempty r | _ => l end
  end.

(** [page] is the parsed response, [None] when fetching or parsing raises. *)
Definition scrape_woocommerce (page : option soup)
    (brand title_selector price_selector img_selector : string) : list dict :=
  match page with
  | None => []
  | Some select =>
      let items := first_nonempty
        [select ".product"; select "li.product"; select ".type-product";
         select ".product_item"] in
      omap (woocommerce_record brand title_selector price_selector img_selector) items
  end.

(** ** Enrichment ([scraper.py], [enrich_product]) *)

Definition enrich_product (product : dict) (category : string) : option dict :=
  let name := dict_get product "name" (VStr "") in
  let '(name, product) :=
    match name with
    | VDict rendered =>
        let name' := dict_get rendered "rendered" (VStr (py_format name)) in
        (name', dict_set product "name" name')
    | _ => (name, product)
    end in
  product ←
    (if truthy (dict_get product "type" VNone) then Some product
     else title ← as_str name;
          Some (dict_set product "type" (VStr (detect_product_type title ""))));
  product ←
    (if truthy (dict_get product "color" VNone) then Some product
     else title ← as_str name;
          let color := detect_color title "" in
          Some (dict_set (dict_set product "color" (VStr color.1))
                         "color_name" (VStr color.2)));
  Some (if truthy (dict_get product "tags" VNone) then product
        else dict_set product "tags"
               (VList [dict_get product "type" (VStr "Standard")])).

End Strategies.

(** ** Merge engine ([scraper.py], [merge_with_existing]) *)

(** The identity key [(brand.lower(), name.lower())]. *)
Definition entry_key (d : dict) : option (string * string) :=
  brand ← str_lower (dict_get d "brand" (VStr ""));
  name ← str_lower (dict_get d "name" (VStr ""));
  Some (brand, name).

(** The argument of [existing_item.update]. *)
Definition merged_fields (item existing_item : dict) : dict :=
  [ ("profiles", dict_get item "profiles" (dict_get existing_item "profiles" VNone));
    ("params", dict_get item "params" (dict_get existing_item "params" VNone));
    ("image", py_or (dict_get item "image" VNone) (dict_get existing_item "image" VNone));
    ("description",
      py_or (dict_get item "description" VNone) (dict_get existing_item "description" VNone));
    ("tags", py_or (dict_get item "tags" VNone) (dict_get existing_item "tags" VNone)) ].

Definition update_entry (item existing_item : dict) : dict :=
  dict_update existing_item (merged_fields item existing_item).

(** The dictionaries are objects: [existing.append(item)] shares the object
    of [new_data], and [update] writes through the reference. *)
Abbreviation addr := nat.
Abbreviation heap := (list dict).

Record merge_state : Type := {
  st_heap : heap;
  st_existing : list addr
}.

(** The inner [for existing_item in existing] search: the address of the
    first entry with the given key, [Some None] when the loop ends without
    [break], [None] when a key cannot be computed. *)
Fixpoint find_match (h : heap) (key : string * string) (existing : list addr)
  : option (option addr) :=
  match existing with
  | [] => Some None
  | e :: r =>
      existing_item ← h !! e;
      k ← entry_key existing_item;
      if decide (k = key) then Some (Some e) else find_match h key r
  end.

(** One iteration of [for item in new_data]. *)
Definition merge_item (st : merge_state) (a : addr) : option merge_state :=
  item ← st_heap st !! a;
  key ← entry_key item;
  found ← find_match (st_heap st) key (st_existing st);
  match found with
  | Some e =>
      existing_item ← st_heap st !! e;
      Some {| st_heap := <[e := update_entry item existing_item]> (st_heap st);
              st_existing := st_existing st |}
  | None =>
      Some {| st_heap := st_heap st; st_existing := (st_existing st ++ [a])%list |}
  end.

(** The whole loop; the flag is [false] when an iteration raised, and the
    state is then the one reached before it. *)
Fixpoint merge_loop (st : merge_state) (items : list addr) : merge_state * bool :=
  match items with
  | [] => (st, true)
  | a :: r =>
      match merge_item st a with
      | Some st' => merge_loop st' r
      | None => (st, false)
      end
  end.

Definition deref (h : heap) (refs : list addr) : list dict :=
  omap (fun a => h !! a) refs.

(** [[item for item in existing if validate_product(item, category)]] *)
Fixpoint revalidate (category : string) (l : list dict) : option (list dict) :=
  match l with
  | [] => Some []
  | item :: r =>
      ok ← validate_product item category;
      rest ← revalidate category r;
      Some (if (ok : bool) then item :: rest else rest)
  end.

Definition category_of (filepath : string) : string :=
  if PyStr.contains "resin" filepath then "resin" else "filament".

(** What [os.path.exists], [open] and [json.load] find at [filepath]; a
    loaded catalog is a JSON array of objects. *)
Inductive catalog_file : Type :=
  | FileMissing
  | FileUnreadable
  | FileLoaded (existing : list dict).

(** The [try] block either returns [final_list] or lands in the handler,
    which returns [new_data] as the loop left it. *)
Inductive merge_outcome : Type :=
  | Merged (final_list : list dict)
  | Fallback (new_data : list dict).

Definition merge_attempt (new_data existing : list dict) (filepath : string)
  : merge_outcome :=
  let n := length existing in
  let news := seq n (length new_data) in
  let '(st, ok) :=
    merge_loop {| st_heap := (existing ++ new_data)%list; st_existing := seq 0 n |} news in
  if ok then
    match revalidate (category_of filepath) (deref (st_heap st) (st_existing st)) with
    | Some final_list => Merged final_list
    | None => Fallback (deref (st_heap st) news)
    end
  else Fallback (deref (st_heap st) news).

Definition merge_with_existing (new_data : list dict) (file : catalog_file)
    (filepath : string) : list dict :=
  match file with
  | FileMissing => new_data
  | FileUnreadable => new_data
  | FileLoaded existing =>
      match merge_attempt new_data existing filepath with
      | Merged final_list => final_list
      | Fallback new_data' => new_data'
      end
  end.

(** The shape the data model gives a catalog entry: [brand] a string when
    present, [name] and [tags] present, a string and a list of strings. *)
Definition is_str (v : value) : bool :=
  match v with VStr _ => true | _ => false end.

Definition well_formed (d : dict) : bool :=
  is_str (dict_get d "brand" (VStr "")) &&
  match dict_find d "name" with Some (VStr _) => true | _ => false end &&
  match dict_find d "tags" with Some (VList l) => forallb is_str l | _ => false end.

(** Keys are pairwise distinct. *)
Definition unique_keys (l : list dict) : Prop := NoDup (entry_key <$> l).

(** An entry passes validation. *)
Definition passes (category : string) (d : dict) : bool :=
  match validate_product d category with Some true => true | _ => false end.


(** No row of the keyword table matches the text. *)
Definition no_keyword (text : string) : bool :=
  forallb (fun row => negb (row_hits text row)) TYPE_KEYWORDS.


(** A Shopify response with one untitled product, and a WooCommerce page
    whose only card has an empty title element. *)
Definition untitled_response : dict :=
  [("products", VList [VDict [("title", VStr ""); ("handle", VStr "untitled")]])].

Definition empty_title_card : card :=
  fun sel =>
    if String.eqb sel ".woocommerce-loop-product__title"
    then Some {| el_strings := []; el_attrs := [] |}
    else None.

Definition empty_title_page : soup :=
  fun sel => if String.eqb sel ".product" then [empty_title_card] else [].

(** The key of the object at an address, and the two invariants of the
    merge loop: every object is well formed, every reference is live. *)
Definition key_at (h : heap) (a : addr) : option (string * string) :=
  h !! a ≫= entry_key.

Definition heap_ok (h : heap) : Prop := Forall (fun d => well_formed d = true) h.

Definition refs_ok (h : heap) (refs : list addr) : Prop :=
  Forall (fun a => a < length h) refs.

(** Sample entries: one resin listed under two spellings, and a filament. *)
Definition grey_upper : dict :=
  [("brand", VStr "Acme"); ("name", VStr "Tough Grey");
   ("image", VStr "grey-1.png"); ("tags", VList [VStr "Tough"])].

Definition grey_lower : dict :=
  [("brand", VStr "ACME"); ("name", VStr "tough grey");
   ("image", VStr "grey-2.png"); ("tags", VList [VStr "Tough"])].

Definition pla_spool : dict :=
  [("brand", VStr "Acme"); ("name", VStr "PLA Filament");
   ("tags", VList [VStr "PLA"])].

(** ** Further definitions used by the properties below *)

(** The fields [existing_item.update] writes. *)
Definition merged_keys : list string :=
  ["profiles"; "params"; "image"; "description"; "tags"].

(** [d'] is [d] up to the fields the merge may rewrite. *)
Definition same_identity (d d' : dict) : Prop :=
  forall k, k ∉ merged_keys -> dict_find d' k = dict_find d k.

(** A pattern without [\], [.] or [*] is matched as a plain substring. *)
Definition plain_char (c : ascii) : bool :=
  negb (Ascii.eqb c "\" || Ascii.eqb c "." || Ascii.eqb c "*").

Fixpoint plain_pattern (pat : string) : bool :=
  match pat with
  | EmptyString => true
  | String c r => plain_char c && plain_pattern r
  end.

(** The blacklists a catalog applies to the name of a record. *)
Definition name_blacklists (category : string) : list string :=
  if String.eqb category "resin"
  then (FILAMENT_BLACKLIST ++ HARDWARE_BLACKLIST ++ NON_PRODUCT_BLACKLIST)%list
  else if String.eqb category "filament"
  then (RESIN_BLACKLIST ++ HARDWARE_BLACKLIST ++ NON_PRODUCT_BLACKLIST)%list
  else [].

(** Those of them that are plain substrings. *)
Definition substring_bans (category : string) : list string :=
  List.filter plain_pattern (name_blacklists category).

(** What a plain pattern compiles to: its characters, one literal each. *)
Fixpoint literal_items (pat : string) : list Re.item :=
  match pat with
  | EmptyString => []
  | String c r => Re.IOne (Re.CChar c) :: literal_items r
  end.

(** The material vocabularies of [config.py]. *)
Definition RESIN_TYPES : list string :=
  [ "Standard"; "Tough"; "ABS-Like"; "Flexible"; "Elastic";
    "Water Washable"; "Plant Based"; "Castable"; "Dental";
    "High Temp"; "Ceramic"; "Transparent"; "Glow in Dark" ].

Definition FILAMENT_MATERIALS : list string :=
  [ "PLA"; "PLA+"; "PETG"; "ABS"; "ASA"; "TPU"; "TPE";
    "Nylon"; "PC"; "HIPS"; "PVA"; "Wood"; "Carbon Fiber";
    "Silk"; "Matte"; "Marble"; "Metal Fill"; "Glow" ].

(** ** Manual strategy and dispatch ([scraper.py]) *)

Definition NO_IMAGE : string :=
  "https://placehold.co/600x600/1a1a1a/cccccc?text=No+Image".

(** [scrape_manual]: one record per configured product name; a
    [products] entry that cannot be iterated raises. *)
Definition scrape_manual (config : dict) : option (list dict) :=
  let brand := dict_get config "brand" VNone in
  let default_image := dict_get config "default_image" (VStr NO_IMAGE) in
  names ← iterate (dict_get config "products" (VList []));
  Some ((fun name : value =>
           [ ("brand", brand);
             ("name", name);
             ("type", VStr "Standard");
             ("image", default_image);
             ("fuente_datos", VStr "manual_curated") ] : dict)
        <$> (names : list value)).

(** [kw in p.get("name", "").lower() or kw in p.get("url", "").lower()]:
    the url is read only when the name does not match. *)
Definition keyword_hit (kw : string) (p : dict) : option bool :=
  name ← str_lower (dict_get p "name" (VStr ""));
  if PyStr.contains kw name then Some true
  else url ← str_lower (dict_get p "url" (VStr ""));
       Some (PyStr.contains kw url).

Fixpoint filter_hits (kw : string) (products : list dict) : option (list dict) :=
  match products with
  | [] => Some []
  | p :: r =>
      hit ← keyword_hit kw p;
      rest ← filter_hits kw r;
      Some (if (hit : bool) then p :: rest else rest)
  end.

(** The block [if keyword_filter and products: ...]; [None] when it raises. *)
Definition apply_keyword_filter (keyword_filter : value) (products : list dict)
  : option (list dict) :=
  if truthy keyword_filter && match products with [] => false | _ => true end
  then kw ← str_lower keyword_filter; filter_hits kw products
  else Some products.

(** [v == s] for a string literal [s]. *)
Definition eq_str (v : value) (s : string) : bool :=
  match v with
  | VStr t => String.eqb t s
  | _ => false
  end.

Section Dispatch.

(** The strategy functions are reached by name; each is given the
    configuration and the category, and answers [None] when it raises. A
    name without a function is an unknown strategy (or [js] without
    Playwright). *)
Variable strategies : string -> option (dict -> string -> option (list dict)).

(** [_scrape_single_url]: the handler of its [try] turns any exception,
    of the strategy or of the filter, into an empty result. *)
Definition scrape_single_url (config : dict) (category : string) : list dict :=
  let keyword_filter := dict_get config "filter" VNone in
  match dict_get config "strategy" (VStr "shopify") with
  | VStr strategy =>
      match strategies strategy with
      | Some run =>
          default [] (run config category ≫= apply_keyword_filter keyword_filter)
      | None => []
      end
  | _ => []
  end.

(** [scrape_brand]: the manual strategy bypasses the dispatch; otherwise
    every url of the configuration is scraped in turn. *)
Definition scrape_brand (config : dict) (category : string) : option (list dict) :=
  if eq_str (dict_get config "strategy" (VStr "shopify")) "manual"
  then scrape_manual config
  else
    let urls :=
      match dict_get config "url" (VStr "") with
      | VStr u => VList [VStr u]
      | urls => urls
      end in
    url_list ← iterate urls;
    Some (concat ((fun url : value =>
                     scrape_single_url (dict_set config "url" url) category)
                  <$> (url_list : list value))).

End Dispatch.

(** A sample run of the [js] strategy, filtered on a keyword. *)
Definition sample_cards : list dict :=
  [ [("name", VStr "Hyper PLA Filament"); ("url", VNone)];
    [("name", VStr "Ender 3"); ("url", VStr "https://x.example/products/ender-3")] ].

Definition sample_cards_no_link : list dict :=
  [ [("name", VStr "Hyper PLA Filament"); ("url", VNone)];
    [("name", VStr "Ender 3"); ("url", VNone)] ].

Definition sample_strategies (cards : list dict)
  : string -> option (dict -> string -> option (list dict)) :=
  fun s => if String.eqb s "js" then Some (fun _ _ => Some cards) else None.

Definition sample_config : dict :=
  [("brand", VStr "Creality"); ("strategy", VStr "js"); ("filter", VStr "Filament")].

Definition sample_brand : dict :=
  [("brand", VStr "Creality"); ("strategy", VStr "js"); ("filter", VStr "Filament");
   ("url", VList [VStr "https://x.example/a"; VStr "https://x.example/b"])].

(** ** Generic-HTML strategy ([strategies/html.py]) *)

(** One turn of a [for] loop over cards. *)
Inductive loop_step : Type :=
  | Emit (record : dict)
  | Skip
  | Raise.

(** Run a loop body over the items; an exception aborts the loop. *)
Fixpoint run_loop {A : Type} (body : A -> loop_step) (items : list A)
  : option (list dict) :=
  match items with
  | [] => Some []
  | c :: r =>
      match body c with
      | Emit record => rest ← run_loop body r; Some (record :: rest)
      | Skip => run_loop body r
      | Raise => None
      end
  end.

Section HtmlStrategy.

(** [float] as before, and [urllib.parse.urljoin]. *)
Variable py_float : value -> float_result.
Variable urljoin : string -> string -> string.

(** [el.has_attr(name)] *)
Definition has_attr (e : element) (name : string) : bool :=
  existsb (fun kv => String.eqb kv.1 name) (el_attrs e).

(** The name element: the configured selector, else the first of the
    fallbacks that matches. *)
Definition html_name_el (c : card) (name_selector : string) : option element :=
  match c name_selector with
  | Some e => Some e
  | None => first_selected c ["h2"; "h3"; "h4"; ".title"; ".name"; "[data-product-title]"]
  end.

Definition html_image (c : card) (img_selector : string) : value :=
  match c img_selector with
  | Some img_el =>
      let image_url :=
        py_or (attr img_el "src")
              (py_or (attr img_el "data-src") (attr img_el "data-lazy-src")) in
      match image_url with
      | VStr s => if truthy image_url && PyStr.startswith "//" s
                  then VStr ("https:" ++ s) else image_url
      | _ => image_url
      end
  | None => VNone
  end.

(** The price; [None] when [float] raises something other than
    [ValueError]. *)
Definition html_price (c : card) (price_selector : string) : option value :=
  match c price_selector with
  | Some price_el =>
      match search_price (replace_char "," "." (get_text price_el)) with
      | Some m =>
          match py_float (VStr (replace_char "," "." m)) with
          | FloatOk x => Some x
          | FloatValueError => Some VNone
          | FloatTypeError => None
          end
      | None => Some VNone
      end
  | None => Some VNone
  end.

Definition html_link (url : string) (c : card) (link_selector : string) : value :=
  match c link_selector with
  | Some link_el =>
      if has_attr link_el "href" then
        match attr link_el "href" with
        | VStr href =>
            if PyStr.startswith "/" href then VStr (urljoin url href)
            else if PyStr.startswith "http" href then VStr href
            else VNone
        | _ => VNone
        end
      else VNone
  | None => VNone
  end.

(** The body of [for card in cards]. *)
Definition html_record (url brand name_selector img_selector price_selector
                        link_selector : string) (c : card) : loop_step :=
  match html_name_el c name_selector with
  | None => Skip
  | Some name_el =>
      let name := get_text_strip name_el in
      if String.eqb name "" then Skip
      else
        let image_url := html_image c img_selector in
        match html_price c price_selector with
        | None => Raise
        | Some price =>
            Emit [ ("brand", VStr brand);
                   ("name", VStr name);
                   ("image", image_url);
                   ("price", price);
                   ("url", html_link url c link_selector);
                   ("fuente_datos", VStr "html_scrape") ]
        end
  end.

(** [page] is the parsed body of a 200 response, [None] otherwise. *)
Definition scrape_html (page : option soup)
    (url brand card_selector name_selector img_selector price_selector
     link_selector : string) : list dict :=
  match page with
  | None => []
  | Some select =>
      let cards :=
        match select card_selector with
        | [] => first_nonempty
                  [select ".product"; select ".product-item"; select ".product-tile";
                   select "[data-product]"; select ".grid-item";
                   select ".collection-product"]
        | cards => cards
        end in
      default []
        (run_loop (html_record url brand name_selector img_selector price_selector
                               link_selector) cards)
  end.

End HtmlStrategy.

(** ** File names for images ([utils/image_downloader.py], [slugify]) *)

Fixpoint string_forall (f : ascii -> bool) (s : string) : bool :=
  match s with
  | EmptyString => true
  | String c r => f c && string_forall f r
  end.

Fixpoint filter_chars (f : ascii -> bool) (s : string) : string :=
  match s with
  | EmptyString => EmptyString
  | String c r => if f c then String c (filter_chars f r) else filter_chars f r
  end.

(** Outside ASCII Python's [lower], [\w] and [\s] follow the Unicode
    tables ([\w] keeps every letter and digit), which a byte string does
    not carry.  The classes below are those of ASCII characters, and
    [slugify] is defined on ASCII text only. *)
Definition is_ascii_char (c : ascii) : bool := (nat_of_ascii c <? 128)%nat.

Definition is_ascii (s : string) : bool := string_forall is_ascii_char s.

(** On ASCII characters: the class [[\w\s-]] that
    [re.sub(r'[^\w\s-]', '', text)] keeps, and the class [[-\s]] whose
    runs become one underscore. *)
Definition slug_keep (c : ascii) : bool :=
  Re.is_word c || PyStr.is_space c || Ascii.eqb c "-".

Definition slug_sep (c : ascii) : bool :=
  Ascii.eqb c "-" || PyStr.is_space c.

(** [re.sub(r'[-\s]+', '_', text)]; [in_run] tells that the run under way
    already gave its underscore. *)
Fixpoint collapse_seps (in_run : bool) (s : string) : string :=
  match s with
  | EmptyString => EmptyString
  | String c r =>
      if slug_sep c
      then if in_run then collapse_seps true r else String "_" (collapse_seps true r)
      else String c (collapse_seps false r)
  end.

Fixpoint lstrip_char (c : ascii) (s : string) : string :=
  match s with
  | EmptyString => EmptyString
  | String a r => if Ascii.eqb a c then lstrip_char c r else s
  end.

(** [s.strip(c)] *)
Definition strip_char (c : ascii) (s : string) : string :=
  lstrip_char c (PyStr.rstrip_char c s).

(** [slugify] on an ASCII text; [None] marks a text with a character
    outside ASCII, of which nothing is said here. *)
Definition slugify (text : string) : option string :=
  if is_ascii text then
    let text := PyStr.lower text in
    let text := filter_chars slug_keep text in
    Some (strip_char "_" (collapse_seps false text))
  else None.

(** The characters a slug is made of: lower-case letters, digits and the
    underscore. *)
Definition slug_char (c : ascii) : bool :=
  Re.is_word c && negb (PyStr.is_upper c).

(** ** FDM profiles ([scraper.py], [get_fdm_profiles]) *)









(** ** A record on its way through [main] *)

(** The labels of the type detector that, standing as a tag, are caught by
    the filament blacklist. *)
Definition FILAMENT_LABELS : list string :=
  ["PLA+"; "PETG"; "ASA"; "TPU"; "Nylon"; "Silk PLA"; "Matte PLA"; "PLA"].

Definition display_resin : dict :=
  [("brand", VStr "Acme"); ("name", VStr "Display Resin")].

(** ** Generic scraper ([scrapers/base.py], [scrapers/generic.py]) *)

(** [s.split()]: the maximal runs of characters that are no whitespace. *)
Fixpoint split_ws (s : string) : list string :=
  match s with
  | EmptyString => []
  | String c r =>
      if PyStr.is_space c then split_ws r
      else match r with
           | String c' _ =>
               if PyStr.is_space c' then String c "" :: split_ws r
               else match split_ws r with
                    | w :: ws => String c w :: ws
                    | [] => [String c ""]
                    end
           | EmptyString => [String c ""]
           end
  end.

(** [BaseScraper.clean_text] on a string; the result [None] is Python's
    [None]. *)
Definition clean_text (text : string) : option string :=
  if String.eqb text "" then None
  else Some (PyStr.join " " (split_ws (PyStr.strip text))).

(** Whitespace occurs in [s] only as one blank between two other
    characters. *)
Fixpoint single_spaced (s : string) : bool :=
  match s with
  | EmptyString => true
  | String c r =>
      (if PyStr.is_space c
       then Ascii.eqb c " " &&
            match r with
            | String c' _ => negb (PyStr.is_space c')
            | EmptyString => false
            end
       else true) && single_spaced r
  end.

Definition begins_with_space (s : string) : bool :=
  match s with
  | String c _ => PyStr.is_space c
  | EmptyString => false
  end.

(** A run of [split_ws]: not empty, no whitespace in it. *)
Definition is_token (w : string) : bool :=
  negb (String.eqb w "") && string_forall (fun c => negb (PyStr.is_space c)) w.

Definition PRODUCT_SELECTORS : list string :=
  [ ".product-card"; ".product-item"; ".product-grid-item";
    ".product"; ".woocommerce-loop-product";
    "[data-product]"; ".product-tile"; ".product-box";
    ".card-product"; ".material-card"; ".item-card" ].

Definition TITLE_SELECTORS : list string :=
  ["h1"; "h2"; "h3"; ".product-title"; ".product-name"; "[data-product-title]"].

Definition IMAGE_SELECTORS : list string :=
  ["img.product-image"; "img.featured-image"; ".product-image img"; "img[data-src]"; "img"].

Definition PRICE_SELECTORS : list string :=
  [".price"; ".product-price"; "[data-price]"; ".amount"].

(** The colour table of [detect_color_from_name]. *)
Definition COLOR_MAP : list (string * (string * string)) :=
  [ ("black", ("#000000", "Black"));
    ("white", ("#ffffff", "White"));
    ("grey", ("#808080", "Grey"));
    ("gray", ("#808080", "Grey"));
    ("red", ("#ef4444", "Red"));
    ("blue", ("#3b82f6", "Blue"));
    ("green", ("#22c55e", "Green"));
    ("yellow", ("#eab308", "Yellow"));
    ("orange", ("#f97316", "Orange"));
    ("purple", ("#a855f7", "Purple"));
    ("pink", ("#ec4899", "Pink"));
    ("clear", ("#e5e7eb", "Clear"));
    ("transparent", ("#e5e7eb", "Transparent"));
    ("beige", ("#d4a574", "Beige"));
    ("skin", ("#d4a574", "Skin"));
    ("navy", ("#3f4756", "Navy")) ].

Definition detect_color_from_name (name : string) : string * string :=
  first_color COLOR_MAP (PyStr.lower name).

(** An [Optional[str]] as a value. *)
Definition opt_value (o : option string) : value :=
  match o with Some s => VStr s | None => VNone end.

Section GenericScraper.

Variable py_float : value -> float_result.

(** [self.brand], [self.base_url], [self.product_type] *)
Variables brand base_url product_type : string.

(** [BaseScraper.extract_price]; the outer [None] is an exception other
    than [ValueError]. *)
Definition extract_price (text : string) : option value :=
  if String.eqb text "" then Some VNone
  else match py_float (VStr (replace_char "," "." (filter_chars is_price_char text))) with
       | FloatOk x => Some x
       | FloatValueError => Some VNone
       | FloatTypeError => None
       end.

Definition generic_image (img_el : element) : value :=
  let image := py_or (attr img_el "src") (attr img_el "data-src") in
  match image with
  | VStr s => if truthy image && PyStr.startswith "//" s
              then VStr ("https:" ++ s) else image
  | _ => image
  end.

Definition extract_product_from_element (el : card) : option dict :=
  let product : dict := [("brand", VStr brand); ("fuente_datos", VStr "web")] in
  let product :=
    match first_selected el TITLE_SELECTORS with
    | Some title_el =>
        dict_set product "name" (opt_value (clean_text (get_text title_el)))
    | None => product
    end in
  let product :=
    match first_selected el IMAGE_SELECTORS with
    | Some img_el => dict_set product "image" (generic_image img_el)
    | None => product
    end in
  let product :=
    match el "a[href]" with
    | Some link_el =>
        let href := match attr link_el "href" with VStr h => h | _ => "" end in
        if PyStr.startswith "/" href
        then dict_set product "url" (VStr (PyStr.rstrip_char "/" base_url ++ href))
        else if PyStr.startswith "http" href
        then dict_set product "url" (VStr href)
        else product
    | None => product
    end in
  match first_selected el PRICE_SELECTORS with
  | Some price_el =>
      price ← extract_price (get_text price_el);
      Some (dict_set product "price" price)
  | None => Some product
  end.

(** The elements of the first selector that finds any, each kept when it
    yields a name. *)
Fixpoint extract_all (elements : list card) : option (list dict) :=
  match elements with
  | [] => Some []
  | el :: r =>
      product ← extract_product_from_element el;
      rest ← extract_all r;
      Some (if truthy (dict_get product "name" VNone) then product :: rest else rest)
  end.

Definition find_products_on_page (select : soup) : option (list dict) :=
  extract_all (first_nonempty (select <$> PRODUCT_SELECTORS)).

(** The body of the enrichment loop of [scrape_products]. *)
Definition generic_enrich (p : dict) : option dict :=
  name ← as_str (dict_get p "name" (VStr ""));
  let type := Generic.detect_type_from_name product_type name in
  let color := detect_color_from_name name in
  let p := dict_set p "type" (VStr type) in
  let p := dict_set p "color" (VStr color.1) in
  let p := dict_set p "color_name" (VStr color.2) in
  Some (dict_set p "tags" (VList [dict_get p "type" VNone])).

(** [page] is what [get_page] returned. *)
Definition scrape_products (page : option soup) : option (list dict) :=
  match page with
  | None => Some []
  | Some select =>
      raw_products ← find_products_on_page select;
      mapM generic_enrich
        (List.filter (fun p => truthy (dict_get p "name" VNone)) raw_products)
  end.

End GenericScraper.

(** A listing page with two cards, the second without a title text. *)
Definition sample_page : soup :=
  fun selector =>
    if String.eqb selector ".product" then
      [ (fun sel =>
           if String.eqb sel "h2"
           then Some {| el_strings := ["  Tough   Resin"; " Grey "]; el_attrs := [] |}
           else if String.eqb sel "img"
           then Some {| el_strings := []; el_attrs := [("src", "//cdn.example/a.png")] |}
           else None);
        (fun sel =>
           if String.eqb sel "h2"
           then Some {| el_strings := []; el_attrs := [] |}
           else None) ]
    else [].

(** ** Image files ([utils/image_downloader.py], [download_image]) *)

Definition IMAGE_EXTENSIONS : list string := ["jpg"; "jpeg"; "png"; "webp"; "avif"].

(** [url.split('.')[-1].split('?')[0].lower()], or [jpg] when that is no
    known extension. *)
Definition image_ext (url : string) : string :=
  let ext := PyStr.lower (PyStr.split_head "?" (List.last (PyStr.split_char "." url) "")) in
  if existsb (String.eqb ext) IMAGE_EXTENSIONS then ext else "jpg".

Definition image_folder (category : string) : string :=
  if PyStr.contains "resin" (PyStr.lower category) then "resins" else "filaments".

(** What the file system and the network answer: the file is there
    already and not empty, or the request ends with a status, or the
    download raises. *)
Inductive fetch : Type :=
  | Present
  | Status (code : Z)
  | Failed.

(** [download_image], with POSIX path separators; the directory is taken
    to exist or to be creatable.  The inner option is Python's
    [Optional[str]]; the outer one is [None] where a slug is: for a brand
    or a name outside ASCII. *)
Definition download_image (url category brand name : string) (io : fetch)
  : option (option string) :=
  if String.eqb url "" || PyStr.startswith "data:" url then Some None
  else
    let category := image_folder category in
    brand_slug ← slugify brand;
    name_slug ← slugify name;
    let filename := brand_slug ++ "_" ++ name_slug ++ "." ++ image_ext url in
    let relative_path := "images/" ++ category ++ "/" ++ filename in
    Some match io with
         | Present => Some relative_path
         | Status code => if Z.eqb code 200 then Some relative_path else None
         | Failed => None
         end.

(** ** JSON strategy ([strategies/json_api.py]) *)

Definition is_digit (c : ascii) : bool :=
  let n := nat_of_ascii c in (48 <=? n)%nat && (n <=? 57)%nat.

(** [key.isdigit()] *)
Definition isdigit (s : string) : bool :=
  negb (String.eqb s "") && string_forall is_digit s.

(** [int(key)] for a string of digits. *)
Fixpoint int_digits (acc : nat) (s : string) : nat :=
  match s with
  | EmptyString => acc
  | String c r => int_digits (10 * acc + (nat_of_ascii c - 48)) r
  end.

(** The walk along [data_path]; [None] when an index is out of range. *)
Fixpoint navigate (data : value) (data_path : list string) : option value :=
  match data_path with
  | [] => Some data
  | key :: rest =>
      match data with
      | VDict d => navigate (dict_get d key (VList [])) rest
      | VList l =>
          if isdigit key
          then x ← l !! int_digits 0 key; navigate x rest
          else Some data
      | _ => Some data
      end
  end.

(** [for key in keys: x = item.get(key); if x: break]: the value the loop
    leaves in [x]. *)
Fixpoint probe (item : dict) (keys : list string) (x : value) : value :=
  match keys with
  | [] => x
  | key :: r =>
      let x := dict_get item key VNone in
      if truthy x then x else probe item r x
  end.

(** The first truthy value under one of the keys, if any. *)
Fixpoint first_truthy (item : dict) (keys : list string) : option value :=
  match keys with
  | [] => None
  | key :: r =>
      let x := dict_get item key VNone in
      if truthy x then Some x else first_truthy item r
  end.

(** [s.replace(old, "")], scanning from the left; [skip] counts the
    characters of a match still to be dropped. *)
Fixpoint remove_sub (old : string) (skip : nat) (s : string) : string :=
  match s with
  | EmptyString => EmptyString
  | String c r =>
      match skip with
      | S k => remove_sub old k r
      | O =>
          if PyStr.startswith old s
          then remove_sub old (String.length old - 1) r
          else String c (remove_sub old 0 r)
      end
  end.

(** [.replace(",", ".").replace("$", "").replace("€", "")] *)
Definition price_text (s : string) : string :=
  remove_sub "€" 0 (remove_sub "$" 0 (replace_char "," "." s)).

Section JsonStrategy.

Variable py_float : value -> float_result.
Variable py_format : value -> string.

(** [str(v)]: a string is its own text. *)
Definition py_str (v : value) : string :=
  match v with VStr s => s | _ => py_format v end.

Definition json_image (item : dict) (image_key : string) : value :=
  let image :=
    probe item [image_key; "image"; "image_url"; "img"; "thumbnail"; "imagen"] VNone in
  match image with
  | VDict d => py_or (dict_get d "src" VNone) (dict_get d "url" VNone)
  | VList (img_item :: _) =>
      match img_item with
      | VDict d => dict_get d "src" VNone
      | _ => img_item
      end
  | _ => image
  end.

(** The price; [None] when [float] raises something other than
    [ValueError]. *)
Definition json_price (item : dict) (price_key : string) : option value :=
  match first_truthy item [price_key; "price"; "precio"; "cost"] with
  | Some price_val =>
      match py_float (VStr (price_text (py_str price_val))) with
      | FloatOk x => Some x
      | FloatValueError => Some VNone
      | FloatTypeError => None
      end
  | None => Some VNone
  end.

(** The body of [for item in data]. *)
Definition json_record (brand name_key image_key price_key : string) (item : value)
  : loop_step :=
  match item with
  | VDict item =>
      let name := probe item [name_key; "name"; "title"; "product_name"; "nombre"] VNone in
      if truthy name then
        match json_price item price_key with
        | Some price =>
            Emit [ ("brand", VStr brand);
                   ("name", VStr (py_str name));
                   ("image", json_image item image_key);
                   ("price", price);
                   ("fuente_datos", VStr "json_api") ]
        | None => Raise
        end
      else Skip
  | _ => Skip
  end.

(** The list the loop runs over. *)
Definition json_items (data : value) : list value :=
  match data with
  | VList l => l
  | _ => if truthy data then [data] else []
  end.

(** [response] is the decoded body of a 200 response, [None] otherwise. *)
Definition scrape_json (response : option value) (brand : string)
    (data_path : list string) (name_key image_key price_key : string) : list dict :=
  match response with
  | None => []
  | Some data =>
      default []
        (data ← navigate data data_path;
         run_loop (json_record brand name_key image_key price_key) (json_items data))
  end.

End JsonStrategy.

(** A response with its products two levels down. *)
Definition sample_response : value :=
  VDict [ ("data",
           VList [ VDict [ ("rows",
                            VList [ VDict [("title", VStr "Tough Resin");
                                           ("precio", VStr "19,90 €")];
                                    VStr "banner";
                                    VDict [("name", VStr ""); ("sku", VNum 7)] ]) ] ]) ].

(** * Properties *)

(** ** Strings and dictionaries *)

Lemma startswith_app_l (a b s : string) :
  PyStr.startswith (a ++ b) s = true -> PyStr.startswith a s = true.
Proof.
  revert s; induction a as [|c a IH]; intros s H; [done|].
  destruct s as [|d s]; simpl in *; [done|].
  apply andb_true_iff in H as [-> H]. simpl. by apply IH.
Qed.

Lemma contains_app_l (a b s : string) :
  PyStr.contains (a ++ b) s = true -> PyStr.contains a s = true.
Proof.
  induction s as [|c s IH]; simpl; intros H.
  - rewrite orb_false_r in H |- *. by apply startswith_app_l in H.
  - apply orb_true_iff in H as [H|H]; apply orb_true_iff.
    + left. by apply startswith_app_l in H.
    + right. by apply IH.
Qed.

Lemma rstrip_char_snoc (c : ascii) (s : string) :
  PyStr.rstrip_char c (s ++ String c "") = PyStr.rstrip_char c s.
Proof.
  induction s as [|a s IH]; simpl.
  - by rewrite Ascii.eqb_refl.
  - by rewrite IH.
Qed.

Lemma dict_find_set (d : dict) (k k' : string) (v : value) :
  dict_find (dict_set d k v) k' = if String.eqb k k' then Some v else dict_find d k'.
Proof.
  induction d as [|[k0 v0] d IH]; simpl.
  - done.
  - destruct (String.eqb_spec k0 k) as [->|Hne]; simpl.
    + by destruct (String.eqb k k').
    + destruct (String.eqb_spec k0 k') as [->|Hne'].
      * destruct (String.eqb_spec k k'); [congruence|done].
      * apply IH.
Qed.

Lemma dict_find_set_ne (d : dict) (k k' : string) (v : value) :
  k <> k' -> dict_find (dict_set d k v) k' = dict_find d k'.
Proof.
  intros Hne. rewrite dict_find_set.
  by destruct (String.eqb_spec k k').
Qed.

Lemma dict_find_set_eq (d : dict) (k : string) (v : value) :
  dict_find (dict_set d k v) k = Some v.
Proof. by rewrite dict_find_set, String.eqb_refl. Qed.

(** ** Validation *)

(** C1: validation is asymmetric between the two catalogs on the [abs] token. *)
Theorem validate_abs_asymmetry :
  validate_product [("name", VStr "Standard ABS Filament")] "resin" = Some false /\
  validate_product [("name", VStr "Standard ABS Filament")] "filament" = Some true /\
  validate_product [("name", VStr "ABS-Like Resin")] "resin" = Some true /\
  validate_product [("name", VStr "ABS-Like Resin")] "filament" = Some false.
Proof. repeat split; vm_compute; reflexivity. Qed.

(** The [abs] rule on its own: no blacklist pattern hits ["Standard ABS"],
    and the resin catalog still rejects it. *)
Lemma validate_abs_rule :
  any_match FILAMENT_BLACKLIST "standard abs " = false /\
  any_match HARDWARE_BLACKLIST "standard abs " = false /\
  any_match NON_PRODUCT_BLACKLIST "standard abs " = false /\
  validate_product [("name", VStr "Standard ABS")] "resin" = Some false /\
  validate_product [("name", VStr "Standard ABS")] "filament" = Some true /\
  validate_product [("name", VStr "Standard ABS-Like")] "resin" = Some true.
Proof. repeat split; vm_compute; reflexivity. Qed.

(** ** Shopify endpoints *)

(** C9: the endpoint derived from a collection URL and from a bare store
    URL, by [get_shopify_json_url] and as the first candidate of
    [scrape_shopify]; a trailing slash on the input changes neither. *)
Theorem shopify_endpoint_derivation :
  get_shopify_json_url "https://store.example.com/collections/resin"
    = "https://store.example.com/collections/resin/products.json?limit=250" /\
  get_shopify_json_url "https://store.example.com"
    = "https://store.example.com/products.json?limit=250" /\
  head (shopify_endpoints "https://store.example.com/collections/resin")
    = Some "https://store.example.com/collections/resin/products.json?limit=250" /\
  shopify_endpoints "https://store.example.com"
    = ["https://store.example.com/products.json?limit=250"] /\
  (forall url : string,
     get_shopify_json_url (url ++ "/") = get_shopify_json_url url /\
     shopify_endpoints (url ++ "/") = shopify_endpoints url).
Proof.
  repeat split; try (vm_compute; reflexivity).
  - unfold get_shopify_json_url. by rewrite rstrip_char_snoc.
  - unfold shopify_endpoints. by rewrite rstrip_char_snoc.
Qed.

(** ** Classification *)

Lemma abs_like_contains_abs (text : string) :
  PyStr.contains "abs-like" text || PyStr.contains "abs like" text = true ->
  PyStr.contains "abs" text = true.
Proof.
  intros H. apply orb_true_iff in H as [H|H].
  - by apply (contains_app_l "abs" "-like").
  - by apply (contains_app_l "abs" " like").
Qed.

Lemma first_label_unfold (row : list string * string) rows text dflt :
  first_label (row :: rows) text dflt =
  if existsb (fun kw => PyStr.contains kw text) row.1 then row.2
  else first_label rows text dflt.
Proof. reflexivity. Qed.

(** Walk down the keyword table one [if] at a time. *)
Ltac next_keyword :=
  rewrite first_label_unfold; cbn [existsb fst snd];
  match goal with
  | |- context [if ?c then _ else _] => destruct c eqn:?
  end.

(** C10 (amended): [detect_product_type] never answers ["ABS-Like"]; a text
    containing [abs] is labelled by the [abs] row or by one of the two rows
    above it, and by the [abs] row when those two do not match. *)
Theorem detect_never_abs_like (title product_type : string) :
  detect_product_type title product_type <> "ABS-Like" /\
  (PyStr.contains "abs" (PyStr.lower (title ++ " " ++ product_type)) = true ->
   (detect_product_type title product_type = "PLA+" \/
    detect_product_type title product_type = "PETG" \/
    detect_product_type title product_type = "ABS") /\
   (PyStr.contains "pla+" (PyStr.lower (title ++ " " ++ product_type)) = false ->
    PyStr.contains "pla plus" (PyStr.lower (title ++ " " ++ product_type)) = false ->
    PyStr.contains "petg" (PyStr.lower (title ++ " " ++ product_type)) = false ->
    detect_product_type title product_type = "ABS")).
Proof.
  unfold detect_product_type.
  generalize (PyStr.lower (title ++ " " ++ product_type)); intros text.
  unfold TYPE_KEYWORDS. split.
  - do 12 (next_keyword; [discriminate|]).
    next_keyword.
    + rewrite orb_false_r in *.
      match goal with
      | H : _ || _ = true |- _ => apply abs_like_contains_abs in H
      end.
      congruence.
    + do 6 (next_keyword; [discriminate|]). discriminate.
  - intros Habs. split.
    + next_keyword; [by left|]. next_keyword; [by right; left|].
      next_keyword; [by right; right|].
      rewrite orb_false_r in *. congruence.
    + intros H1 H2 H3.
      rewrite !first_label_unfold. cbn [existsb fst snd].
      by rewrite H1, H2, H3, Habs.
Qed.

(** The keyword rows above do overlap: here [petg] wins over [abs]. *)
Lemma detect_abs_shadowed :
  PyStr.contains "abs" (PyStr.lower ("PETG ABS Blend" ++ " " ++ "")) = true /\
  detect_product_type "PETG ABS Blend" "" = "PETG" /\
  detect_product_type "PETG ABS Blend" "" <> "ABS".
Proof. repeat split; vm_compute; congruence. Qed.

Lemma detect_never_abs_like_witness :
  PyStr.contains "abs" (PyStr.lower ("ABS-Like Resin" ++ " " ++ "")) = true /\
  detect_product_type "ABS-Like Resin" "" = "ABS".
Proof.
  split; [reflexivity|].
  apply (proj2 (detect_never_abs_like "ABS-Like Resin" "")); reflexivity.
Defined.

Lemma first_label_default rows text dflt :
  forallb (fun row => negb (row_hits text row)) rows = true ->
  first_label rows text dflt = dflt.
Proof.
  induction rows as [|row rows IH]; simpl; [done|].
  intros H. apply andb_true_iff in H as [Hrow Hrest].
  apply negb_true_iff in Hrow. rewrite Hrow. by apply IH.
Qed.

(** When no keyword matches, the type filled in is ["Standard"], whatever
    the catalog: the [category] argument is never consulted. *)
Lemma enrich_default_type py_format (product : dict) (category title : string) :
  dict_get product "name" (VStr "") = VStr title ->
  truthy (dict_get product "type" VNone) = false ->
  no_keyword (PyStr.lower (title ++ " " ++ "")) = true ->
  exists product',
    enrich_product py_format product category = Some product' /\
    dict_find product' "type" = Some (VStr "Standard").
Proof.
  intros Hname Htype Hnone.
  unfold enrich_product. rewrite Hname. cbn zeta. rewrite Htype. simpl.
  unfold detect_product_type. rewrite first_label_default by done.
  set (p2 := dict_set product "type" (VStr "Standard")).
  assert (Hp2 : dict_find p2 "type" = Some (VStr "Standard"))
    by apply dict_find_set_eq.
  clearbody p2.
  destruct (truthy (dict_get p2 "color" VNone)); simpl;
    match goal with
    | |- context [truthy ?v] => destruct (truthy v)
    end; eexists; (split; [reflexivity|]);
    by rewrite ?dict_find_set_ne by discriminate.
Qed.

(** C6: a filament record on which no keyword matches is enriched with type
    ["Standard"], not ["PLA"], although the generic scraper's classifier
    answers ["PLA"] for the same name. *)
Theorem enrich_filament_default py_format :
  no_keyword (PyStr.lower ("Mystery Material XYZ" ++ " " ++ "")) = true /\
  enrich_product py_format [("name", VStr "Mystery Material XYZ")] "resin"
    ≫= (fun p => dict_find p "type") = Some (VStr "Standard") /\
  enrich_product py_format [("name", VStr "Mystery Material XYZ")] "filament"
    ≫= (fun p => dict_find p "type") = Some (VStr "Standard") /\
  enrich_product py_format [("name", VStr "Mystery Material XYZ")] "filament"
    ≫= (fun p => dict_find p "type") <> Some (VStr "PLA") /\
  Generic.detect_type_from_name "resin" "Mystery Material XYZ" = "Standard" /\
  Generic.detect_type_from_name "filament" "Mystery Material XYZ" = "PLA".
Proof.
  assert (Hfil : enrich_product py_format [("name", VStr "Mystery Material XYZ")]
                   "filament" ≫= (fun p => dict_find p "type")
                 = Some (VStr "Standard")) by (vm_compute; reflexivity).
  split; [vm_compute; reflexivity|]. split; [vm_compute; reflexivity|].
  split; [exact Hfil|]. split; [rewrite Hfil; discriminate|].
  split; vm_compute; reflexivity.
Qed.

Lemma dict_get_find_eq (d d' : dict) (k : string) (dflt : value) :
  dict_find d k = dict_find d' k -> dict_get d k dflt = dict_get d' k dflt.
Proof. unfold dict_get. by intros ->. Qed.




(** ** Extraction strategies *)

(** C5: the Shopify and WooCommerce loops emit a record whose name is the
    empty string. *)
Theorem strategies_emit_empty_name py_float py_format :
  (exists r,
     scrape_shopify py_float py_format (fun _ => Some untitled_response)
       "https://store.example.com" "Brand" "resin" = [r] /\
     dict_find r "name" = Some (VStr "")) /\
  (exists r,
     scrape_woocommerce py_float (Some empty_title_page) "Brand"
       ".woocommerce-loop-product__title" ".price" "img" = [r] /\
     dict_find r "name" = Some (VStr "")).
Proof. split; eexists; split; reflexivity. Qed.

(** ** Merge engine *)

Section MergeFacts.

Implicit Types (d item : dict) (h : heap) (refs : list addr) (key : string * string).

Lemma truthy_get_find (d : dict) (k : string) :
  truthy (dict_get d k VNone) = true -> dict_find d k = Some (dict_get d k VNone).
Proof. unfold dict_get. by destruct (dict_find d k). Qed.

Lemma dict_has_find d k v : dict_find d k = Some v -> dict_has d k = true.
Proof.
  induction d as [|[k0 v0] d IH]; simpl; [done|].
  destruct (String.eqb k0 k); [done|]. apply IH.
Qed.

Lemma mapM_str_lower (l : list value) :
  forallb is_str l = true -> is_Some (mapM str_lower l).
Proof.
  induction l as [|v l IH]; simpl; [eauto|].
  intros H. apply andb_true_iff in H as [Hv Hl].
  destruct v; try done. destruct (IH Hl) as [ts Hts].
  cbn. rewrite Hts. eauto.
Qed.

Lemma well_formed_inv d :
  well_formed d = true ->
  exists brand name tags,
    dict_get d "brand" (VStr "") = VStr brand /\
    dict_find d "name" = Some (VStr name) /\
    dict_find d "tags" = Some (VList tags) /\
    forallb is_str tags = true.
Proof.
  unfold well_formed. intros H.
  apply andb_true_iff in H as [H Htags]. apply andb_true_iff in H as [Hbrand Hname].
  destruct (dict_get d "brand" (VStr "")) as [| | |brand| |]; try done.
  destruct (dict_find d "name") as [[| | |name| |]|]; try done.
  destruct (dict_find d "tags") as [[| | | |tags|]|]; try done.
  eauto 10.
Qed.

Lemma well_formed_validate d category :
  well_formed d = true -> is_Some (validate_product d category).
Proof.
  intros (brand & name & tags & _ & Hname & Htags & Hstr)%well_formed_inv.
  unfold validate_product, dict_get, reject_logged.
  rewrite Hname, Htags, (dict_has_find _ _ _ Hname).
  cbn -[any_match Re.search PyStr.contains mapM].
  destruct (mapM_str_lower tags Hstr) as [ts ->].
  cbn -[any_match Re.search PyStr.contains].
  repeat match goal with
         | |- context [if ?c then _ else _] => destruct c
         end; eauto.
Qed.

Lemma well_formed_key d : well_formed d = true -> is_Some (entry_key d).
Proof.
  intros (brand & name & tags & Hbrand & Hname & _)%well_formed_inv.
  unfold entry_key. rewrite Hbrand. unfold dict_get. rewrite Hname. simpl. eauto.
Qed.

Lemma update_entry_find item d k :
  k ∉ ["profiles"; "params"; "image"; "description"; "tags"] ->
  dict_find (update_entry item d) k = dict_find d k.
Proof.
  intros Hk. rewrite !not_elem_of_cons in Hk. destruct Hk as (?&?&?&?&?&_).
  unfold update_entry, dict_update, merged_fields. cbn [fold_left fst snd].
  by rewrite !dict_find_set_ne.
Qed.

Lemma update_entry_tags item d :
  dict_find (update_entry item d) "tags"
  = Some (py_or (dict_get item "tags" VNone) (dict_get d "tags" VNone)).
Proof.
  unfold update_entry, dict_update, merged_fields. cbn [fold_left fst snd].
  by rewrite dict_find_set_eq.
Qed.

Lemma update_entry_image item d :
  dict_find (update_entry item d) "image"
  = Some (py_or (dict_get item "image" VNone) (dict_get d "image" VNone)).
Proof.
  unfold update_entry, dict_update, merged_fields. cbn [fold_left fst snd].
  rewrite !dict_find_set_ne by discriminate.
  by rewrite dict_find_set_eq.
Qed.

Lemma update_entry_key item d : entry_key (update_entry item d) = entry_key d.
Proof.
  unfold entry_key, dict_get.
  rewrite !update_entry_find; [done| |];
    apply (bool_decide_unpack _); vm_compute; exact I.
Qed.

Lemma update_entry_well_formed item d : well_formed item = true -> well_formed d = true -> well_formed (update_entry item d) = true.
Proof.
  intros (bi & ni & ti & _ & _ & Hti & Hsi)%well_formed_inv Hd.
  pose proof Hd as (bd & nd & td & Hbd & Hnd & Htd & Hsd)%well_formed_inv.
  unfold well_formed, dict_get in *.
  rewrite update_entry_tags.
  rewrite !update_entry_find by (apply (bool_decide_unpack _); vm_compute; exact I).
  rewrite Hnd. unfold dict_get. rewrite Hti, Htd. simpl.
  destruct (dict_find d "brand") as [v|]; simpl in *; subst; simpl;
    unfold py_or; by destruct ti.
Qed.

Lemma key_at_insert h e d d' a :
  h !! e = Some d -> entry_key d' = entry_key d ->
  key_at (<[e:=d']> h) a = key_at h a.
Proof.
  intros He Hk. unfold key_at. destruct (decide (e = a)) as [->|Hne].
  - rewrite list_lookup_insert_eq by (by eapply lookup_lt_Some).
    rewrite He. simpl. done.
  - by rewrite list_lookup_insert_ne.
Qed.

Lemma find_match_spec h key refs :
  heap_ok h -> refs_ok h refs ->
  (exists e d, find_match h key refs = Some (Some e) /\ e ∈ refs /\
               h !! e = Some d /\ entry_key d = Some key) \/
  (find_match h key refs = Some None /\ Some key ∉ key_at h <$> refs).
Proof.
  intros Hh Hrefs. induction Hrefs as [|e refs He Hrefs IH]; simpl.
  - right. split; [done|]. apply not_elem_of_nil.
  - apply lookup_lt_is_Some_2 in He as [d Hd]. rewrite Hd. simpl.
    assert (Hwf : well_formed d = true).
    { eapply Forall_forall in Hh; [done|]. by eapply list_elem_of_lookup_2. }
    destruct (well_formed_key d Hwf) as [k Hk]. rewrite Hk. simpl.
    destruct (decide (k = key)) as [->|Hne].
    + left. exists e, d. repeat split; try done. apply list_elem_of_here.
    + destruct IH as [(e' & d' & Hf & Hin & Hd' & Hk')|[Hf Hnot]].
      * left. exists e', d'. repeat split; try done. by apply list_elem_of_further.
      * right. split; [done|]. apply not_elem_of_cons. split; [|done].
        unfold key_at. rewrite Hd. simpl. rewrite Hk. congruence.
Qed.

Lemma merge_item_ok st a :
  heap_ok (st_heap st) -> refs_ok (st_heap st) (st_existing st) ->
  a < length (st_heap st) ->
  exists st',
    merge_item st a = Some st' /\
    heap_ok (st_heap st') /\
    length (st_heap st') = length (st_heap st) /\
    refs_ok (st_heap st') (st_existing st') /\
    (NoDup (key_at (st_heap st) <$> st_existing st) ->
     NoDup (key_at (st_heap st') <$> st_existing st')).
Proof.
  destruct st as [h refs]. simpl. intros Hh Hrefs Ha.
  unfold merge_item. simpl.
  pose proof Ha as [item Hitem]%lookup_lt_is_Some_2. rewrite Hitem. simpl.
  assert (Hwf : well_formed item = true).
  { eapply Forall_forall in Hh; [done|]. by eapply list_elem_of_lookup_2. }
  destruct (well_formed_key item Hwf) as [key Hkey]. rewrite Hkey. simpl.
  destruct (find_match_spec h key refs Hh Hrefs)
    as [(e & d & -> & Hin & Hd & Hk)|[-> Hnot]]; simpl.
  - rewrite Hd. simpl. eexists. split; [done|]. simpl.
    assert (Hwfd : well_formed d = true).
    { eapply Forall_forall in Hh; [done|]. by eapply list_elem_of_lookup_2. }
    repeat split.
    + apply Forall_insert; [done|]. by apply update_entry_well_formed.
    + apply length_insert.
    + unfold refs_ok. by rewrite length_insert.
    + intros Hnd. erewrite list_fmap_ext; [exact Hnd|].
      intros i x _. eapply key_at_insert; [done|]. apply update_entry_key.
  - eexists. split; [done|]. simpl. repeat split; try done.
    + apply Forall_app. split; [done|]. by apply Forall_singleton.
    + intros Hnd. rewrite fmap_app. apply NoDup_app. repeat split; [done| |].
      * intros x Hx. cbn [fmap list_fmap]. rewrite list_elem_of_singleton. intros ->.
        unfold key_at in Hx at 1. rewrite Hitem in Hx. simpl in Hx.
        rewrite Hkey in Hx. done.
      * apply NoDup_singleton.
Qed.

Lemma merge_loop_ok items st :
  heap_ok (st_heap st) -> refs_ok (st_heap st) (st_existing st) ->
  Forall (fun a => a < length (st_heap st)) items ->
  exists st',
    merge_loop st items = (st', true) /\
    heap_ok (st_heap st') /\
    length (st_heap st') = length (st_heap st) /\
    refs_ok (st_heap st') (st_existing st') /\
    (NoDup (key_at (st_heap st) <$> st_existing st) ->
     NoDup (key_at (st_heap st') <$> st_existing st')).
Proof.
  revert st. induction items as [|a items IH]; intros st Hh Hrefs Hitems; simpl.
  - exists st. repeat split; done.
  - apply Forall_cons in Hitems as [Ha Hitems].
    destruct (merge_item_ok st a Hh Hrefs Ha) as (st1 & -> & Hh1 & Hlen1 & Hrefs1 & Hnd1).
    destruct (IH st1 Hh1 Hrefs1) as (st' & -> & Hh' & Hlen' & Hrefs' & Hnd').
    { by rewrite Hlen1. }
    exists st'. repeat split; try done; [congruence|tauto].
Qed.

Lemma deref_cons h a refs :
  deref h (a :: refs) =
  match h !! a with Some d => d :: deref h refs | None => deref h refs end.
Proof. reflexivity. Qed.

Lemma deref_seq h i n : deref h (seq i n) = take n (drop i h).
Proof.
  revert i. induction n as [|n IH]; intros i; [done|].
  cbn [seq]. rewrite deref_cons, IH.
  destruct (h !! i) as [d|] eqn:Hd.
  - by rewrite (drop_S _ _ _ Hd).
  - apply lookup_ge_None_1 in Hd.
    by rewrite !drop_ge, !take_nil by lia.
Qed.

Lemma deref_all h : deref h (seq 0 (length h)) = h.
Proof. rewrite deref_seq, drop_0. by apply take_ge. Qed.

Lemma deref_prefix (l1 l2 : list dict) :
  deref (l1 ++ l2) (seq 0 (length l1)) = l1.
Proof. rewrite deref_seq, drop_0. by apply take_app_length. Qed.

Lemma deref_keys h refs :
  refs_ok h refs -> entry_key <$> deref h refs = key_at h <$> refs.
Proof.
  induction 1 as [|a refs Ha _ IH]; [done|].
  apply lookup_lt_is_Some_2 in Ha as [d Hd].
  rewrite deref_cons, Hd, !fmap_cons, IH. unfold key_at at 2. by rewrite Hd.
Qed.

Lemma deref_heap_ok h refs :
  heap_ok h -> Forall (fun d => well_formed d = true) (deref h refs).
Proof.
  intros Hh. apply Forall_forall. intros d [a [_ Ha]]%list_elem_of_omap.
  eapply Forall_forall in Hh; [done|]. by eapply list_elem_of_lookup_2.
Qed.

Lemma passes_true category d :
  passes category d = true <-> validate_product d category = Some true.
Proof.
  unfold passes. destruct (validate_product d category) as [[]|]; naive_solver.
Qed.

Lemma revalidate_Some category l out :
  revalidate category l = Some out -> out = List.filter (passes category) l.
Proof.
  revert out. induction l as [|d l IH]; simpl; intros out H.
  - by injection H as <-.
  - apply bind_Some in H as (ok & Hok & H).
    apply bind_Some in H as (rest & Hrest & H). injection H as <-.
    unfold passes. rewrite Hok, (IH rest Hrest). by destruct ok.
Qed.

Lemma revalidate_total category l :
  Forall (fun d => is_Some (validate_product d category)) l ->
  revalidate category l = Some (List.filter (passes category) l).
Proof.
  induction 1 as [|d l [ok Hok] _ IH]; simpl; [done|].
  rewrite Hok, IH. simpl. unfold passes. rewrite Hok. by destruct ok.
Qed.

Lemma revalidate_passing category l :
  Forall (fun d => validate_product d category = Some true) l ->
  revalidate category l = Some l.
Proof.
  induction 1 as [|d l Hd _ IH]; simpl; [done|]. by rewrite Hd, IH.
Qed.

Lemma filter_passes_valid category l :
  Forall (fun d => validate_product d category = Some true)
         (List.filter (passes category) l).
Proof.
  apply Forall_forall. intros d Hd.
  apply list_elem_of_In, filter_In in Hd as [_ Hd]. by apply passes_true.
Qed.

Lemma filter_sublist {A} (f : A -> bool) (l : list A) :
  List.filter f l `sublist_of` l.
Proof.
  induction l as [|x l IH]; simpl; [done|].
  destruct (f x); by constructor.
Qed.

(** The [try] block on well-formed data: it completes, and its result is
    the re-validated content of the final [existing] list. *)
Lemma merge_attempt_ok new_data existing filepath :
  Forall (fun d => well_formed d = true) new_data ->
  Forall (fun d => well_formed d = true) existing ->
  exists h refs,
    heap_ok h /\ refs_ok h refs /\
    (unique_keys existing -> NoDup (key_at h <$> refs)) /\
    merge_attempt new_data existing filepath
    = Merged (List.filter (passes (category_of filepath)) (deref h refs)).
Proof.
  intros Hnew Hex. unfold merge_attempt.
  set (st0 := {| st_heap := existing ++ new_data;
                 st_existing := seq 0 (length existing) |}).
  destruct (merge_loop_ok (seq (length existing) (length new_data)) st0)
    as (st & Hloop & Hh & Hlen & Hrefs & Hnd).
  - apply Forall_app. done.
  - apply Forall_seq. intros j Hj. simpl. rewrite length_app. lia.
  - apply Forall_seq. intros j Hj. simpl. rewrite length_app. lia.
  - rewrite Hloop. exists (st_heap st), (st_existing st).
    repeat split; try done.
    + intros Huniq. apply Hnd. subst st0. simpl.
      rewrite <- deref_keys, deref_prefix; [done|].
      apply Forall_seq. intros j Hj. rewrite length_app. lia.
    + rewrite revalidate_total; [done|].
      eapply Forall_impl; [by apply deref_heap_ok|].
      intros d Hd. by apply well_formed_validate.
Qed.

Lemma find_match_none h key refs :
  (forall e, e ∈ refs -> exists k, key_at h e = Some k /\ k <> key) ->
  find_match h key refs = Some None.
Proof.
  induction refs as [|e refs IH]; intros H; simpl; [done|].
  destruct (H e) as (k & Hk & Hne); [apply list_elem_of_here|].
  unfold key_at in Hk. apply bind_Some in Hk as (d & -> & Hk). simpl.
  rewrite Hk. simpl. rewrite decide_False by done.
  apply IH. intros e' He'. apply H. by apply list_elem_of_further.
Qed.

(** With pairwise distinct keys nothing is updated: the loop only appends. *)
Lemma merge_loop_fresh h j m :
  heap_ok h -> NoDup (entry_key <$> h) -> j + m = length h ->
  merge_loop {| st_heap := h; st_existing := seq 0 j |} (seq j m)
  = ({| st_heap := h; st_existing := seq 0 (j + m) |}, true).
Proof.
  intros Hh Hnd. revert j. induction m as [|m IH]; intros j Hlen; simpl.
  - by rewrite Nat.add_0_r.
  - unfold merge_item. simpl.
    assert (Hj : j < length h) by lia.
    apply lookup_lt_is_Some_2 in Hj as [item Hitem]. rewrite Hitem. simpl.
    assert (Hwf : well_formed item = true).
    { eapply Forall_forall in Hh; [done|]. by eapply list_elem_of_lookup_2. }
    destruct (well_formed_key item Hwf) as [key Hkey]. rewrite Hkey. simpl.
    rewrite find_match_none; simpl.
    + replace (seq 0 j ++ [j])%list with (seq 0 (S j)) by (by rewrite seq_S).
      rewrite IH by lia. do 3 f_equal. lia.
    + intros e [_ He]%elem_of_seq. simpl in He.
      assert (He' : e < length h) by lia.
      apply lookup_lt_is_Some_2 in He' as [d Hd].
      assert (Hwfd : well_formed d = true).
      { eapply Forall_forall in Hh; [done|]. by eapply list_elem_of_lookup_2. }
      destruct (well_formed_key d Hwfd) as [k Hk].
      exists k. split; [unfold key_at; by rewrite Hd|].
      intros ->.
      assert (e = j); [|lia].
      eapply (NoDup_lookup _ _ _ (Some key) Hnd);
        rewrite list_lookup_fmap; [rewrite Hd|rewrite Hitem]; simpl; congruence.
Qed.


Lemma dict_has_spec d k :
  dict_has d k = match dict_find d k with Some _ => true | None => false end.
Proof.
  induction d as [|[k0 v0] d IH]; simpl; [done|].
  by destruct (String.eqb k0 k).
Qed.

(** Validation reads the lowered name, the presence of the [name] key and
    the tags, nothing else. *)
Lemma validate_product_ext d d' category :
  str_lower (dict_get d "name" (VStr "")) = str_lower (dict_get d' "name" (VStr "")) ->
  dict_has d "name" = dict_has d' "name" ->
  dict_get d "tags" (VList []) = dict_get d' "tags" (VList []) ->
  validate_product d category = validate_product d' category.
Proof.
  intros Hname Hhas Htags. unfold validate_product, reject_logged.
  by rewrite Hname, Hhas, Htags.
Qed.

Lemma update_entry_passes item d category :
  well_formed item = true -> well_formed d = true ->
  entry_key d = entry_key item ->
  passes category (update_entry item d)
  = if truthy (dict_get item "tags" VNone) then passes category item
    else passes category d.
Proof.
  intros Hi Hd Hkey.
  pose proof Hi as (bi & ni & ti & Hbi & Hni & Hti & _)%well_formed_inv.
  pose proof Hd as (bd & nd & td & Hbd & Hnd & Htd & _)%well_formed_inv.
  assert (Hlow : PyStr.lower nd = PyStr.lower ni).
  { unfold entry_key, dict_get in Hkey. unfold dict_get in Hbi, Hbd.
    rewrite Hbi, Hbd, Hni, Hnd in Hkey. simpl in Hkey. congruence. }
  unfold passes.
  destruct (truthy (dict_get item "tags" VNone)) eqn:Ht.
  - rewrite (validate_product_ext (update_entry item d) item); [done| | |].
    + unfold dict_get. rewrite update_entry_find, Hnd, Hni
        by (apply (bool_decide_unpack _); vm_compute; exact I).
      simpl. by rewrite Hlow.
    + rewrite !dict_has_spec, update_entry_find, Hnd, Hni
        by (apply (bool_decide_unpack _); vm_compute; exact I). done.
    + unfold dict_get at 1. rewrite update_entry_tags. unfold py_or. rewrite Ht.
      unfold dict_get. by rewrite Hti.
  - rewrite (validate_product_ext (update_entry item d) d); [done| | |].
    + unfold dict_get. by rewrite update_entry_find
        by (apply (bool_decide_unpack _); vm_compute; exact I).
    + rewrite !dict_has_spec. by rewrite update_entry_find
        by (apply (bool_decide_unpack _); vm_compute; exact I).
    + unfold dict_get at 1. rewrite update_entry_tags. unfold py_or. rewrite Ht.
      unfold dict_get. by rewrite Htd.
Qed.

End MergeFacts.


(** C3 (amended): over a readable catalog of well-formed entries, every
    entry returned passes validation and no failing entry is returned; with
    the file missing or unreadable the new data comes back as it is. *)
Theorem merge_output_valid (new_data existing : list dict) (filepath : string) :
  (Forall (fun d => well_formed d = true) new_data ->
   Forall (fun d => well_formed d = true) existing ->
   Forall (fun d => validate_product d (category_of filepath) = Some true)
          (merge_with_existing new_data (FileLoaded existing) filepath) /\
   (forall d, validate_product d (category_of filepath) <> Some true ->
              d ∉ merge_with_existing new_data (FileLoaded existing) filepath)) /\
  merge_with_existing new_data FileMissing filepath = new_data /\
  merge_with_existing new_data FileUnreadable filepath = new_data.
Proof.
  split; [|done]. intros Hnew Hex.
  destruct (merge_attempt_ok new_data existing filepath Hnew Hex)
    as (h & refs & _ & _ & _ & Hm).
  unfold merge_with_existing. rewrite Hm.
  pose proof (filter_passes_valid (category_of filepath) (deref h refs)) as Hvalid.
  split; [done|].
  intros d Hd Hin. eapply Forall_forall in Hvalid; [|done]. done.
Qed.

(** C2 (amended): the merge keeps the keys of a well-formed catalog pairwise
    distinct; two new records with one key, merged into an empty catalog,
    leave at most one entry, which carries the later image. *)
Theorem merge_unique_keys (new_data existing : list dict) (a b : dict)
    (filepath : string) :
  (Forall (fun d => well_formed d = true) new_data ->
   Forall (fun d => well_formed d = true) existing ->
   unique_keys existing ->
   unique_keys (merge_with_existing new_data (FileLoaded existing) filepath)) /\
  (well_formed a = true -> well_formed b = true ->
   entry_key a = entry_key b ->
   truthy (dict_get b "image" VNone) = true ->
   merge_with_existing [a; b] (FileLoaded []) filepath
   = (if passes (category_of filepath) (update_entry b a)
      then [update_entry b a] else []) /\
   dict_find (update_entry b a) "image" = dict_find b "image" /\
   (passes (category_of filepath) a = true ->
    passes (category_of filepath) b = true ->
    merge_with_existing [a; b] (FileLoaded []) filepath = [update_entry b a])).
Proof.
  split.
  - intros Hnew Hex Huniq.
    destruct (merge_attempt_ok new_data existing filepath Hnew Hex)
      as (h & refs & _ & Hrefs & Hnd & Hm).
    unfold merge_with_existing. rewrite Hm. unfold unique_keys.
    apply (sublist_NoDup _ (entry_key <$> deref h refs)).
    + rewrite deref_keys by done. by apply Hnd.
    + apply fmap_sublist, filter_sublist.
  - intros Ha Hb Hkey Himg.
    assert (Hout : merge_with_existing [a; b] (FileLoaded []) filepath
              = if passes (category_of filepath) (update_entry b a)
                then [update_entry b a] else []); [|split; [done|split]].
    + destruct (well_formed_key a Ha) as [k Hk].
      assert (Hkb : entry_key b = Some k) by congruence.
      unfold merge_with_existing, merge_attempt.
      cbn [length seq app merge_loop].
      unfold merge_item at 1. cbn -[validate_product update_entry].
      rewrite Hk. cbn -[validate_product update_entry].
      unfold merge_item. cbn -[validate_product update_entry].
      rewrite Hkb. cbn -[validate_product update_entry].
      rewrite Hk. cbn -[validate_product update_entry].
      rewrite decide_True by done. cbn -[validate_product update_entry].
      unfold passes.
      destruct (well_formed_validate (update_entry b a) (category_of filepath))
        as [ok ->]; [by apply update_entry_well_formed|].
      by destruct ok.
    + rewrite update_entry_image. unfold py_or. rewrite Himg.
      symmetry. by apply truthy_get_find.
    + intros Hpa Hpb. rewrite Hout, update_entry_passes, Hpa, Hpb by done.
      by destruct (truthy (dict_get b "tags" VNone)).
Qed.

(** C8 (amended): with the file missing or unreadable the new data is
    returned unchanged; this is what merging into an empty catalog gives
    when the new records are well formed, pass validation and have pairwise
    distinct keys. *)
Theorem merge_missing_file (new_data : list dict) (filepath : string) :
  merge_with_existing new_data FileMissing filepath = new_data /\
  merge_with_existing new_data FileUnreadable filepath = new_data /\
  (Forall (fun d => well_formed d = true) new_data ->
   unique_keys new_data ->
   Forall (fun d => validate_product d (category_of filepath) = Some true) new_data ->
   merge_with_existing new_data (FileLoaded []) filepath = new_data).
Proof.
  repeat split. intros Hwf Huniq Hvalid.
  unfold merge_with_existing, merge_attempt. cbn [length app].
  rewrite (merge_loop_fresh new_data 0 (length new_data)) by done.
  cbn [st_heap st_existing]. rewrite Nat.add_0_l, deref_all.
  by rewrite revalidate_passing.
Qed.


(** *** Concrete runs *)



Lemma merge_output_valid_witness :
  Forall (fun d => validate_product d (category_of "resins_db.json") = Some true)
         (merge_with_existing [grey_lower; pla_spool] (FileLoaded [grey_upper])
            "resins_db.json").
Proof.
  apply (proj1 (merge_output_valid [grey_lower; pla_spool] [grey_upper]
                  "resins_db.json"));
    repeat constructor.
Defined.

(** With the catalog file missing, an entry that fails validation is
    returned all the same. *)
Lemma merge_missing_file_not_validated :
  well_formed pla_spool = true /\
  validate_product pla_spool (category_of "resins_db.json") = Some false /\
  pla_spool ∈ merge_with_existing [pla_spool] FileMissing "resins_db.json" /\
  ~ Forall (fun d => validate_product d (category_of "resins_db.json") = Some true)
           (merge_with_existing [pla_spool] FileMissing "resins_db.json").
Proof.
  assert (Hbad : validate_product pla_spool (category_of "resins_db.json") = Some false)
    by (vm_compute; reflexivity).
  split; [reflexivity|]. split; [exact Hbad|]. split.
  - apply list_elem_of_here.
  - intros H. apply Forall_cons in H as [H _]. congruence.
Qed.

Lemma merge_unique_keys_witness :
  unique_keys (merge_with_existing [grey_lower] (FileLoaded [grey_upper])
                 "resins_db.json") /\
  merge_with_existing [grey_upper; grey_lower] (FileLoaded []) "resins_db.json"
  = [update_entry grey_lower grey_upper] /\
  dict_find (update_entry grey_lower grey_upper) "image" = Some (VStr "grey-2.png").
Proof.
  pose proof (merge_unique_keys [grey_lower] [grey_upper] grey_upper grey_lower
                "resins_db.json") as [Huniq Htwo].
  split.
  - apply Huniq.
    + repeat constructor.
    + repeat constructor.
    + unfold unique_keys. apply NoDup_singleton.
  - destruct Htwo as (_ & Himg & Hone); try reflexivity.
    split; [apply Hone; vm_compute; reflexivity|exact Himg].
Defined.

(** Duplicates already in the catalog are not collapsed. *)
Lemma merge_keeps_existing_duplicates :
  well_formed grey_upper = true /\ well_formed grey_lower = true /\
  entry_key grey_upper = entry_key grey_lower /\
  merge_with_existing [] (FileLoaded [grey_upper; grey_lower]) "resins_db.json"
  = [grey_upper; grey_lower] /\
  ~ unique_keys (merge_with_existing [] (FileLoaded [grey_upper; grey_lower])
                   "resins_db.json").
Proof.
  assert (Hout : merge_with_existing [] (FileLoaded [grey_upper; grey_lower])
                   "resins_db.json" = [grey_upper; grey_lower])
    by (vm_compute; reflexivity).
  split; [reflexivity|]. split; [reflexivity|]. split; [reflexivity|].
  split; [exact Hout|].
  rewrite Hout. unfold unique_keys. intros H.
  by apply (NoDup_lookup _ 0 1 (entry_key grey_upper)) in H.
Qed.

Lemma merge_missing_file_witness :
  merge_with_existing [grey_upper] (FileLoaded []) "resins_db.json" = [grey_upper].
Proof.
  apply (proj2 (proj2 (merge_missing_file [grey_upper] "resins_db.json"))).
  - repeat constructor.
  - unfold unique_keys. apply NoDup_singleton.
  - constructor; [vm_compute; reflexivity|constructor].
Defined.

(** A missing file is not the same as an empty catalog: the full merge
    re-validates and drops the filament, the early return keeps it. *)
Lemma merge_missing_file_differs_from_empty :
  merge_with_existing [pla_spool] FileMissing "resins_db.json" = [pla_spool] /\
  merge_with_existing [pla_spool] FileUnreadable "resins_db.json" = [pla_spool] /\
  merge_with_existing [pla_spool] (FileLoaded []) "resins_db.json" = [] /\
  merge_with_existing [pla_spool] FileMissing "resins_db.json"
  <> merge_with_existing [pla_spool] (FileLoaded []) "resins_db.json".
Proof. repeat split; vm_compute; congruence. Qed.

(** * Further properties *)

(** ** The merge loop without assumptions on the data *)

Section MergeRun.

Implicit Types (d item : dict) (h : heap) (refs : list addr) (key : string * string).

Lemma same_identity_refl d : same_identity d d.
Proof. by intros k _. Qed.

Lemma same_identity_trans d1 d2 d3 :
  same_identity d1 d2 -> same_identity d2 d3 -> same_identity d1 d3.
Proof. intros H12 H23 k Hk. by rewrite H23, H12. Qed.

Lemma same_identity_update item d : same_identity d (update_entry item d).
Proof. intros k Hk. by apply update_entry_find. Qed.

Lemma same_identity_key d d' : same_identity d d' -> entry_key d' = entry_key d.
Proof.
  intros H. unfold entry_key, dict_get.
  rewrite !H; [done| |]; apply (bool_decide_unpack _); vm_compute; exact I.
Qed.

Lemma Forall2_same_identity_refl h : Forall2 same_identity h h.
Proof. induction h; constructor; [apply same_identity_refl|done]. Qed.

Lemma find_match_found h key refs e :
  find_match h key refs = Some (Some e) ->
  e ∈ refs /\ exists d, h !! e = Some d /\ entry_key d = Some key.
Proof.
  induction refs as [|e0 refs IH]; simpl; [done|].
  intros H. apply bind_Some in H as (d & Hd & H).
  apply bind_Some in H as (k & Hk & H).
  destruct (decide (k = key)) as [->|Hne].
  - injection H as <-. split; [apply list_elem_of_here|]. eauto.
  - destruct (IH H) as [Hin Hd']. split; [by apply list_elem_of_further|done].
Qed.

(** One iteration: the heap keeps its length, every object keeps its
    identity, an object is rewritten only if it has the key of the item,
    and [existing] stays or grows by the item. *)
Lemma merge_item_run st a st' :
  merge_item st a = Some st' ->
  Forall2 same_identity (st_heap st) (st_heap st') /\
  (forall i, st_heap st' !! i = st_heap st !! i \/
             (is_Some (key_at (st_heap st) i) /\
              key_at (st_heap st) i = key_at (st_heap st) a)) /\
  (st_existing st' = st_existing st \/
   st_existing st' = (st_existing st ++ [a])%list).
Proof.
  destruct st as [h refs]. unfold merge_item. simpl. intros H.
  apply bind_Some in H as (item & Hitem & H).
  apply bind_Some in H as (key & Hkey & H).
  apply bind_Some in H as (found & Hfound & H).
  destruct found as [e|].
  - apply bind_Some in H as (d & Hd & H). injection H as <-. simpl.
    apply find_match_found in Hfound as (_ & d' & Hd' & Hk).
    assert (d' = d) as -> by congruence.
    split; [|split; [|by left]].
    + rewrite <- (list_insert_id h e d) at 1 by done.
      apply Forall2_insert; [apply Forall2_same_identity_refl|].
      apply same_identity_update.
    + intros i. destruct (decide (e = i)) as [<-|Hne].
      * right. unfold key_at. rewrite Hd, Hitem. simpl. rewrite Hk, Hkey. eauto.
      * left. by apply list_lookup_insert_ne.
  - injection H as <-. simpl.
    split; [apply Forall2_same_identity_refl|]. split; [by left|by right].
Qed.

Lemma Forall2_same_identity_key_at h h' a :
  Forall2 same_identity h h' -> key_at h' a = key_at h a.
Proof.
  intros H. unfold key_at.
  destruct (h !! a) as [d|] eqn:Hd.
  - destruct (Forall2_lookup_l _ _ _ _ _ H Hd) as (d' & -> & Hdd'). simpl.
    by apply same_identity_key.
  - apply lookup_ge_None_1 in Hd. rewrite (Forall2_length _ _ _ H) in Hd.
    by rewrite (lookup_ge_None_2 h' a Hd).
Qed.

(** The whole loop, whether it completes or raises. *)
Lemma merge_loop_run items st st' ok :
  merge_loop st items = (st', ok) ->
  Forall2 same_identity (st_heap st) (st_heap st') /\
  (forall i, st_heap st' !! i = st_heap st !! i \/
             (is_Some (key_at (st_heap st) i) /\
              exists a, a ∈ items /\ key_at (st_heap st) i = key_at (st_heap st) a)) /\
  (exists added, st_existing st' = (st_existing st ++ added)%list /\
                 added `sublist_of` items).
Proof.
  revert st. induction items as [|a items IH]; intros st; simpl.
  - intros [= <- <-]. split; [apply Forall2_same_identity_refl|].
    split; [by left|]. exists []. by rewrite app_nil_r.
  - destruct (merge_item st a) as [st1|] eqn:Hitem.
    + intros Hloop.
      destruct (merge_item_run st a st1 Hitem) as (Hid1 & Hsame1 & Hrefs1).
      destruct (IH st1 Hloop) as (Hid & Hsame & added & Hrefs & Hsub).
      split; [|split].
      * eapply Forall2_trans; [|exact Hid1|exact Hid].
        intros ???. apply same_identity_trans.
      * intros i. destruct (Hsame i) as [Heq|(Hsome & a' & Ha' & Hk)].
        -- rewrite Heq. destruct (Hsame1 i) as [?|[Hsome Hk]]; [by left|].
           right. split; [done|]. exists a. split; [apply list_elem_of_here|done].
        -- right.
           rewrite (Forall2_same_identity_key_at _ _ i Hid1) in Hk, Hsome.
           rewrite (Forall2_same_identity_key_at _ _ a' Hid1) in Hk.
           split; [done|]. exists a'. split; [by apply list_elem_of_further|done].
      * destruct Hrefs1 as [Hr|Hr]; rewrite Hr in Hrefs.
        -- exists added. split; [done|]. by apply sublist_cons.
        -- exists (a :: added). split; [by rewrite <- app_assoc in Hrefs|].
           by apply sublist_skip.
    + intros [= <- <-]. split; [apply Forall2_same_identity_refl|].
      split; [by left|]. exists []. split; [by rewrite app_nil_r|].
      apply sublist_nil_l.
Qed.

End MergeRun.

Lemma deref_sublist (h : heap) (refs refs' : list addr) :
  refs `sublist_of` refs' -> deref h refs `sublist_of` deref h refs'.
Proof.
  induction 1 as [|a l1 l2 _ IH|a l1 l2 _ IH]; [done| |];
    rewrite ?deref_cons; destruct (h !! a); try done; by constructor.
Qed.

Lemma Forall2_sublist_r {A B} (R : A -> B -> Prop) (l : list A) (k k' : list B) :
  Forall2 R l k -> k' `sublist_of` k ->
  exists l', l' `sublist_of` l /\ Forall2 R l' k'.
Proof.
  intros HR Hsub. revert l HR.
  induction Hsub as [|y k1 k2 _ IH|y k1 k2 _ IH]; intros l HR.
  - exists []. split; [apply sublist_nil_l|constructor].
  - inversion HR as [|x ? l0 ? Hxy HR0]; subst.
    destruct (IH l0 HR0) as (l' & Hl' & HR').
    exists (x :: l'). split; [by constructor|by constructor].
  - inversion HR as [|x ? l0 ? Hxy HR0]; subst.
    destruct (IH l0 HR0) as (l' & Hl' & HR').
    exists l'. split; [by constructor|done].
Qed.

(** The state the loop of [merge_attempt] ends in, with everything that
    holds of it on any input. *)
Lemma merge_attempt_run (new_data existing : list dict) (filepath : string) :
  exists st ok,
    merge_loop {| st_heap := (existing ++ new_data)%list;
                  st_existing := seq 0 (length existing) |}
               (seq (length existing) (length new_data)) = (st, ok) /\
    Forall2 same_identity (existing ++ new_data)%list (st_heap st) /\
    (forall i, st_heap st !! i = (existing ++ new_data)%list !! i \/
       (is_Some (key_at (existing ++ new_data)%list i) /\
        key_at (existing ++ new_data)%list i ∈ entry_key <$> new_data)) /\
    (exists added,
       st_existing st = (seq 0 (length existing) ++ added)%list /\
       added `sublist_of` seq (length existing) (length new_data)).
Proof.
  destruct (merge_loop {| st_heap := (existing ++ new_data)%list;
                          st_existing := seq 0 (length existing) |}
                       (seq (length existing) (length new_data)))
    as [st ok] eqn:Hloop.
  exists st, ok. split; [done|].
  destruct (merge_loop_run _ _ _ _ Hloop) as (Hid & Hsame & Hrefs).
  simpl in *. split; [done|]. split; [|done].
  intros i. destruct (Hsame i) as [?|(Hsome & a & Ha & Hk)]; [by left|].
  right. split; [done|]. rewrite Hk.
  apply elem_of_seq in Ha as [Hlo Hhi].
  unfold key_at. rewrite lookup_app_r by lia.
  assert (Hlt : a - length existing < length new_data) by lia.
  apply lookup_lt_is_Some_2 in Hlt as [item Hitem]. rewrite Hitem. simpl.
  apply list_elem_of_fmap. exists item. split; [done|].
  by eapply list_elem_of_lookup_2.
Qed.

Lemma merge_attempt_sublist (new_data existing : list dict) (filepath : string) st ok :
  merge_loop {| st_heap := (existing ++ new_data)%list;
                st_existing := seq 0 (length existing) |}
             (seq (length existing) (length new_data)) = (st, ok) ->
  length (st_heap st) = length existing + length new_data ->
  (exists added,
     st_existing st = (seq 0 (length existing) ++ added)%list /\
     added `sublist_of` seq (length existing) (length new_data)) ->
  merge_with_existing new_data (FileLoaded existing) filepath
    `sublist_of` st_heap st.
Proof.
  intros Hloop Hlen (added & Hrefs & Hadded).
  assert (Hall : deref (st_heap st)
                   (seq 0 (length existing) ++ seq (length existing) (length new_data))
                 = st_heap st).
  { replace (seq 0 (length existing) ++ seq (length existing) (length new_data))%list
      with (seq 0 (length (st_heap st))) by (by rewrite Hlen, seq_app).
    apply deref_all. }
  unfold merge_with_existing, merge_attempt. rewrite Hloop.
  assert (Hnews : deref (st_heap st) (seq (length existing) (length new_data))
                    `sublist_of` st_heap st).
  { rewrite <- Hall at 2. apply deref_sublist, sublist_inserts_l. done. }
  destruct ok; [|done].
  destruct (revalidate _ _) as [final|] eqn:Hfinal; [|done].
  apply revalidate_Some in Hfinal as ->.
  etrans; [apply filter_sublist|].
  rewrite <- Hall at 2. rewrite Hrefs.
  apply deref_sublist, sublist_app; done.
Qed.

(** X1: whatever the data, the merged catalog is a subsequence of the old
    catalog followed by the new records; an entry differs from its source
    at most in [profiles], [params], [image], [description] and [tags], so
    the keys come in that order and none is invented. *)
Theorem merge_output_subsequence (new_data existing : list dict) (filepath : string) :
  (exists sources,
     sources `sublist_of` (existing ++ new_data)%list /\
     Forall2 same_identity sources
       (merge_with_existing new_data (FileLoaded existing) filepath)) /\
  (entry_key <$> merge_with_existing new_data (FileLoaded existing) filepath)
    `sublist_of` (entry_key <$> (existing ++ new_data)%list) /\
  length (merge_with_existing new_data (FileLoaded existing) filepath)
    <= length existing + length new_data.
Proof.
  destruct (merge_attempt_run new_data existing filepath)
    as (st & ok & Hloop & Hid & _ & Hrefs).
  assert (Hlen : length (st_heap st) = length existing + length new_data).
  { rewrite <- (Forall2_length _ _ _ Hid). apply length_app. }
  pose proof (merge_attempt_sublist _ _ filepath _ _ Hloop Hlen Hrefs) as Hsub.
  destruct (Forall2_sublist_r _ _ _ _ Hid Hsub) as (sources & Hsources & Hsame).
  split; [by exists sources|].
  assert (Hkeys : entry_key <$> merge_with_existing new_data (FileLoaded existing) filepath
                  = entry_key <$> sources).
  { clear -Hsame. induction Hsame as [|d d' l l' Hd _ IH]; [done|].
    rewrite !fmap_cons, IH. f_equal. by apply same_identity_key. }
  split.
  - rewrite Hkeys. by apply fmap_sublist.
  - apply sublist_length in Hsub. by rewrite Hlen in Hsub.
Qed.

(** X2: an entry of a well-formed catalog that passes validation and whose
    key none of the new records has comes out of the merge untouched. *)
Theorem merge_keeps_unmatched (new_data existing : list dict) (filepath : string)
    (d : dict) :
  Forall (fun d => well_formed d = true) new_data ->
  Forall (fun d => well_formed d = true) existing ->
  d ∈ existing ->
  entry_key d ∉ entry_key <$> new_data ->
  validate_product d (category_of filepath) = Some true ->
  d ∈ merge_with_existing new_data (FileLoaded existing) filepath.
Proof.
  intros Hnew Hex Hd Hkey Hvalid.
  destruct (merge_attempt_run new_data existing filepath)
    as (st & ok & Hloop & Hid & Hsame & added & Hrefs & _).
  destruct (merge_loop_ok (seq (length existing) (length new_data))
              {| st_heap := (existing ++ new_data)%list;
                 st_existing := seq 0 (length existing) |})
    as (st' & Hloop' & Hh & _ & _ & _).
  { apply Forall_app. done. }
  { apply Forall_seq. intros j Hj. simpl. rewrite length_app. lia. }
  { apply Forall_seq. intros j Hj. simpl. rewrite length_app. lia. }
  rewrite Hloop in Hloop'. injection Hloop' as <- ->.
  apply list_elem_of_lookup_1 in Hd as [i Hi].
  assert (Hlt : i < length existing) by (by eapply lookup_lt_Some).
  assert (Hcell : st_heap st !! i = Some d).
  { destruct (Hsame i) as [->|[_ Hin]].
    - by rewrite lookup_app_l.
    - unfold key_at in Hin. rewrite lookup_app_l, Hi in Hin by done. done. }
  unfold merge_with_existing, merge_attempt. rewrite Hloop.
  rewrite revalidate_total.
  - apply list_elem_of_In, filter_In. split; [|by apply passes_true].
    apply list_elem_of_In, list_elem_of_omap. exists i. split; [|done].
    rewrite Hrefs. apply elem_of_app. left. apply elem_of_seq. lia.
  - eapply Forall_impl; [by apply deref_heap_ok|].
    intros d' Hd'. by apply well_formed_validate.
Qed.

Lemma merge_keeps_unmatched_witness :
  pla_spool ∈ merge_with_existing [grey_lower] (FileLoaded [grey_upper; pla_spool])
                "filaments_db.json".
Proof.
  apply merge_keeps_unmatched.
  - repeat constructor.
  - repeat constructor.
  - apply list_elem_of_further, list_elem_of_here.
  - apply (bool_decide_unpack _). vm_compute. exact I.
  - vm_compute. reflexivity.
Defined.

(** X3: when the [try] block raises, the handler hands back as many records
    as [new_data] has, each one the original up to the fields an in-place
    update may have written before the exception. *)
Theorem merge_fallback_shape (new_data existing fallback : list dict)
    (filepath : string) :
  merge_attempt new_data existing filepath = Fallback fallback ->
  Forall2 same_identity new_data fallback /\
  entry_key <$> fallback = entry_key <$> new_data.
Proof.
  intros Hfall.
  destruct (merge_attempt_run new_data existing filepath)
    as (st & ok & Hloop & Hid & _ & _).
  assert (Hdrop : Forall2 same_identity new_data
            (deref (st_heap st) (seq (length existing) (length new_data)))).
  { rewrite deref_seq.
    apply (Forall2_drop _ _ _ (length existing)) in Hid.
    rewrite drop_app_length in Hid.
    rewrite take_ge; [done|].
    rewrite <- (Forall2_length _ _ _ Hid). done. }
  assert (Hfb : fallback = deref (st_heap st) (seq (length existing) (length new_data))).
  { unfold merge_attempt in Hfall. rewrite Hloop in Hfall.
    destruct ok; [|congruence].
    destruct (revalidate _ _); congruence. }
  subst fallback. split; [done|].
  clear -Hdrop. induction Hdrop as [|d d' l l' Hd _ IH]; [done|].
  rewrite !fmap_cons, IH. f_equal. by apply same_identity_key.
Qed.

(** The handler's [new_data] is the mutated one: an update made through the
    alias in [existing] shows. *)
Lemma merge_fallback_shape_witness :
  merge_attempt [ [("brand", VStr "A"); ("name", VStr "Grey"); ("image", VStr "1")];
                  [("brand", VStr "a"); ("name", VStr "GREY"); ("image", VStr "2")] ]
                [] "resins_db.json"
  = Fallback
      [ [("brand", VStr "A"); ("name", VStr "Grey"); ("image", VStr "2");
         ("profiles", VNone); ("params", VNone); ("description", VNone);
         ("tags", VNone)];
        [("brand", VStr "a"); ("name", VStr "GREY"); ("image", VStr "2")] ] /\
  Forall2 same_identity
    [ [("brand", VStr "A"); ("name", VStr "Grey"); ("image", VStr "1")];
      [("brand", VStr "a"); ("name", VStr "GREY"); ("image", VStr "2")] ]
    [ [("brand", VStr "A"); ("name", VStr "Grey"); ("image", VStr "2");
       ("profiles", VNone); ("params", VNone); ("description", VNone);
       ("tags", VNone)];
      [("brand", VStr "a"); ("name", VStr "GREY"); ("image", VStr "2")] ].
Proof.
  assert (H : merge_attempt
            [ [("brand", VStr "A"); ("name", VStr "Grey"); ("image", VStr "1")];
              [("brand", VStr "a"); ("name", VStr "GREY"); ("image", VStr "2")] ]
            [] "resins_db.json"
          = Fallback
              [ [("brand", VStr "A"); ("name", VStr "Grey"); ("image", VStr "2");
                 ("profiles", VNone); ("params", VNone); ("description", VNone);
                 ("tags", VNone)];
                [("brand", VStr "a"); ("name", VStr "GREY"); ("image", VStr "2")] ])
    by (vm_compute; reflexivity).
  split; [exact H|].
  exact (proj1 (merge_fallback_shape _ _ _ _ H)).
Defined.

(** ** Validation: edge cases and substring patterns *)

Lemma lower_char_idemp (c : ascii) : PyStr.lower_char (PyStr.lower_char c) = PyStr.lower_char c.
Proof. destruct c as [[] [] [] [] [] [] [] []]; reflexivity. Qed.

Lemma lower_idemp (s : string) : PyStr.lower (PyStr.lower s) = PyStr.lower s.
Proof. induction s as [|c s IH]; simpl; [done|]. by rewrite lower_char_idemp, IH. Qed.

Lemma lower_app (s t : string) : PyStr.lower (s ++ t) = PyStr.lower s ++ PyStr.lower t.
Proof. induction s as [|c s IH]; simpl; [done|]. by rewrite IH. Qed.

Lemma startswith_app_r (p s t : string) :
  PyStr.startswith p s = true -> PyStr.startswith p (s ++ t) = true.
Proof.
  revert s. induction p as [|c p IH]; intros s; [done|].
  destruct s as [|a s]; simpl; [done|].
  intros [-> H]%andb_true_iff. simpl. by apply IH.
Qed.

Lemma contains_app_r (p s t : string) :
  PyStr.contains p s = true -> PyStr.contains p (s ++ t) = true.
Proof.
  induction s as [|a s IH]; simpl.
  - rewrite orb_false_r. intros H. destruct p; [|done]. by destruct t.
  - intros [H|H]%orb_true_iff; apply orb_true_iff.
    + left. by apply (startswith_app_r p (String a s) t).
    + right. by apply IH.
Qed.

Lemma tokens_plain (pat : string) :
  plain_pattern pat = true ->
  Re.tokens pat = [] \/ exists k l, Re.tokens pat = Re.TCls k :: l.
Proof.
  destruct pat as [|c r]; [by left|]. simpl. unfold plain_char.
  intros [Hc _]%andb_true_iff. apply negb_true_iff in Hc.
  apply orb_false_iff in Hc as [Hc Hstar]. apply orb_false_iff in Hc as [Hbs Hdot].
  rewrite Hbs, Hdot, Hstar. right. eauto.
Qed.

Lemma compile_plain (pat : string) :
  plain_pattern pat = true -> Re.compile pat = literal_items pat.
Proof.
  unfold Re.compile. induction pat as [|c r IH]; [done|].
  intros Hplain. pose proof Hplain as [Hc Hr]%andb_true_iff.
  unfold plain_char in Hc. apply negb_true_iff in Hc.
  apply orb_false_iff in Hc as [Hc Hstar]. apply orb_false_iff in Hc as [Hbs Hdot].
  cbn [Re.tokens]. rewrite Hbs, Hdot, Hstar. cbn [literal_items].
  rewrite <- (IH Hr).
  destruct (tokens_plain r Hr) as [->|(k & l & ->)]; reflexivity.
Qed.

Lemma match_here_literal (pat : string) (prev : option ascii) (s : string) :
  Re.match_here (literal_items pat) prev s = PyStr.startswith pat s.
Proof.
  revert prev s. induction pat as [|c r IH]; intros prev s; [done|].
  destruct s as [|a s]; simpl; [done|]. by rewrite IH.
Qed.

(** [re.search] with a plain pattern is the substring test [pat in text]. *)
Lemma search_plain (pat text : string) :
  plain_pattern pat = true -> Re.search pat text = PyStr.contains pat text.
Proof.
  intros Hplain. unfold Re.search. rewrite compile_plain by done.
  generalize (@None ascii). induction text as [|a s IH]; intros prev; simpl.
  - by rewrite match_here_literal.
  - by rewrite match_here_literal, IH.
Qed.

Lemma any_match_elem (pats : list string) (pat text : string) :
  pat ∈ pats -> Re.search pat text = true -> any_match pats text = true.
Proof.
  intros Hin Hs. apply existsb_exists. exists pat. split; [|done].
  by apply list_elem_of_In.
Qed.

Lemma reject_logged_not_true (d : dict) : reject_logged d <> Some true.
Proof. unfold reject_logged. by destruct (dict_has d "name"). Qed.

Lemma elem_of_filter_plain (kw : string) (l : list string) :
  kw ∈ List.filter plain_pattern l -> kw ∈ l /\ plain_pattern kw = true.
Proof. intros H. apply list_elem_of_In, filter_In in H as [H ?]. by apply list_elem_of_In in H. Qed.

(** X4: a name that contains one of the plain blacklist words of a catalog,
    as a substring and in any letter case, is never accepted into it. *)
Theorem validate_substring_ban (d : dict) (category name kw : string) :
  dict_get d "name" (VStr "") = VStr name ->
  kw ∈ substring_bans category ->
  PyStr.contains kw (PyStr.lower name) = true ->
  validate_product d category <> Some true /\
  (well_formed d = true -> validate_product d category = Some false).
Proof.
  intros Hname Hkw Hin.
  assert (Hnot : validate_product d category <> Some true).
  { unfold validate_product. rewrite Hname. cbn [str_lower mbind option_bind].
    destruct (iterate _) as [tag_values|]; [|done]. cbn [mbind option_bind].
    destruct (mapM str_lower tag_values) as [tags|]; [|done]. cbn [mbind option_bind].
    unfold substring_bans, name_blacklists in Hkw.
    apply elem_of_filter_plain in Hkw as [Hkw Hplain].
    assert (Hall : Re.search kw (PyStr.lower name ++ " " ++ PyStr.join " " tags) = true).
    { rewrite search_plain by done. by apply contains_app_r. }
    assert (Hnm : Re.search kw (PyStr.lower name) = true) by (by rewrite search_plain).
    destruct (String.eqb category "resin").
    - apply elem_of_app in Hkw as [Hkw|Hkw].
      { rewrite (any_match_elem _ kw) by done. apply reject_logged_not_true. }
      destruct (any_match FILAMENT_BLACKLIST _); [apply reject_logged_not_true|].
      apply elem_of_app in Hkw as [Hkw|Hkw].
      { rewrite (any_match_elem _ kw) by done. apply reject_logged_not_true. }
      destruct (any_match HARDWARE_BLACKLIST _); [apply reject_logged_not_true|].
      rewrite (any_match_elem _ kw) by done. apply reject_logged_not_true.
    - destruct (String.eqb category "filament"); [|by apply elem_of_nil in Hkw].
      apply elem_of_app in Hkw as [Hkw|Hkw].
      { rewrite (any_match_elem _ kw) by done. apply reject_logged_not_true. }
      destruct (any_match RESIN_BLACKLIST _); [apply reject_logged_not_true|].
      apply elem_of_app in Hkw as [Hkw|Hkw].
      { rewrite (any_match_elem _ kw) by done. apply reject_logged_not_true. }
      destruct (any_match HARDWARE_BLACKLIST _); [apply reject_logged_not_true|].
      rewrite (any_match_elem _ kw) by done. apply reject_logged_not_true. }
  split; [done|]. intros Hwf.
  destruct (well_formed_validate d category Hwf) as [[] Hv]; congruence.
Qed.

(** ["Sunset Orange PLA"] holds the spam word [set]. *)
Lemma validate_substring_ban_witness :
  validate_product
    [("name", VStr "Sunset Orange PLA"); ("tags", VList [])] "filament" = Some false.
Proof.
  apply (proj2 (validate_substring_ban
           [("name", VStr "Sunset Orange PLA"); ("tags", VList [])]
           "filament" "Sunset Orange PLA" "set" eq_refl
           ltac:(apply (bool_decide_unpack _); vm_compute; exact I)
           ltac:(vm_compute; reflexivity))).
  reflexivity.
Defined.

(** X5: a record without a [name] key is never rejected: either validation
    accepts it, or it raises while logging the rejection (the log line reads
    [product['name']]). *)
Theorem validate_nameless_never_rejects (d : dict) (category : string) :
  dict_has d "name" = false ->
  validate_product d category <> Some false.
Proof.
  intros Hhas. unfold validate_product, reject_logged. rewrite Hhas.
  assert (Hname : dict_get d "name" (VStr "") = VStr "").
  { unfold dict_get. rewrite dict_has_spec in Hhas.
    by destruct (dict_find d "name"). }
  rewrite Hname. cbn [str_lower mbind option_bind PyStr.lower].
  destruct (iterate _) as [tag_values|]; [|done]. cbn [mbind option_bind].
  destruct (mapM str_lower tag_values) as [tags|]; [|done]. cbn [mbind option_bind].
  change (Re.search "\babs\b" "" && negb (PyStr.contains "like" "")) with false.
  repeat match goal with
         | |- context [if ?c then _ else _] => destruct c
         end; done.
Qed.

Lemma validate_nameless_never_rejects_witness :
  validate_product [("brand", VStr "Acme"); ("tags", VList [VStr "Tough"])] "resin"
  <> Some false.
Proof. apply validate_nameless_never_rejects. reflexivity. Defined.

(** A nameless record whose tags hit a blacklist makes validation raise. *)
Lemma validate_nameless_raises :
  validate_product [("brand", VStr "Acme"); ("tags", VList [VStr "Filament"])] "resin"
  = None.
Proof. vm_compute. reflexivity. Qed.

(** X6: with a category other than ["resin"] and ["filament"] no blacklist
    is consulted: nothing is rejected, and every well-formed record is
    accepted. *)
Theorem validate_unknown_category (d : dict) (category : string) :
  category <> "resin" -> category <> "filament" ->
  validate_product d category <> Some false /\
  (well_formed d = true -> validate_product d category = Some true).
Proof.
  intros Hr Hf.
  assert (Hnot : validate_product d category <> Some false).
  { unfold validate_product.
    destruct (str_lower _) as [name_lower|]; [|done]. cbn [mbind option_bind].
    destruct (iterate _) as [tag_values|]; [|done]. cbn [mbind option_bind].
    destruct (mapM str_lower tag_values) as [tags|]; [|done]. cbn [mbind option_bind].
    destruct (String.eqb_spec category "resin"); [done|].
    destruct (String.eqb_spec category "filament"); done. }
  split; [done|]. intros Hwf.
  destruct (well_formed_validate d category Hwf) as [[] Hv]; congruence.
Qed.

Lemma validate_unknown_category_witness :
  validate_product pla_spool "resins" = Some true.
Proof.
  apply (proj2 (validate_unknown_category pla_spool "resins"
                  ltac:(discriminate) ltac:(discriminate))).
  reflexivity.
Defined.

(** X7: the verdict depends on the name only up to letter case. *)
Theorem validate_case_insensitive (d : dict) (category name name' : string) :
  dict_find d "name" = Some (VStr name) ->
  PyStr.lower name' = PyStr.lower name ->
  validate_product (dict_set d "name" (VStr name')) category
  = validate_product d category.
Proof.
  intros Hname Hlow. apply validate_product_ext.
  - unfold dict_get. rewrite dict_find_set_eq, Hname. simpl. by rewrite Hlow.
  - by rewrite !dict_has_spec, dict_find_set_eq, Hname.
  - unfold dict_get. by rewrite dict_find_set_ne.
Qed.

Lemma validate_case_insensitive_witness :
  validate_product (dict_set grey_upper "name" (VStr "TOUGH GREY")) "resin"
  = validate_product grey_upper "resin".
Proof.
  apply (validate_case_insensitive grey_upper "resin" "Tough Grey" "TOUGH GREY");
    reflexivity.
Defined.

(** ** Classification: shadowed keywords, letter case, vocabularies *)

(** X8: [flex] is tested before [flexible], so a text containing [flexible]
    is labelled by one of the first five rows, and the label ["Flexible"]
    is only ever reached through the keyword [elastic]. *)
Theorem detect_flexible_shadowed (title product_type : string) :
  (PyStr.contains "flexible" (PyStr.lower (title ++ " " ++ product_type)) = true ->
   detect_product_type title product_type ∈ ["PLA+"; "PETG"; "ABS"; "ASA"; "TPU"]) /\
  (detect_product_type title product_type = "Flexible" ->
   PyStr.contains "elastic" (PyStr.lower (title ++ " " ++ product_type)) = true).
Proof.
  unfold detect_product_type.
  generalize (PyStr.lower (title ++ " " ++ product_type)); intros text.
  unfold TYPE_KEYWORDS. split.
  - intros Hflex.
    assert (Hf : PyStr.contains "flex" text = true)
      by (by apply (contains_app_l "flex" "ible")).
    do 4 (next_keyword; [apply (bool_decide_unpack _); vm_compute; exact I|]).
    next_keyword; [apply (bool_decide_unpack _); vm_compute; exact I|].
    rewrite Hf in *. rewrite !orb_true_r in *. done.
  - do 4 (next_keyword; [discriminate|]).
    next_keyword; [discriminate|].
    do 9 (next_keyword; [discriminate|]).
    next_keyword.
    + intros _. rewrite orb_false_r in *.
      match goal with
      | H : PyStr.contains "flexible" text || PyStr.contains "elastic" text = true |- _ =>
          apply orb_true_iff in H as [H|H]; [|exact H];
          assert (Hflex : PyStr.contains "flex" text = true)
            by (apply (contains_app_l "flex" "ible"); exact H)
      end.
      match goal with
      | H : PyStr.contains "tpu" text || _ = false |- _ =>
          apply orb_false_iff in H as [_ H]; apply orb_false_iff in H as [_ H]
      end.
      congruence.
    + do 4 (next_keyword; [discriminate|]). discriminate.
Qed.

Lemma detect_flexible_shadowed_witness :
  detect_product_type "Flexible Resin 1kg" "" ∈ ["PLA+"; "PETG"; "ABS"; "ASA"; "TPU"].
Proof.
  apply (proj1 (detect_flexible_shadowed "Flexible Resin 1kg" "")). reflexivity.
Defined.

(** X9: both detectors read their arguments in lower case only. *)
Theorem detect_case_insensitive (title other : string) :
  detect_product_type (PyStr.lower title) (PyStr.lower other)
  = detect_product_type title other /\
  detect_color (PyStr.lower title) (PyStr.lower other) = detect_color title other.
Proof.
  unfold detect_product_type, detect_color.
  by rewrite !lower_app, !lower_idemp.
Qed.

Lemma first_type_range (table : list (string * string)) (name_lower dflt : string) :
  Generic.first_type table name_lower dflt = dflt \/
  Generic.first_type table name_lower dflt ∈ table.*2.
Proof.
  induction table as [|[kw lbl] table IH]; simpl; [by left|].
  destruct (PyStr.contains kw name_lower).
  - right. apply list_elem_of_here.
  - destruct IH as [?|?]; [by left|right]. by apply list_elem_of_further.
Qed.

(** X10: the generic scraper's classifier stays inside the vocabulary of its
    catalog: a resin type of [RESIN_TYPES], else a material of
    [FILAMENT_MATERIALS]. *)
Theorem generic_type_in_vocabulary (product_type name : string) :
  if String.eqb product_type "resin"
  then Generic.detect_type_from_name product_type name ∈ RESIN_TYPES
  else Generic.detect_type_from_name product_type name ∈ FILAMENT_MATERIALS.
Proof.
  unfold Generic.detect_type_from_name.
  destruct (String.eqb product_type "resin").
  - destruct (first_type_range Generic.RESIN_TYPE_KEYWORDS (PyStr.lower name) "Standard")
      as [->|Hin].
    + apply (bool_decide_unpack _). vm_compute. exact I.
    + revert Hin. generalize (Generic.first_type Generic.RESIN_TYPE_KEYWORDS
                                (PyStr.lower name) "Standard").
      apply Forall_forall. apply (bool_decide_unpack _). vm_compute. exact I.
  - destruct (first_type_range Generic.FILAMENT_TYPE_KEYWORDS (PyStr.lower name) "PLA")
      as [->|Hin].
    + apply (bool_decide_unpack _). vm_compute. exact I.
    + revert Hin. generalize (Generic.first_type Generic.FILAMENT_TYPE_KEYWORDS
                                (PyStr.lower name) "PLA").
      apply Forall_forall. apply (bool_decide_unpack _). vm_compute. exact I.
Qed.

(** The Shopify detector does not: its default and two of its labels are
    no filament materials. *)
Lemma detect_product_type_outside_vocabulary :
  (detect_product_type "Mystery Material XYZ" "" ∉ FILAMENT_MATERIALS) /\
  (detect_product_type "Silk Gold" "" ∉ FILAMENT_MATERIALS) /\
  (detect_product_type "Matte Black" "" ∉ FILAMENT_MATERIALS).
Proof. repeat split; apply (bool_decide_unpack _); vm_compute; exact I. Qed.

Lemma first_label_range rows text dflt :
  first_label rows text dflt = dflt \/ first_label rows text dflt ∈ rows.*2.
Proof.
  induction rows as [|row rows IH]; simpl; [by left|].
  destruct (row_hits text row).
  - right. apply list_elem_of_here.
  - destruct IH as [?|?]; [by left|right]. by apply list_elem_of_further.
Qed.

Lemma detect_product_type_nonempty (title product_type : string) :
  detect_product_type title product_type <> "".
Proof.
  unfold detect_product_type.
  destruct (first_label_range TYPE_KEYWORDS
              (PyStr.lower (title ++ " " ++ product_type)) "Standard") as [->|Hin];
    [done|].
  revert Hin. generalize (first_label TYPE_KEYWORDS
                            (PyStr.lower (title ++ " " ++ product_type)) "Standard").
  apply Forall_forall. repeat (constructor; [discriminate|]). constructor.
Qed.

Lemma first_color_range table text :
  first_color table text = ("#808080", "Grey") \/ first_color table text ∈ table.*2.
Proof.
  induction table as [|[kw c] table IH]; simpl; [by left|].
  destruct (PyStr.contains kw text).
  - right. apply list_elem_of_here.
  - destruct IH as [?|?]; [by left|right]. by apply list_elem_of_further.
Qed.

Lemma detect_color_nonempty (title variant_title : string) :
  (detect_color title variant_title).1 <> "".
Proof.
  unfold detect_color.
  destruct (first_color_range COLORS (PyStr.lower (title ++ " " ++ variant_title)))
    as [->|Hin]; [done|].
  revert Hin. generalize (first_color COLORS (PyStr.lower (title ++ " " ++ variant_title))).
  apply Forall_forall. repeat (constructor; [discriminate|]). constructor.
Qed.

(** ** Enrichment: what it leaves behind, when it raises *)

Lemma truthy_nonempty_str (s : string) : s <> "" -> truthy (VStr s) = true.
Proof. intros Hs. simpl. by apply negb_true_iff, String.eqb_neq. Qed.

(** X11: a successful enrichment leaves [type], [color] and [tags] all set,
    and enriching its result again changes nothing (as long as the name it
    left is no mapping). *)
Theorem enrich_fills_and_settles py_format (product product' : dict)
    (category category' : string) :
  enrich_product py_format product category = Some product' ->
  truthy (dict_get product' "type" VNone) = true /\
  truthy (dict_get product' "color" VNone) = true /\
  truthy (dict_get product' "tags" VNone) = true /\
  (as_dict (dict_get product' "name" (VStr "")) = None ->
   enrich_product py_format product' category' = Some product').
Proof.
  unfold enrich_product at 1.
  set (name0 := dict_get product "name" (VStr "")).
  set (np := match name0 with VDict _ => _ | _ => _ end).
  destruct np as [name p1]. intros H.
  apply bind_Some in H as (p2 & H2 & H).
  apply bind_Some in H as (p3 & H3 & H).
  injection H as <-.
  assert (Htype : truthy (dict_get p2 "type" VNone) = true).
  { destruct (truthy (dict_get p1 "type" VNone)) eqn:Ht.
    - by injection H2 as <-.
    - apply bind_Some in H2 as (title & _ & H2). injection H2 as <-.
      unfold dict_get. rewrite dict_find_set_eq. simpl.
      apply truthy_nonempty_str, detect_product_type_nonempty. }
  assert (Hcolor : truthy (dict_get p3 "color" VNone) = true /\
                   dict_find p3 "type" = dict_find p2 "type").
  { destruct (truthy (dict_get p2 "color" VNone)) eqn:Hc.
    - by injection H3 as <-.
    - apply bind_Some in H3 as (title & _ & H3). injection H3 as <-.
      split.
      + unfold dict_get.
        rewrite (dict_find_set_ne _ "color_name" "color") by discriminate.
        rewrite dict_find_set_eq. simpl.
        apply truthy_nonempty_str, detect_color_nonempty.
      + rewrite (dict_find_set_ne _ "color_name" "type") by discriminate.
        by rewrite (dict_find_set_ne _ "color" "type") by discriminate. }
  destruct Hcolor as [Hcolor Htype3].
  set (p4 := if truthy (dict_get p3 "tags" VNone) then p3 else _).
  assert (Htags : truthy (dict_get p4 "tags" VNone) = true /\
                  (forall k, k <> "tags" -> dict_find p4 k = dict_find p3 k)).
  { subst p4. destruct (truthy (dict_get p3 "tags" VNone)) eqn:Ht; [done|].
    split.
    - unfold dict_get. by rewrite dict_find_set_eq.
    - intros k Hk. by rewrite dict_find_set_ne. }
  destruct Htags as [Htags Hrest]. clearbody p4.
  assert (Htype4 : truthy (dict_get p4 "type" VNone) = true).
  { unfold dict_get in *. by rewrite Hrest, Htype3. }
  assert (Hcolor4 : truthy (dict_get p4 "color" VNone) = true).
  { unfold dict_get in *. by rewrite Hrest. }
  repeat split; try done.
  intros Hname. unfold enrich_product.
  destruct (dict_get p4 "name" (VStr "")); try done;
    cbn zeta; rewrite Htype4; simpl; rewrite Hcolor4; simpl; by rewrite Htags.
Qed.

Lemma enrich_fills_and_settles_witness :
  enrich_product (fun _ => "")
    [("name", VStr "Tough Grey"); ("type", VStr "Tough"); ("price", VNum 25);
     ("color", VStr "#808080"); ("color_name", VStr "Grey");
     ("tags", VList [VStr "Tough"])] "filament"
  = Some [("name", VStr "Tough Grey"); ("type", VStr "Tough"); ("price", VNum 25);
          ("color", VStr "#808080"); ("color_name", VStr "Grey");
          ("tags", VList [VStr "Tough"])].
Proof.
  apply (enrich_fills_and_settles (fun _ => "")
           [("name", VStr "Tough Grey"); ("type", VStr "Tough"); ("price", VNum 25)]
           _ "resin" "filament"); reflexivity.
Defined.

(** X12: on a record whose name is neither a string nor a mapping (a JSON
    null, say) enrichment raises, unless [type] and [color] are both set
    already and the detectors are never called. *)
Theorem enrich_raises_on_bad_name py_format (product : dict) (category : string) :
  as_str (dict_get product "name" (VStr "")) = None ->
  as_dict (dict_get product "name" (VStr "")) = None ->
  (enrich_product py_format product category = None <->
   truthy (dict_get product "type" VNone) = false \/
   truthy (dict_get product "color" VNone) = false).
Proof.
  intros Hstr Hdict. unfold enrich_product.
  destruct (dict_get product "name" (VStr "")) eqn:Hname; try done; cbn zeta;
    (destruct (truthy (dict_get product "type" VNone)); simpl;
     [destruct (truthy (dict_get product "color" VNone)); simpl|]);
    split; intros H; try done; try (by left); try (by right);
    by destruct H.
Qed.

Lemma enrich_raises_on_bad_name_witness :
  enrich_product (fun _ => "") [("name", VNone); ("type", VStr "PLA")] "filament" = None.
Proof.
  apply (enrich_raises_on_bad_name (fun _ => "")
           [("name", VNone); ("type", VStr "PLA")] "filament"); try reflexivity.
  right. reflexivity.
Defined.

(** ** Shopify records *)

Lemma shopify_tags_shape py_tags material_type v :
  shopify_tags py_tags material_type = Some v ->
  exists l, v = VList l /\ 1 <= length l <= 5.
Proof.
  unfold shopify_tags.
  generalize (match py_tags with
              | VStr s => VList ((fun t => VStr (PyStr.strip t)) <$> PyStr.split_char "," s)
              | _ => py_tags
              end).
  intros tags. destruct (truthy tags) eqn:Ht.
  - destruct tags as [| | | |l|]; try done. intros [= <-].
    exists (take 5 l). split; [done|]. rewrite length_take.
    destruct l; [done|]. cbn [length]. lia.
  - intros [= <-]. exists [VStr material_type]. simpl. split; [done|lia].
Qed.

Lemma substring_length_le (n : nat) (s : string) :
  String.length (String.substring 0 n s) <= n.
Proof.
  revert s. induction n as [|n IH]; intros s; destruct s; simpl; try lia.
  specialize (IH s). lia.
Qed.

Lemma shopify_description_shape body v :
  shopify_description body = Some v ->
  (truthy body = false /\ v = VNone) \/
  (exists s, body = VStr s /\ v = VStr (PyStr.take 200 s) /\
             String.length (PyStr.take 200 s) <= 200) \/
  (exists l, body = VList l /\ v = VList (take 200 l) /\ length (take 200 l) <= 200).
Proof.
  unfold shopify_description. destruct (truthy body) eqn:Hb; [|intros [= <-]; by left].
  destruct body; try done; intros [= <-]; right.
  - left. eexists. split; [done|]. split; [done|]. apply substring_length_le.
  - right. eexists. split; [done|]. split; [done|]. rewrite length_take. lia.
Qed.

Lemma shopify_record_fields py_float py_format (brand base_clean : string)
    (p r : dict) :
  shopify_record py_float py_format brand base_clean p = Some r ->
  (exists title, dict_get p "title" (VStr "") = VStr title) /\
  dict_find r "name" = Some (dict_get p "title" (VStr "")) /\
  (exists ty, dict_find r "type" = Some (VStr ty) /\ ty <> "") /\
  (exists hex, dict_find r "color" = Some (VStr hex) /\ hex <> "") /\
  (exists tags, dict_find r "tags" = Some (VList tags) /\ 1 <= length tags <= 5) /\
  (exists v, dict_find r "description" = Some v /\
             shopify_description (dict_get p "body_html" VNone) = Some v).
Proof.
  unfold shopify_record. intros H.
  apply bind_Some in H as (image_url & _ & H).
  apply bind_Some in H as (price & _ & H).
  apply bind_Some in H as (title_s & Htitle & H).
  apply bind_Some in H as (pt_s & _ & H).
  pose proof (detect_color_nonempty title_s "") as Hcol.
  destruct (detect_color title_s "") as [color_hex color_name].
  apply bind_Some in H as (tags & Htags & H).
  apply bind_Some in H as (description & Hdesc & H).
  injection H as <-.
  split. { destruct (dict_get p "title" (VStr "")); try done. eauto. }
  split; [reflexivity|]. split.
  { eexists. split; [reflexivity|]. apply detect_product_type_nonempty. }
  split. { eexists. split; [reflexivity|]. exact Hcol. }
  split.
  { destruct (shopify_tags_shape _ _ _ Htags) as (l & -> & Hl). by exists l. }
  exists description. split; [reflexivity|done].
Qed.

(** X13: every record the Shopify loop emits carries the title as [name], a
    non-empty [type] and [color], and between one and five [tags]; its
    [description] is [None] when [body_html] is empty or absent, the first
    200 characters of a [body_html] that is a string, and the first 200
    items of one that is a list. *)
Theorem shopify_record_shape py_float py_format (brand base_clean : string)
    (p r : dict) :
  shopify_record py_float py_format brand base_clean p = Some r ->
  dict_find r "name" = Some (dict_get p "title" (VStr "")) /\
  (exists ty, dict_find r "type" = Some (VStr ty) /\ ty <> "") /\
  (exists hex, dict_find r "color" = Some (VStr hex) /\ hex <> "") /\
  (exists tags, dict_find r "tags" = Some (VList tags) /\ 1 <= length tags <= 5) /\
  ((truthy (dict_get p "body_html" VNone) = false /\
    dict_find r "description" = Some VNone) \/
   (exists s, dict_get p "body_html" VNone = VStr s /\
              dict_find r "description" = Some (VStr (PyStr.take 200 s)) /\
              String.length (PyStr.take 200 s) <= 200) \/
   (exists l, dict_get p "body_html" VNone = VList l /\
              dict_find r "description" = Some (VList (take 200 l)) /\
              length (take 200 l) <= 200)).
Proof.
  intros H.
  destruct (shopify_record_fields _ _ _ _ _ _ H)
    as (_ & Hname & Hty & Hcol & Htags & v & Hv & Hdesc).
  repeat (split; [done|]). rewrite Hv.
  destruct (shopify_description_shape _ _ Hdesc)
    as [[Hb ->]|[(s & Hs & -> & Hlen)|(l & Hl & -> & Hlen)]].
  - by left.
  - right. left. by exists s.
  - right. right. by exists l.
Qed.

Lemma shopify_record_shape_witness :
  dict_find
    [ ("brand", VStr "Acme"); ("name", VStr "Grey PLA+");
      ("type", VStr "PLA+"); ("image", VNone);
      ("color", VStr "#808080"); ("color_name", VStr "Grey");
      ("price", VNone);
      ("tags", VList [VStr "a"; VStr "b"; VStr "c"; VStr "d"; VStr "e"]);
      ("description", VNone);
      ("url", VStr "https://s.example.com/products/grey");
      ("fuente_datos", VStr "shopify_api") ] "name"
  = Some (dict_get [("title", VStr "Grey PLA+"); ("handle", VStr "grey");
                    ("tags", VStr "a, b,c ,d,e,f,g")] "title" (VStr "")).
Proof.
  apply (shopify_record_shape (fun _ => FloatValueError) (fun _ => "")
           "Acme" "https://s.example.com/collections/pla"
           [("title", VStr "Grey PLA+"); ("handle", VStr "grey");
            ("tags", VStr "a, b,c ,d,e,f,g")]).
  vm_compute. reflexivity.
Defined.

(** X14: enrichment has nothing to add to a Shopify record: it returns the
    record as it is. *)
Theorem enrich_keeps_shopify_record py_float py_format (brand base_clean : string)
    (p r : dict) (category : string) :
  shopify_record py_float py_format brand base_clean p = Some r ->
  enrich_product py_format r category = Some r.
Proof.
  intros H.
  pose proof (shopify_record_fields _ _ _ _ _ _ H)
    as ((title & Htitle) & Hname & (ty & Hty & Hty') & (hex & Hhex & Hhex')
        & (tags & Htags & Hlen) & _).
  rewrite Htitle in Hname.
  unfold enrich_product, dict_get. rewrite Hname. simpl.
  rewrite Hty. simpl. rewrite (proj2 (String.eqb_neq _ _) Hty'). simpl.
  rewrite Hhex. simpl. rewrite (proj2 (String.eqb_neq _ _) Hhex'). simpl.
  rewrite Htags. simpl.
  destruct tags; [simpl in Hlen; lia|done].
Qed.

Lemma enrich_keeps_shopify_record_witness :
  enrich_product (fun _ => "")
    [ ("brand", VStr "Acme"); ("name", VStr "Grey PLA+");
      ("type", VStr "PLA+"); ("image", VNone);
      ("color", VStr "#808080"); ("color_name", VStr "Grey");
      ("price", VNone);
      ("tags", VList [VStr "a"; VStr "b"; VStr "c"; VStr "d"; VStr "e"]);
      ("description", VNone);
      ("url", VStr "https://s.example.com/products/grey");
      ("fuente_datos", VStr "shopify_api") ] "filament"
  = Some
    [ ("brand", VStr "Acme"); ("name", VStr "Grey PLA+");
      ("type", VStr "PLA+"); ("image", VNone);
      ("color", VStr "#808080"); ("color_name", VStr "Grey");
      ("price", VNone);
      ("tags", VList [VStr "a"; VStr "b"; VStr "c"; VStr "d"; VStr "e"]);
      ("description", VNone);
      ("url", VStr "https://s.example.com/products/grey");
      ("fuente_datos", VStr "shopify_api") ].
Proof.
  apply (enrich_keeps_shopify_record (fun _ => FloatValueError) (fun _ => "")
           "Acme" "https://s.example.com/collections/pla"
           [("title", VStr "Grey PLA+"); ("handle", VStr "grey");
            ("tags", VStr "a, b,c ,d,e,f,g")]).
  vm_compute. reflexivity.
Defined.

(** ** Manual strategy, keyword filter, dispatch *)

(** X15: the manual strategy emits one record per configured product, in
    order, each with the configured brand and the fixed type
    ["Standard"]. *)
Theorem scrape_manual_records (config : dict) (products : list value) :
  dict_get config "products" (VList []) = VList products ->
  exists records,
    scrape_manual config = Some records /\
    (fun r => dict_find r "name") <$> records = Some <$> products /\
    Forall (fun r => dict_find r "type" = Some (VStr "Standard") /\
                     dict_find r "brand" = Some (dict_get config "brand" VNone) /\
                     dict_find r "fuente_datos" = Some (VStr "manual_curated"))
           records.
Proof.
  intros Hp. unfold scrape_manual. rewrite Hp. simpl.
  eexists. split; [reflexivity|]. split.
  - rewrite <- list_fmap_compose. by apply list_fmap_ext.
  - apply Forall_forall. intros r (name & -> & _)%list_elem_of_fmap. done.
Qed.

Lemma scrape_manual_records_witness :
  exists records,
    scrape_manual [("brand", VStr "Prusament");
                   ("products", VList [VStr "Prusament PLA"; VStr "Prusament PETG"])]
    = Some records /\
    (fun r => dict_find r "name") <$> records
    = [Some (VStr "Prusament PLA"); Some (VStr "Prusament PETG")].
Proof.
  destruct (scrape_manual_records
              [("brand", VStr "Prusament");
               ("products", VList [VStr "Prusament PLA"; VStr "Prusament PETG"])]
              [VStr "Prusament PLA"; VStr "Prusament PETG"] eq_refl)
    as (records & Hrec & Hnames & _).
  exists records. split; [exact Hrec|exact Hnames].
Defined.

(** X16: a manually curated product keeps the type ["Standard"] through
    enrichment, whatever its name says. *)
Theorem enrich_keeps_manual_type py_format (config : dict) (records : list dict)
    (r : dict) (category name : string) :
  scrape_manual config = Some records ->
  r ∈ records ->
  dict_find r "name" = Some (VStr name) ->
  exists r', enrich_product py_format r category = Some r' /\
             dict_find r' "type" = Some (VStr "Standard").
Proof.
  intros Hm Hr Hname. unfold scrape_manual in Hm.
  apply bind_Some in Hm as (names & _ & Hm). injection Hm as <-.
  apply list_elem_of_fmap in Hr as (nm & -> & _).
  simpl in Hname. injection Hname as ->.
  unfold enrich_product. simpl.
  destruct (truthy (dict_get config "default_image" (VStr NO_IMAGE)));
    eexists; (split; [reflexivity|]); reflexivity.
Qed.

Lemma enrich_keeps_manual_type_witness :
  exists r',
    enrich_product (fun _ => "")
      [("brand", VStr "Prusament"); ("name", VStr "Prusament PETG");
       ("type", VStr "Standard"); ("image", VStr NO_IMAGE);
       ("fuente_datos", VStr "manual_curated")] "filament" = Some r' /\
    dict_find r' "type" = Some (VStr "Standard").
Proof.
  apply (enrich_keeps_manual_type (fun _ => "")
           [("brand", VStr "Prusament"); ("products", VList [VStr "Prusament PETG"])]
           [ [("brand", VStr "Prusament"); ("name", VStr "Prusament PETG");
              ("type", VStr "Standard"); ("image", VStr NO_IMAGE);
              ("fuente_datos", VStr "manual_curated")] ]
           _ "filament" "Prusament PETG").
  - reflexivity.
  - apply list_elem_of_here.
  - reflexivity.
Defined.

Lemma filter_hits_Some kw products out :
  filter_hits kw products = Some out ->
  out `sublist_of` products /\
  Forall (fun p => keyword_hit kw p = Some true) out.
Proof.
  revert out. induction products as [|p r IH]; simpl; intros out H.
  - injection H as <-. split; [done|constructor].
  - apply bind_Some in H as (hit & Hhit & H).
    apply bind_Some in H as (rest & Hrest & H). injection H as <-.
    destruct (IH rest Hrest) as [Hsub Hall].
    destruct hit; split; try (by constructor); done.
Qed.

Lemma filter_hits_raises kw products p :
  p ∈ products -> keyword_hit kw p = None -> filter_hits kw products = None.
Proof.
  induction 1 as [p r|p q r _ IH]; simpl; intros Hp.
  - by rewrite Hp.
  - destruct (keyword_hit kw q); [|done]. simpl. by rewrite IH.
Qed.

Lemma apply_keyword_filter_Some (keyword_filter : value) (products out : list dict) :
  apply_keyword_filter keyword_filter products = Some out ->
  out `sublist_of` products /\
  (truthy keyword_filter = false -> out = products) /\
  (forall kw, keyword_filter = VStr kw -> kw <> "" ->
     Forall (fun p => keyword_hit (PyStr.lower kw) p = Some true) out).
Proof.
  unfold apply_keyword_filter.
  destruct (truthy keyword_filter) eqn:Ht.
  - destruct products as [|p r].
    { intros [= <-]. split; [done|]. split; [done|]. intros; constructor. }
    cbn [andb]. intros H. apply bind_Some in H as (kw & Hkw & H).
    destruct (filter_hits_Some _ _ _ H) as [Hsub Hall].
    split; [done|]. split; [done|].
    intros kw' -> _. simpl in Hkw. by injection Hkw as <-.
  - cbn [andb]. intros [= <-]. split; [done|]. split; [done|].
    intros kw -> Hne. simpl in Ht.
    apply negb_false_iff, String.eqb_eq in Ht. done.
Qed.

Section DispatchFacts.

Variable strategies : string -> option (dict -> string -> option (list dict)).

(** X17: what [_scrape_single_url] returns is a subsequence of what the
    strategy produced; without a [filter] it is all of it, and with one
    every product kept has the keyword, in lower case, in its name or its
    url. *)
Theorem scrape_single_url_filters (config : dict) (category strategy : string)
    (run : dict -> string -> option (list dict)) (products : list dict) :
  dict_get config "strategy" (VStr "shopify") = VStr strategy ->
  strategies strategy = Some run ->
  run config category = Some products ->
  scrape_single_url strategies config category `sublist_of` products /\
  (truthy (dict_get config "filter" VNone) = false ->
   scrape_single_url strategies config category = products) /\
  (forall kw, dict_get config "filter" VNone = VStr kw -> kw <> "" ->
     Forall (fun p => keyword_hit (PyStr.lower kw) p = Some true)
            (scrape_single_url strategies config category)).
Proof.
  intros Hs Hrun Hp. unfold scrape_single_url. rewrite Hs, Hrun, Hp.
  cbn [mbind option_bind].
  destruct (apply_keyword_filter (dict_get config "filter" VNone) products)
    as [out|] eqn:Hout; cbn [default from_option id].
  - by apply apply_keyword_filter_Some.
  - split; [apply sublist_nil_l|]. split; [|intros; constructor].
    intros Ht. unfold apply_keyword_filter in Hout. by rewrite Ht in Hout.
Qed.

(** X18: one product whose name lacks the keyword and whose url is no string
    (the strategies put [None] there when a card has no link) makes the
    filter raise, and the handler then returns nothing at all. *)
Theorem scrape_single_url_filter_raises (config : dict) (category strategy kw : string)
    (run : dict -> string -> option (list dict)) (products : list dict)
    (p : dict) (name : string) :
  dict_get config "strategy" (VStr "shopify") = VStr strategy ->
  strategies strategy = Some run ->
  run config category = Some products ->
  dict_get config "filter" VNone = VStr kw -> kw <> "" ->
  p ∈ products ->
  dict_get p "name" (VStr "") = VStr name ->
  PyStr.contains (PyStr.lower kw) (PyStr.lower name) = false ->
  str_lower (dict_get p "url" (VStr "")) = None ->
  scrape_single_url strategies config category = [].
Proof.
  intros Hs Hrun Hp Hkw Hne Hin Hname Hmiss Hurl.
  unfold scrape_single_url. rewrite Hs, Hrun, Hp, Hkw.
  cbn [mbind option_bind]. unfold apply_keyword_filter.
  rewrite (truthy_nonempty_str kw Hne).
  destruct products as [|q r]; [by apply elem_of_nil in Hin|].
  cbn [andb str_lower mbind option_bind].
  rewrite (filter_hits_raises (PyStr.lower kw) (q :: r) p); [done|done|].
  unfold keyword_hit. rewrite Hname. cbn [str_lower mbind option_bind].
  rewrite Hmiss. by rewrite Hurl.
Qed.

Lemma scrape_single_url_hits (config : dict) (category kw : string) :
  dict_get config "filter" VNone = VStr kw -> kw <> "" ->
  Forall (fun p => keyword_hit (PyStr.lower kw) p = Some true)
         (scrape_single_url strategies config category).
Proof.
  intros Hkw Hne. unfold scrape_single_url.
  destruct (dict_get config "strategy" (VStr "shopify")); try constructor.
  destruct (strategies _) as [run|]; [|constructor].
  destruct (run config category) as [products|]; [|constructor].
  cbn [mbind option_bind].
  destruct (apply_keyword_filter (dict_get config "filter" VNone) products)
    as [out|] eqn:Hout; [|constructor].
  cbn [default from_option id].
  by apply (apply_keyword_filter_Some _ _ _ Hout).
Qed.

(** X23: unless the strategy is [manual], [scrape_brand] returns exactly
    when the configured [url] can be iterated (a string, a list, a mapping),
    and under a [filter] every product it returns, from whichever url, has
    the keyword in its name or its url. *)
Theorem scrape_brand_filtered (config : dict) (category : string) :
  eq_str (dict_get config "strategy" (VStr "shopify")) "manual" = false ->
  (is_Some (scrape_brand strategies config category) <->
   is_Some (iterate (dict_get config "url" (VStr "")))) /\
  (forall kw out,
     dict_get config "filter" VNone = VStr kw -> kw <> "" ->
     scrape_brand strategies config category = Some out ->
     Forall (fun p => keyword_hit (PyStr.lower kw) p = Some true) out).
Proof.
  intros Hm. unfold scrape_brand. rewrite Hm. split.
  - destruct (dict_get config "url" (VStr "")); simpl; split; intros [x Hx]; eauto;
      done.
  - intros kw out Hkw Hne H.
    apply bind_Some in H as (url_list & _ & H). injection H as <-.
    apply Forall_concat, Forall_fmap, Forall_forall. intros url _. simpl.
    apply scrape_single_url_hits; [|done].
    unfold dict_get in *. by rewrite (dict_find_set_ne _ "url" "filter") by discriminate.
Qed.

End DispatchFacts.

Lemma scrape_single_url_filters_witness :
  scrape_single_url (sample_strategies sample_cards) sample_config "filament"
    `sublist_of` sample_cards.
Proof.
  apply (scrape_single_url_filters (sample_strategies sample_cards) sample_config
           "filament" "js" (fun _ _ => Some sample_cards) sample_cards
           eq_refl eq_refl eq_refl).
Defined.

Lemma scrape_single_url_filter_raises_witness :
  scrape_single_url (sample_strategies sample_cards_no_link) sample_config "filament"
  = [].
Proof.
  apply (scrape_single_url_filter_raises (sample_strategies sample_cards_no_link)
           sample_config "filament" "js" "Filament"
           (fun _ _ => Some sample_cards_no_link) sample_cards_no_link
           [("name", VStr "Ender 3"); ("url", VNone)] "Ender 3"
           eq_refl eq_refl eq_refl eq_refl);
    try reflexivity; try discriminate.
  apply list_elem_of_further, list_elem_of_here.
Defined.

(** Two urls, one strategy, one keyword: what comes back is the matching
    card of each page. *)
Lemma scrape_brand_filtered_witness :
  Forall (fun p => keyword_hit (PyStr.lower "Filament") p = Some true)
    [ [("name", VStr "Hyper PLA Filament"); ("url", VNone)];
      [("name", VStr "Hyper PLA Filament"); ("url", VNone)] ].
Proof.
  apply (proj2 (scrape_brand_filtered (sample_strategies sample_cards) sample_brand
                  "filament" eq_refl) "Filament" _ eq_refl).
  - discriminate.
  - vm_compute. reflexivity.
Defined.

(** ** Generic-HTML strategy *)

Lemma run_loop_emitted {A : Type} (body : A -> loop_step) (cards : list A)
    (out : list dict) :
  run_loop body cards = Some out ->
  Forall (fun r => exists c, c ∈ cards /\ body c = Emit r) out.
Proof.
  revert out. induction cards as [|c cards IH]; simpl; intros out H.
  - injection H as <-. constructor.
  - destruct (body c) as [record| |] eqn:Hc; [| |done].
    + apply bind_Some in H as (rest & Hrest & H). injection H as <-.
      constructor.
      * exists c. split; [apply list_elem_of_here|done].
      * eapply Forall_impl; [exact (IH rest Hrest)|].
        intros r (c' & Hin & Hb). exists c'. split; [by apply list_elem_of_further|done].
    + eapply Forall_impl; [exact (IH out H)|].
      intros r (c' & Hin & Hb). exists c'. split; [by apply list_elem_of_further|done].
Qed.

Lemma html_image_absolute (c : card) (img_selector s : string) :
  html_image c img_selector = VStr s -> PyStr.startswith "//" s = false.
Proof.
  unfold html_image. destruct (c img_selector) as [img_el|]; [|done].
  generalize (py_or (attr img_el "src")
                (py_or (attr img_el "data-src") (attr img_el "data-lazy-src"))).
  intros v. destruct v as [| | |s0| |]; try done.
  destruct (truthy (VStr s0) && PyStr.startswith "//" s0) eqn:Hc.
  - intros [= <-]. reflexivity.
  - intros [= <-]. apply andb_false_iff in Hc as [Hc|Hc]; [|done].
    simpl in Hc. apply negb_false_iff, String.eqb_eq in Hc. by subst.
Qed.

(** X19: every record the HTML strategy returns has a non-empty name, and an
    image address that is never protocol-relative ([//host/...]). *)
Theorem scrape_html_records py_float urljoin (page : option soup)
    (url brand card_selector name_selector img_selector price_selector
     link_selector : string) :
  Forall (fun r =>
            (exists name, dict_find r "name" = Some (VStr name) /\ name <> "") /\
            (forall s, dict_find r "image" = Some (VStr s) ->
                       PyStr.startswith "//" s = false))
    (scrape_html py_float urljoin page url brand card_selector name_selector
       img_selector price_selector link_selector).
Proof.
  unfold scrape_html. destruct page as [select|]; [|constructor].
  match goal with
  | |- Forall _ (default [] (run_loop ?body ?cards)) =>
      destruct (run_loop body cards) as [out|] eqn:Hout; [|constructor];
      apply run_loop_emitted in Hout
  end.
  simpl. eapply Forall_impl; [exact Hout|].
  intros r (c & _ & Hc). unfold html_record in Hc.
  destruct (html_name_el c name_selector) as [name_el|]; [|done].
  destruct (String.eqb_spec (get_text_strip name_el) "") as [|Hne]; [done|].
  destruct (html_price py_float c price_selector) as [price|]; [|done].
  injection Hc as <-. split.
  - eexists. split; [reflexivity|done].
  - intros s Hs. simpl in Hs. injection Hs as Hs.
    by eapply html_image_absolute.
Qed.

Lemma scrape_html_records_witness :
  Forall (fun r =>
            (exists name, dict_find r "name" = Some (VStr name) /\ name <> "") /\
            (forall s, dict_find r "image" = Some (VStr s) ->
                       PyStr.startswith "//" s = false))
    (scrape_html (fun _ => FloatValueError) (fun base href => base ++ href)
       (Some sample_page) "https://acme.example/" "Acme"
       ".product-card" ".product-title" "img" ".price" "a").
Proof. apply scrape_html_records. Defined.

(** ** File names for images *)

Lemma slug_keep_lower (c : ascii) :
  slug_keep (PyStr.lower_char c) = true ->
  slug_sep (PyStr.lower_char c) || slug_char (PyStr.lower_char c) = true.
Proof. destruct c as [[] [] [] [] [] [] [] []]; vm_compute; intros; congruence. Qed.

Lemma slug_char_facts (c : ascii) :
  slug_char c = true ->
  PyStr.lower_char c = c /\ slug_keep c = true /\ slug_sep c = false.
Proof. destruct c as [[] [] [] [] [] [] [] []]; vm_compute; intros; repeat split; congruence. Qed.

Lemma filter_lower_classes (s : string) :
  string_forall (fun c => slug_sep c || slug_char c)
                (filter_chars slug_keep (PyStr.lower s)) = true.
Proof.
  induction s as [|c s IH]; [done|]. simpl.
  destruct (slug_keep (PyStr.lower_char c)) eqn:Hk; [|done].
  simpl. by rewrite (slug_keep_lower c Hk), IH.
Qed.

Lemma collapse_slug_chars (in_run : bool) (s : string) :
  string_forall (fun c => slug_sep c || slug_char c) s = true ->
  string_forall slug_char (collapse_seps in_run s) = true.
Proof.
  revert in_run. induction s as [|c s IH]; intros in_run; [done|]. simpl.
  intros [Hc Hs]%andb_true_iff.
  destruct (slug_sep c) eqn:Hsep.
  - destruct in_run; simpl; by rewrite ?IH.
  - simpl in Hc. simpl. by rewrite Hc, IH.
Qed.

Lemma lstrip_char_forall f c s :
  string_forall f s = true -> string_forall f (lstrip_char c s) = true.
Proof.
  induction s as [|a s IH]; [done|]. simpl.
  intros H. pose proof H as [Ha Hs]%andb_true_iff.
  destruct (Ascii.eqb a c); [by apply IH|done].
Qed.

Lemma rstrip_char_forall f c s :
  string_forall f s = true -> string_forall f (PyStr.rstrip_char c s) = true.
Proof.
  induction s as [|a s IH]; [done|]. simpl.
  intros [Ha Hs]%andb_true_iff.
  destruct (Ascii.eqb a c && String.eqb (PyStr.rstrip_char c s) ""); [done|].
  simpl. by rewrite Ha, IH.
Qed.

Lemma rstrip_char_idemp c s :
  PyStr.rstrip_char c (PyStr.rstrip_char c s) = PyStr.rstrip_char c s.
Proof.
  induction s as [|a s IH]; [done|]. simpl.
  destruct (Ascii.eqb a c && String.eqb (PyStr.rstrip_char c s) "") eqn:Hc; [done|].
  simpl. by rewrite IH, Hc.
Qed.

Lemma lstrip_char_idemp c s : lstrip_char c (lstrip_char c s) = lstrip_char c s.
Proof.
  induction s as [|a s IH]; [done|]. simpl.
  destruct (Ascii.eqb a c) eqn:Ha; [done|]. simpl. by rewrite Ha.
Qed.

Lemma rstrip_lstrip_fixed c s :
  PyStr.rstrip_char c s = s ->
  PyStr.rstrip_char c (lstrip_char c s) = lstrip_char c s.
Proof.
  induction s as [|a s IH]; [done|]. intros H. simpl.
  destruct (Ascii.eqb a c) eqn:Ha; [|done].
  apply IH. simpl in H.
  destruct (Ascii.eqb a c && String.eqb (PyStr.rstrip_char c s) ""); [done|].
  by injection H.
Qed.

Lemma strip_char_ends c s :
  lstrip_char c (strip_char c s) = strip_char c s /\
  PyStr.rstrip_char c (strip_char c s) = strip_char c s.
Proof.
  unfold strip_char. split; [apply lstrip_char_idemp|].
  apply rstrip_lstrip_fixed, rstrip_char_idemp.
Qed.

Lemma slug_chars_fixed (s : string) :
  string_forall slug_char s = true ->
  PyStr.lower s = s /\ filter_chars slug_keep s = s /\
  forall in_run, collapse_seps in_run s = s.
Proof.
  induction s as [|c s IH]; [done|]. simpl.
  intros [Hc Hs]%andb_true_iff.
  destruct (slug_char_facts c Hc) as (Hl & Hk & Hsep).
  destruct (IH Hs) as (IHl & IHf & IHc).
  rewrite Hl, Hk, Hsep, IHl, IHf. repeat split; try done.
  intros in_run. by rewrite IHc.
Qed.

Lemma slug_char_ascii (c : ascii) : slug_char c = true -> is_ascii_char c = true.
Proof. destruct c as [[] [] [] [] [] [] [] []]; vm_compute; congruence. Qed.

Lemma slug_chars_ascii (s : string) :
  string_forall slug_char s = true -> is_ascii s = true.
Proof.
  unfold is_ascii. induction s as [|c s IH]; [done|]. simpl.
  intros [Hc Hs]%andb_true_iff. by rewrite (slug_char_ascii c Hc), IH.
Qed.

Lemma slugify_chars (text slug : string) :
  slugify text = Some slug -> string_forall slug_char slug = true.
Proof.
  unfold slugify, strip_char. destruct (is_ascii text); [|done]. intros [= <-].
  apply lstrip_char_forall, rstrip_char_forall, collapse_slug_chars,
    filter_lower_classes.
Qed.

(** X20: on a text of ASCII characters [slugify] is defined, and the slug
    consists of lower-case letters, digits and underscores only (no space,
    hyphen, dot or slash), neither begins nor ends with an underscore, and
    slugifying it again gives it back. *)
Theorem slugify_shape (text : string) :
  (is_ascii text = true -> is_Some (slugify text)) /\
  (forall slug, slugify text = Some slug ->
     string_forall slug_char slug = true /\
     lstrip_char "_" slug = slug /\
     PyStr.rstrip_char "_" slug = slug /\
     slugify slug = Some slug).
Proof.
  split.
  { intros Hascii. unfold slugify. by rewrite Hascii. }
  intros slug Hslug.
  pose proof (slugify_chars text slug Hslug) as Hchars.
  unfold slugify in Hslug. destruct (is_ascii text); [|done].
  injection Hslug as Hslug.
  destruct (strip_char_ends "_"
              (collapse_seps false (filter_chars slug_keep (PyStr.lower text))))
    as [Hl Hr].
  rewrite Hslug in Hl, Hr.
  repeat split; try done.
  destruct (slug_chars_fixed _ Hchars) as (Hlow & Hfil & Hcol).
  unfold slugify. rewrite (slug_chars_ascii _ Hchars), Hlow, Hfil, Hcol.
  unfold strip_char. by rewrite Hr, Hl.
Qed.

Lemma slugify_shape_witness :
  is_Some (slugify "ABS-Like Resin  (1kg)!") /\
  string_forall slug_char "abs_like_resin_1kg" = true /\
  lstrip_char "_" "abs_like_resin_1kg" = "abs_like_resin_1kg" /\
  PyStr.rstrip_char "_" "abs_like_resin_1kg" = "abs_like_resin_1kg" /\
  slugify "abs_like_resin_1kg" = Some "abs_like_resin_1kg".
Proof.
  destruct (slugify_shape "ABS-Like Resin  (1kg)!") as [Hdefined Hshape].
  split.
  - apply Hdefined. vm_compute. reflexivity.
  - apply Hshape. vm_compute. reflexivity.
Defined.

(** A text with a character outside ASCII has no slug here. *)
Lemma slugify_examples :
  slugify "Siraya Tech" = Some "siraya_tech" /\
  slugify "ABS-Like Resin  (1kg)!" = Some "abs_like_resin_1kg" /\
  slugify "_PLA+ / Pro_" = Some "pla_pro" /\
  slugify "!!!" = Some "" /\
  slugify "Café Crème" = None.
Proof. repeat split; vm_compute; reflexivity. Qed.

(** ** FDM profiles *)





(** ** The in-place update *)

Lemma dict_set_same (d : dict) (k : string) (v : value) :
  dict_find d k = Some v -> dict_set d k v = d.
Proof.
  induction d as [|[k0 v0] d IH]; simpl; [done|].
  destruct (String.eqb k0 k); [by intros [= ->]|].
  intros H. by rewrite IH.
Qed.

Lemma py_or_absorb (a b : value) : py_or a (py_or a b) = py_or a b.
Proof. unfold py_or. by destruct (truthy a) eqn:Ha; rewrite ?Ha. Qed.

Lemma dict_get_absorb (item : dict) (k : string) (v : value) :
  dict_get item k (dict_get item k v) = dict_get item k v.
Proof. unfold dict_get. by destruct (dict_find item k). Qed.

(** X22: applying the same new record to an entry a second time changes
    nothing: the update is idempotent. *)
Theorem update_entry_idempotent (item d : dict) :
  update_entry item (update_entry item d) = update_entry item d.
Proof.
  set (d' := update_entry item d).
  assert (Hp : dict_find d' "profiles"
               = Some (dict_get item "profiles" (dict_get d "profiles" VNone))).
  { unfold d', update_entry, dict_update, merged_fields. cbn [fold_left fst snd].
    rewrite !dict_find_set_ne by discriminate. apply dict_find_set_eq. }
  assert (Hq : dict_find d' "params"
               = Some (dict_get item "params" (dict_get d "params" VNone))).
  { unfold d', update_entry, dict_update, merged_fields. cbn [fold_left fst snd].
    rewrite !dict_find_set_ne by discriminate. apply dict_find_set_eq. }
  assert (Hd : dict_find d' "description"
               = Some (py_or (dict_get item "description" VNone)
                             (dict_get d "description" VNone))).
  { unfold d', update_entry, dict_update, merged_fields. cbn [fold_left fst snd].
    rewrite !dict_find_set_ne by discriminate. apply dict_find_set_eq. }
  pose proof (update_entry_image item d) as Hi.
  pose proof (update_entry_tags item d) as Ht.
  fold d' in Hi, Ht.
  unfold update_entry at 1, dict_update, merged_fields. cbn [fold_left fst snd].
  unfold dict_get at 2 4 6 8 10. rewrite Hp, Hq, Hi, Hd, Ht. cbn [default from_option id].
  rewrite !dict_get_absorb, !py_or_absorb.
  rewrite (dict_set_same d' "profiles") by done.
  rewrite (dict_set_same d' "params") by done.
  rewrite (dict_set_same d' "image") by done.
  rewrite (dict_set_same d' "description") by done.
  by rewrite (dict_set_same d' "tags") by done.
Qed.

(** ** Enrichment and validation together *)

Ltac find_through_sets :=
  repeat (rewrite dict_find_set_eq || rewrite dict_find_set_ne by discriminate).

(** What enrichment does to the name and the tags of a record whose name
    is a string. *)
Lemma enrich_named py_format (product : dict) (name category : string) :
  dict_get product "name" (VStr "") = VStr name ->
  exists product',
    enrich_product py_format product category = Some product' /\
    dict_find product' "name" = dict_find product "name" /\
    (truthy (dict_get product "tags" VNone) = true ->
     dict_find product' "tags" = dict_find product "tags") /\
    (truthy (dict_get product "tags" VNone) = false ->
     truthy (dict_get product "type" VNone) = false ->
     dict_find product' "tags" = Some (VList [VStr (detect_product_type name "")])).
Proof.
  intros Hname. unfold enrich_product. rewrite Hname. cbn zeta.
  destruct (truthy (dict_get product "type" VNone)) eqn:Hty;
    cbn [as_str mbind option_bind];
    match goal with
    | |- context [truthy (dict_get ?p "color" VNone)] =>
        destruct (truthy (dict_get p "color" VNone)) eqn:Hco
    end;
    cbn [as_str mbind option_bind];
    match goal with
    | |- context [truthy (dict_get ?p "tags" VNone)] =>
        destruct (truthy (dict_get p "tags" VNone)) eqn:Hta
    end;
    (eexists; split; [reflexivity|]);
    unfold dict_get in *;
    repeat (rewrite dict_find_set_ne in Hta by discriminate);
    rewrite ?Hta; find_through_sets;
    repeat split; try done; intros; find_through_sets; try done; try congruence.
Qed.

Lemma search_from_after_space (re : list Re.item) (prev : option ascii) (s t : string) :
  Re.search_from re (Some " "%char) t = true ->
  Re.search_from re prev (s ++ " " ++ t) = true.
Proof.
  intros H. revert prev. induction s as [|a s IH]; intros prev.
  - change ("" ++ " " ++ t) with (String " " t). simpl. rewrite H. apply orb_true_r.
  - change (String a s ++ " " ++ t) with (String a (s ++ " " ++ t)). simpl.
    rewrite IH. apply orb_true_r.
Qed.

Lemma any_match_after_space (pats : list string) (s t : string) :
  existsb (fun pat => Re.search_from (Re.compile pat) (Some " "%char) t) pats = true ->
  any_match pats (s ++ " " ++ t) = true.
Proof.
  intros (pat & Hin & H)%existsb_exists. apply existsb_exists.
  exists pat. split; [done|]. by apply search_from_after_space.
Qed.

Lemma filament_labels_caught :
  Forall (fun label =>
            existsb (fun pat => Re.search_from (Re.compile pat) (Some " "%char)
                                  (PyStr.lower label))
                    FILAMENT_BLACKLIST = true)
         FILAMENT_LABELS.
Proof. repeat (constructor; [vm_compute; reflexivity|]). constructor. Qed.

(** X24: enrichment can turn an accepted resin into a rejected one.  On a
    record without type and tags it writes the detected type as the only
    tag, and when that label is one of PLA+, PETG, ASA, TPU, Nylon,
    Silk PLA, Matte PLA or PLA the enriched record fails resin validation,
    whatever validation said of the record before. *)
Theorem enrich_tag_fails_resin py_format (product : dict) (name category : string) :
  dict_find product "name" = Some (VStr name) ->
  truthy (dict_get product "type" VNone) = false ->
  truthy (dict_get product "tags" VNone) = false ->
  detect_product_type name "" ∈ FILAMENT_LABELS ->
  exists product',
    enrich_product py_format product category = Some product' /\
    dict_find product' "tags" = Some (VList [VStr (detect_product_type name "")]) /\
    validate_product product' "resin" = Some false.
Proof.
  intros Hname Hty Hta Hlabel.
  destruct (enrich_named py_format product name category)
    as (product' & Hen & Hname' & _ & Htags).
  { unfold dict_get. by rewrite Hname. }
  specialize (Htags Hta Hty). rewrite Hname in Hname'.
  exists product'. split; [done|]. split; [done|].
  unfold validate_product, dict_get, reject_logged.
  rewrite Hname', Htags, (dict_has_find _ _ _ Hname').
  cbn [default from_option id str_lower iterate mapM mbind option_bind mret option_ret
       fmap option_fmap option_map PyStr.join].
  rewrite any_match_after_space; [done|].
  revert Hlabel. generalize (detect_product_type name "").
  apply Forall_forall, filament_labels_caught.
Qed.

(** ["Display Resin"] holds [pla]: accepted as it is scraped, typed PLA,
    rejected afterwards. *)
Lemma enrich_tag_fails_resin_witness :
  validate_product display_resin "resin" = Some true /\
  exists product',
    enrich_product (fun _ => "") display_resin "resin" = Some product' /\
    dict_find product' "tags"
    = Some (VList [VStr (detect_product_type "Display Resin" "")]) /\
    validate_product product' "resin" = Some false.
Proof.
  split; [vm_compute; reflexivity|].
  apply (enrich_tag_fails_resin (fun _ => "") display_resin "Display Resin" "resin"
           eq_refl eq_refl eq_refl).
  apply (bool_decide_unpack _). vm_compute. exact I.
Defined.

(** X25: on a record that has tags and a string for a name, enrichment
    returns and leaves the verdict of validation, for either catalog, as it
    was. *)
Theorem enrich_keeps_verdict py_format (product : dict)
    (name category category' : string) :
  dict_get product "name" (VStr "") = VStr name ->
  truthy (dict_get product "tags" VNone) = true ->
  exists product',
    enrich_product py_format product category = Some product' /\
    validate_product product' category' = validate_product product category'.
Proof.
  intros Hname Hta.
  destruct (enrich_named py_format product name category Hname)
    as (product' & Hen & Hname' & Htags & _).
  specialize (Htags Hta).
  exists product'. split; [done|].
  apply validate_product_ext.
  - by rewrite (dict_get_find_eq _ _ _ _ Hname').
  - by rewrite !dict_has_spec, Hname'.
  - by apply dict_get_find_eq.
Qed.

Lemma enrich_keeps_verdict_witness :
  exists product',
    enrich_product (fun _ => "") grey_upper "resin" = Some product' /\
    validate_product product' "filament" = validate_product grey_upper "filament".
Proof.
  apply (enrich_keeps_verdict (fun _ => "") grey_upper "Tough Grey" "resin" "filament");
    reflexivity.
Defined.

(** ** Generic scraper: names *)

Lemma string_app_cons (x : ascii) (a b : string) : String x a ++ b = String x (a ++ b).
Proof. reflexivity. Qed.

Lemma string_app_assoc (a b c : string) : (a ++ b) ++ c = a ++ (b ++ c).
Proof. induction a as [|x a IH]; [done|]. by rewrite !string_app_cons, IH. Qed.

Lemma string_app_nil_r (a : string) : a ++ "" = a.
Proof. induction a as [|x a IH]; [done|]. by rewrite string_app_cons, IH. Qed.

Lemma string_forall_app f (a b : string) :
  string_forall f (a ++ b) = string_forall f a && string_forall f b.
Proof.
  induction a as [|x a IH]; [done|].
  rewrite string_app_cons. simpl. by rewrite IH, andb_assoc.
Qed.

Lemma rev_app_append (s1 s2 : string) : String.rev_app s1 s2 = String.rev s1 ++ s2.
Proof.
  unfold String.rev. revert s2. induction s1 as [|a s1 IH]; intros s2; simpl; [done|].
  rewrite (IH (String a s2)), (IH (String a "")).
  symmetry. apply (string_app_assoc _ (String a "") s2).
Qed.

Lemma rev_cons (a : ascii) (s : string) : String.rev (String a s) = String.rev s ++ String a "".
Proof. unfold String.rev at 1. simpl. apply rev_app_append. Qed.

Lemma rev_append (a b : string) : String.rev (a ++ b) = String.rev b ++ String.rev a.
Proof.
  induction a as [|x a IH].
  - simpl. by rewrite string_app_nil_r.
  - change (String x a ++ b) with (String x (a ++ b)).
    by rewrite !rev_cons, IH, string_app_assoc.
Qed.

Lemma rev_involutive (s : string) : String.rev (String.rev s) = s.
Proof.
  induction s as [|x s IH]; [done|].
  by rewrite rev_cons, rev_append, IH.
Qed.

Lemma string_forall_rev f (s : string) : string_forall f (String.rev s) = string_forall f s.
Proof.
  induction s as [|x s IH]; [done|].
  rewrite rev_cons, string_forall_app, IH. simpl.
  by rewrite andb_true_r, andb_comm.
Qed.

Lemma split_ws_cons (c : ascii) (r : string) :
  split_ws (String c r) =
  if PyStr.is_space c then split_ws r
  else if begins_with_space r then String c "" :: split_ws r
  else match split_ws r with
       | w :: ws => String c w :: ws
       | [] => [String c ""]
       end.
Proof. destruct r; reflexivity. Qed.

Lemma split_ws_all_space (sp : string) :
  string_forall PyStr.is_space sp = true -> split_ws sp = [].
Proof.
  induction sp as [|a sp IH]; [done|]. simpl string_forall.
  intros [Ha Hsp]%andb_true_iff. rewrite split_ws_cons, Ha. by apply IH.
Qed.

Lemma begins_with_space_app (r sp : string) :
  r <> "" -> begins_with_space (r ++ sp) = begins_with_space r.
Proof. by destruct r. Qed.

Lemma split_ws_app_space (x sp : string) :
  string_forall PyStr.is_space sp = true -> split_ws (x ++ sp) = split_ws x.
Proof.
  intros Hsp. induction x as [|c r IH].
  - by apply split_ws_all_space.
  - change (String c r ++ sp) with (String c (r ++ sp)).
    rewrite !split_ws_cons, IH.
    destruct (PyStr.is_space c); [done|].
    destruct r as [|c' r'].
    + destruct sp as [|a sp']; [done|].
      change ("" ++ String a sp') with (String a sp').
      simpl in Hsp. apply andb_true_iff in Hsp as [Ha Hsp'].
      cbn [begins_with_space split_ws]. by rewrite Ha.
    + by rewrite begins_with_space_app.
Qed.

Lemma split_ws_lstrip (s : string) : split_ws (PyStr.lstrip s) = split_ws s.
Proof.
  induction s as [|a s IH]; [done|].
  simpl PyStr.lstrip. destruct (PyStr.is_space a) eqn:Ha.
  - by rewrite split_ws_cons, Ha.
  - done.
Qed.

Lemma lstrip_decomp (u : string) :
  exists sp, string_forall PyStr.is_space sp = true /\ u = sp ++ PyStr.lstrip u.
Proof.
  induction u as [|a u (sp & Hsp & Hu)]; [by exists ""|].
  simpl PyStr.lstrip. destruct (PyStr.is_space a) eqn:Ha.
  - exists (String a sp). split; [simpl; by rewrite Ha, Hsp|].
    rewrite string_app_cons. by rewrite <- Hu.
  - by exists "".
Qed.

Lemma split_ws_strip (s : string) : split_ws (PyStr.strip s) = split_ws s.
Proof.
  unfold PyStr.strip. rewrite <- (split_ws_lstrip s).
  generalize (PyStr.lstrip s). intros t.
  destruct (lstrip_decomp (String.rev t)) as (sp & Hsp & Hrev).
  set (m := PyStr.lstrip (String.rev t)) in *.
  transitivity (split_ws (String.rev (String.rev t))); [|by rewrite rev_involutive].
  rewrite Hrev, rev_append.
  rewrite split_ws_app_space; [done|]. by rewrite string_forall_rev.
Qed.

Lemma split_ws_tokens (s : string) : Forall (fun w => is_token w = true) (split_ws s).
Proof.
  induction s as [|c r IH]; [constructor|].
  rewrite split_ws_cons.
  destruct (PyStr.is_space c) eqn:Hc; [done|].
  assert (Hone : is_token (String c "") = true).
  { unfold is_token. simpl. by rewrite Hc. }
  destruct (begins_with_space r); [by constructor|].
  destruct (split_ws r) as [|w ws]; [by repeat constructor|].
  inversion IH as [|? ? Hw Hws]; subst. constructor; [|done].
  unfold is_token in *. simpl. rewrite Hc. simpl.
  by apply andb_true_iff in Hw as [_ ->].
Qed.

Lemma split_ws_token_app (w rest : string) :
  is_token w = true -> rest = "" \/ begins_with_space rest = true ->
  split_ws (w ++ rest) = w :: split_ws rest.
Proof.
  intros Hw Hrest. induction w as [|c w IH]; [done|].
  unfold is_token in Hw. simpl in Hw.
  apply andb_true_iff in Hw as [Hc Hw]. apply negb_true_iff in Hc.
  change (String c w ++ rest) with (String c (w ++ rest)).
  rewrite split_ws_cons, Hc.
  destruct w as [|c' w'].
  - change ("" ++ rest) with rest. destruct Hrest as [-> | Hb]; [done|].
    by rewrite Hb.
  - rewrite IH.
    + simpl in Hw. apply andb_true_iff in Hw as [Hc' _]. apply negb_true_iff in Hc'.
      simpl. by rewrite Hc'.
    + unfold is_token. by simpl.
Qed.

Lemma join_cons_cons (sep x y : string) (l : list string) :
  PyStr.join sep (x :: y :: l) = x ++ sep ++ PyStr.join sep (y :: l).
Proof. reflexivity. Qed.

Lemma split_ws_join (ws : list string) :
  Forall (fun w => is_token w = true) ws -> split_ws (PyStr.join " " ws) = ws.
Proof.
  induction 1 as [|w ws Hw Hws IH]; [done|].
  destruct ws as [|w' ws'].
  - simpl. rewrite <- (string_app_nil_r w) at 1.
    rewrite split_ws_token_app by (done || by left). done.
  - rewrite join_cons_cons, split_ws_token_app by (done || by right).
    change (" " ++ PyStr.join " " (w' :: ws')) with (String " " (PyStr.join " " (w' :: ws'))).
    rewrite split_ws_cons. simpl PyStr.is_space. cbv iota. by rewrite IH.
Qed.

Lemma single_spaced_token_app (w rest : string) :
  string_forall (fun c => negb (PyStr.is_space c)) w = true ->
  single_spaced (w ++ rest) = single_spaced rest.
Proof.
  induction w as [|c w IH]; [done|]. simpl.
  intros [Hc Hw]%andb_true_iff. apply negb_true_iff in Hc. rewrite Hc. simpl.
  by apply IH.
Qed.

Lemma join_tokens_normal (ws : list string) :
  Forall (fun w => is_token w = true) ws ->
  begins_with_space (PyStr.join " " ws) = false /\
  single_spaced (PyStr.join " " ws) = true /\
  (ws <> [] -> PyStr.join " " ws <> "").
Proof.
  induction 1 as [|w ws Hw Hws (IHb & IHs & IHn)]; [done|].
  pose proof Hw as Hw'. unfold is_token in Hw'.
  apply andb_true_iff in Hw' as [Hne Hall]. apply negb_true_iff, String.eqb_neq in Hne.
  assert (Hhead : forall rest, begins_with_space (w ++ rest) = false /\ w ++ rest <> "").
  { intros rest. destruct w as [|c w]; [done|]. simpl in *.
    apply andb_true_iff in Hall as [Hc _]. by apply negb_true_iff in Hc. }
  destruct ws as [|w' ws'].
  - simpl. rewrite <- (string_app_nil_r w).
    destruct (Hhead "") as [-> Hn]. rewrite single_spaced_token_app by done. done.
  - rewrite join_cons_cons. destruct (Hhead (" " ++ PyStr.join " " (w' :: ws'))) as [-> Hn].
    split; [done|]. split; [|done].
    rewrite single_spaced_token_app by done.
    change (" " ++ PyStr.join " " (w' :: ws')) with (String " " (PyStr.join " " (w' :: ws'))).
    cbn [single_spaced]. rewrite IHs.
    specialize (IHn ltac:(done)).
    destruct (PyStr.join " " (w' :: ws')) as [|c' j]; [done|].
    simpl in IHb. by rewrite IHb.
Qed.

Lemma clean_text_spaced (text s : string) :
  clean_text text = Some s -> begins_with_space s = false /\ single_spaced s = true.
Proof.
  unfold clean_text. destruct (String.eqb text ""); [done|]. intros [= <-].
  destruct (join_tokens_normal _ (split_ws_tokens (PyStr.strip text))) as (Hb & Hs & _).
  done.
Qed.

(** X26: [clean_text] returns [None] on the empty string only; what it
    returns otherwise holds the words of the text, in order, with single
    blanks between them and no whitespace at either end, and cleaning it
    again gives it back. *)
Theorem clean_text_normal (text : string) :
  (clean_text text = None <-> text = "") /\
  (forall s, clean_text text = Some s ->
     begins_with_space s = false /\
     single_spaced s = true /\
     split_ws s = split_ws text /\
     (s <> "" -> clean_text s = Some s)).
Proof.
  unfold clean_text at 1 2. destruct (String.eqb_spec text "") as [->|Hne].
  - split; [done|]. intros s [=].
  - split; [split; [done|by intros ->]|]. intros s [= <-].
    pose proof (split_ws_tokens (PyStr.strip text)) as Htok.
    destruct (join_tokens_normal _ Htok) as (Hb & Hs & _).
    assert (Hsplit : split_ws (PyStr.join " " (split_ws (PyStr.strip text)))
                     = split_ws (PyStr.strip text)) by (by apply split_ws_join).
    split; [done|]. split; [done|]. split.
    + by rewrite Hsplit, split_ws_strip.
    + intros Hs'. unfold clean_text.
      destruct (String.eqb_spec (PyStr.join " " (split_ws (PyStr.strip text))) "");
        [done|].
      by rewrite split_ws_strip, Hsplit.
Qed.

(** A text of blanks only is not [None] but the empty string. *)
Lemma clean_text_normal_witness :
  clean_text "   " = Some "" /\
  clean_text " Tough   Resin  Grey " = Some "Tough Resin Grey" /\
  split_ws "Tough Resin Grey" = split_ws " Tough   Resin  Grey ".
Proof.
  split; [reflexivity|]. split; [reflexivity|].
  apply (proj2 (clean_text_normal " Tough   Resin  Grey ") "Tough Resin Grey").
  reflexivity.
Defined.

(** ** Generic scraper: products *)

Section GenericFacts.

Variable py_float : value -> float_result.
Variables brand base_url product_type : string.

(** The name a card yields is [None] or a cleaned text, its brand the
    scraper's. *)
Lemma extract_product_name (el : card) (p : dict) :
  extract_product_from_element py_float brand base_url el = Some p ->
  dict_find p "brand" = Some (VStr brand) /\
  (dict_find p "name" = None \/
   exists text, dict_find p "name" = Some (opt_value (clean_text text))).
Proof.
  unfold extract_product_from_element. intros H.
  assert (Hgoal : forall p0 : dict,
            dict_find p0 "brand" = Some (VStr brand) /\
            (dict_find p0 "name" = None \/
             exists text, dict_find p0 "name" = Some (opt_value (clean_text text))) ->
            forall k v, k <> "brand" -> k <> "name" ->
            dict_find (dict_set p0 k v) "brand" = Some (VStr brand) /\
            (dict_find (dict_set p0 k v) "name" = None \/
             exists text, dict_find (dict_set p0 k v) "name"
                          = Some (opt_value (clean_text text)))).
  { intros p0 Hp0 k v Hb Hn. by rewrite !dict_find_set_ne. }
  set (p1 := match first_selected el TITLE_SELECTORS with
             | Some title_el => _ | None => _ end) in H.
  assert (H1 : dict_find p1 "brand" = Some (VStr brand) /\
               (dict_find p1 "name" = None \/
                exists text, dict_find p1 "name" = Some (opt_value (clean_text text)))).
  { subst p1. destruct (first_selected el TITLE_SELECTORS) as [title_el|].
    - split; [done|]. right. by exists (get_text title_el).
    - split; [done|]. by left. }
  clearbody p1.
  set (p2 := match first_selected el IMAGE_SELECTORS with
             | Some img_el => _ | None => _ end) in H.
  assert (H2 : dict_find p2 "brand" = Some (VStr brand) /\
               (dict_find p2 "name" = None \/
                exists text, dict_find p2 "name" = Some (opt_value (clean_text text)))).
  { subst p2. destruct (first_selected el IMAGE_SELECTORS); [|done].
    by apply Hgoal. }
  clearbody p2.
  set (p3 := match el "a[href]" with Some link_el => _ | None => _ end) in H.
  assert (H3 : dict_find p3 "brand" = Some (VStr brand) /\
               (dict_find p3 "name" = None \/
                exists text, dict_find p3 "name" = Some (opt_value (clean_text text)))).
  { subst p3. destruct (el "a[href]"); [|done].
    repeat match goal with |- context [if ?c then _ else _] => destruct c end;
      try done; by apply Hgoal. }
  clearbody p3.
  destruct (first_selected el PRICE_SELECTORS) as [price_el|].
  - apply bind_Some in H as (price & _ & H). injection H as <-. by apply Hgoal.
  - by injection H as <-.
Qed.

Lemma extract_product_total (el : card) :
  (forall v, py_float v <> FloatTypeError) ->
  is_Some (extract_product_from_element py_float brand base_url el).
Proof.
  intros Hfloat. unfold extract_product_from_element.
  destruct (first_selected el PRICE_SELECTORS) as [price_el|]; [|done].
  unfold extract_price. destruct (String.eqb _ ""); [done|].
  match goal with |- context [py_float ?v] =>
    pose proof (Hfloat v); destruct (py_float v) end; done.
Qed.

Lemma extract_all_names (elements : list card) (products : list dict) :
  extract_all py_float brand base_url elements = Some products ->
  Forall (fun p => dict_find p "brand" = Some (VStr brand) /\
                   exists text name, clean_text text = Some name /\ name <> "" /\
                                     dict_find p "name" = Some (VStr name))
         products.
Proof.
  revert products. induction elements as [|el r IH]; simpl; intros products H.
  - injection H as <-. constructor.
  - apply bind_Some in H as (p & Hp & H).
    apply bind_Some in H as (rest & Hrest & H). injection H as <-.
    specialize (IH rest Hrest).
    destruct (truthy (dict_get p "name" VNone)) eqn:Ht; [|done].
    constructor; [|done].
    destruct (extract_product_name el p Hp) as [Hb [Hn|[text Hn]]].
    + unfold dict_get in Ht. by rewrite Hn in Ht.
    + split; [done|]. unfold dict_get in Ht. rewrite Hn in Ht.
      destruct (clean_text text) as [name|] eqn:Hclean; [|done].
      exists text, name. split; [done|]. split; [|done].
      simpl in Ht. by apply negb_true_iff, String.eqb_neq in Ht.
Qed.

Lemma extract_all_total (elements : list card) :
  (forall v, py_float v <> FloatTypeError) ->
  is_Some (extract_all py_float brand base_url elements).
Proof.
  intros Hfloat. induction elements as [|el r [rest IH]]; simpl; [done|].
  destruct (extract_product_total el Hfloat) as [p ->]. simpl. by rewrite IH.
Qed.

(** X27: what the generic scraper returns for a page.  Every product has
    the scraper's brand and a name that is not empty and is cleaned (single
    blanks, none at the ends); its type and colour are the ones detected
    from that name and the type is its only tag.  The scraper returns
    unless [float] fails with something other than [ValueError]. *)
Theorem generic_products_shape (page : option soup) :
  (forall out,
     scrape_products py_float brand base_url product_type page = Some out ->
     Forall (fun r =>
       exists name,
         dict_find r "name" = Some (VStr name) /\ name <> "" /\
         begins_with_space name = false /\ single_spaced name = true /\
         dict_find r "brand" = Some (VStr brand) /\
         dict_find r "type"
         = Some (VStr (Generic.detect_type_from_name product_type name)) /\
         dict_find r "tags"
         = Some (VList [VStr (Generic.detect_type_from_name product_type name)]) /\
         dict_find r "color" = Some (VStr (detect_color_from_name name).1))
       out) /\
  ((forall v, py_float v <> FloatTypeError) ->
   is_Some (scrape_products py_float brand base_url product_type page)).
Proof.
  unfold scrape_products, find_products_on_page. destruct page as [select|].
  2: { split; [intros out [= <-]; constructor|done]. }
  split.
  - intros out H. apply bind_Some in H as (raw & Hraw & H).
    apply extract_all_names in Hraw.
    apply mapM_Some_1 in H.
    assert (Hkept : Forall (fun p => dict_find p "brand" = Some (VStr brand) /\
                      exists text name, clean_text text = Some name /\ name <> "" /\
                                        dict_find p "name" = Some (VStr name))
                      (List.filter (fun p => truthy (dict_get p "name" VNone)) raw)).
    { apply Forall_forall. intros p Hp.
      apply list_elem_of_In, filter_In in Hp as [Hp _].
      apply list_elem_of_In in Hp. by apply (proj1 (Forall_forall _ _) Hraw). }
    clear Hraw. revert Hkept.
    induction H as [|p r ps rs Hpr _ IH]; intros Hkept; [constructor|].
    inversion Hkept as [|? ? (Hb & text & name & Hclean & Hne & Hname) Hrest]; subst.
    constructor; [|by apply IH].
    unfold generic_enrich, dict_get in Hpr. rewrite Hname in Hpr.
    cbn [default from_option id as_str mbind option_bind] in Hpr.
    injection Hpr as <-.
    destruct (clean_text_spaced text name Hclean) as (Hbs & Hss).
    exists name. find_through_sets. rewrite Hname, Hb. done.
  - intros Hfloat.
    destruct (extract_all_total (first_nonempty (select <$> PRODUCT_SELECTORS)) Hfloat)
      as [raw Hraw].
    rewrite Hraw. cbn [mbind option_bind].
    apply mapM_is_Some_2, Forall_forall. intros p Hp.
    apply list_elem_of_In, filter_In in Hp as [Hp _]. apply list_elem_of_In in Hp.
    apply extract_all_names in Hraw.
    destruct (proj1 (Forall_forall _ _) Hraw p Hp) as (_ & text & name & _ & _ & Hname).
    simpl. unfold generic_enrich, dict_get. by rewrite Hname.
Qed.

End GenericFacts.

Lemma generic_products_shape_witness :
  is_Some (scrape_products (fun _ => FloatValueError) "Acme" "https://acme.example/"
             "resin" (Some sample_page)) /\
  Forall (fun r =>
    exists name,
      dict_find r "name" = Some (VStr name) /\ name <> "" /\
      begins_with_space name = false /\ single_spaced name = true /\
      dict_find r "brand" = Some (VStr "Acme") /\
      dict_find r "type" = Some (VStr (Generic.detect_type_from_name "resin" name)) /\
      dict_find r "tags"
      = Some (VList [VStr (Generic.detect_type_from_name "resin" name)]) /\
      dict_find r "color" = Some (VStr (detect_color_from_name name).1))
    [ [ ("brand", VStr "Acme"); ("fuente_datos", VStr "web");
        ("name", VStr "Tough Resin Grey");
        ("image", VStr "https://cdn.example/a.png");
        ("type", VStr "Tough"); ("color", VStr "#808080");
        ("color_name", VStr "Grey"); ("tags", VList [VStr "Tough"]) ] ].
Proof.
  destruct (generic_products_shape (fun _ => FloatValueError) "Acme"
              "https://acme.example/" "resin" (Some sample_page)) as [Hshape Htotal].
  split.
  - apply Htotal. intros v. discriminate.
  - apply Hshape. vm_compute. reflexivity.
Defined.

(** The page of two cards gives one product, the card without a title text
    being dropped. *)
Lemma generic_sample_products :
  scrape_products (fun _ => FloatValueError) "Acme" "https://acme.example/" "resin"
    (Some sample_page)
  = Some [ [ ("brand", VStr "Acme"); ("fuente_datos", VStr "web");
             ("name", VStr "Tough Resin Grey");
             ("image", VStr "https://cdn.example/a.png");
             ("type", VStr "Tough"); ("color", VStr "#808080");
             ("color_name", VStr "Grey"); ("tags", VList [VStr "Tough"]) ] ].
Proof. vm_compute. reflexivity. Qed.

(** ** Image files *)




(** Names that differ in punctuation share one file; an address without a
    known extension is stored as [jpg]; a name outside ASCII is not
    covered. *)
Lemma download_image_examples :
  download_image "https://cdn.example/a.png" "resin" "Acme" "PLA+" Present
  = download_image "https://cdn.example/a.png" "resin" "Acme" "PLA" Present /\
  download_image "https://cdn.example/image" "Resins" "Acme" "Tough" (Status 200)
  = Some (Some "images/resins/acme_tough.jpg") /\
  download_image "https://cdn.example/a.png" "resin" "Acme" "Tough" (Status 404)
  = Some None /\
  download_image "data:image/png;base64,AAAA" "resin" "Acme" "Tough" Present
  = Some None /\
  download_image "https://cdn.example/a.png" "resin" "Acme" "Café" Present = None.
Proof. repeat split; vm_compute; reflexivity. Qed.

(** ** JSON strategy *)

Lemma probe_truthy (item : dict) (keys : list string) (x : value) :
  truthy (probe item keys x) = true ->
  truthy x = true \/
  exists key, key ∈ keys /\ dict_find item key = Some (probe item keys x).
Proof.
  revert x. induction keys as [|key r IH]; intros x; simpl; [by left|].
  destruct (truthy (dict_get item key VNone)) eqn:Ht.
  - intros _. right. exists key. split; [apply list_elem_of_here|].
    by apply truthy_get_find.
  - intros H. destruct (IH _ H) as [Hx|(k & Hk & Hfind)]; [congruence|].
    right. exists k. split; [by apply list_elem_of_further|done].
Qed.

(** Where a record of the JSON strategy comes from. *)
Lemma scrape_json_origin py_float py_format (data : value) (brand : string)
    (data_path : list string) (name_key image_key price_key : string) :
  Forall (fun r =>
            dict_find r "brand" = Some (VStr brand) /\
            exists data' item key v,
              navigate data data_path = Some data' /\
              VDict item ∈ json_items data' /\
              key ∈ [name_key; "name"; "title"; "product_name"; "nombre"] /\
              dict_find item key = Some v /\
              truthy v = true /\
              dict_find r "name" = Some (VStr (py_str py_format v)))
    (scrape_json py_float py_format (Some data) brand data_path
       name_key image_key price_key).
Proof.
  unfold scrape_json.
  destruct (navigate data data_path) as [data'|]; [|constructor].
  cbn [mbind option_bind].
  destruct (run_loop _ (json_items data')) as [out|] eqn:Hout; [|constructor].
  apply run_loop_emitted in Hout. cbn [default from_option id].
  eapply Forall_impl; [exact Hout|].
  intros r (item & Hin & Hitem). unfold json_record in Hitem.
  destruct item as [| | | | |item]; try done.
  destruct (truthy (probe item _ VNone)) eqn:Ht; [|done].
  destruct (json_price py_float py_format item price_key); [|done].
  injection Hitem as <-. split; [done|].
  destruct (probe_truthy _ _ _ Ht) as [?|(key & Hkey & Hfind)]; [done|].
  exists data', item, key,
    (probe item [name_key; "name"; "title"; "product_name"; "nombre"] VNone).
  done.
Qed.

(** X29: every record of the JSON strategy carries the given brand and
    comes from an item of the list the data path leads to: the item is a
    mapping and holds, under the configured name key or one of the four
    stock keys, a value that is not empty, and the record's name is the
    text of that value.  Without a decoded response there is no record.
    Where [str] gives no empty text for a non-empty value, no record has an
    empty name. *)
Theorem scrape_json_records py_float py_format (response : option value)
    (brand : string) (data_path : list string)
    (name_key image_key price_key : string) :
  Forall (fun r =>
            dict_find r "brand" = Some (VStr brand) /\
            exists data data' item key v,
              response = Some data /\
              navigate data data_path = Some data' /\
              VDict item ∈ json_items data' /\
              key ∈ [name_key; "name"; "title"; "product_name"; "nombre"] /\
              dict_find item key = Some v /\
              truthy v = true /\
              dict_find r "name" = Some (VStr (py_str py_format v)))
    (scrape_json py_float py_format response brand data_path
       name_key image_key price_key) /\
  ((forall v, truthy v = true -> py_format v <> "") ->
   Forall (fun r => exists name, dict_find r "name" = Some (VStr name) /\ name <> "")
     (scrape_json py_float py_format response brand data_path
        name_key image_key price_key)).
Proof.
  destruct response as [data|]; [|split; [constructor|intros _; constructor]].
  pose proof (scrape_json_origin py_float py_format data brand data_path
                name_key image_key price_key) as Hmain.
  split.
  - eapply Forall_impl; [exact Hmain|].
    intros r (Hb & data' & item & key & v & Hnav & Hin & Hkey & Hfind & Hv & Hname).
    split; [done|]. by exists data, data', item, key, v.
  - intros Hstr. eapply Forall_impl; [exact Hmain|].
    intros r (_ & _ & _ & _ & v & _ & _ & _ & _ & Hv & Hname).
    exists (py_str py_format v). split; [done|].
    destruct v; try (by apply Hstr).
    simpl in *. by apply negb_true_iff, String.eqb_neq in Hv.
Qed.

Lemma scrape_json_records_witness :
  Forall (fun r => exists name, dict_find r "name" = Some (VStr name) /\ name <> "")
    (scrape_json (fun _ => FloatValueError) (fun _ => "?") (Some sample_response)
       "Acme" ["data"; "0"; "rows"] "title" "image" "price").
Proof.
  apply (proj2 (scrape_json_records (fun _ => FloatValueError) (fun _ => "?")
                  (Some sample_response) "Acme" ["data"; "0"; "rows"]
                  "title" "image" "price")).
  intros v _. discriminate.
Defined.

(** Of the three items one is no mapping and one has an empty name; an
    index past the end of a list loses the whole response. *)
Lemma scrape_json_examples :
  scrape_json (fun _ => FloatValueError) (fun _ => "?") (Some sample_response)
    "Acme" ["data"; "0"; "rows"] "title" "image" "price"
  = [ [ ("brand", VStr "Acme"); ("name", VStr "Tough Resin"); ("image", VNone);
        ("price", VNone); ("fuente_datos", VStr "json_api") ] ] /\
  scrape_json (fun _ => FloatValueError) (fun _ => "?") (Some sample_response)
    "Acme" ["data"; "1"; "rows"] "title" "image" "price" = [] /\
  price_text "19,90 €" = "19.90 ".
Proof. repeat split; vm_compute; reflexivity. Qed.
